(** * SharpRemote: postmortem debugging (PostmortemDebugging.cpp)

    A shallow embedding of the minidump collection code of
    [src/SharpRemote/PostmortemDebugging.cpp]: the dump-name check, the
    folder creation, the retention scan, the file-name builder, the capture
    routine and the exported entry points, followed by the properties of the
    specification stated over them.

    Conventions of the embedding.
    - [wchar_t] strings are Rocq [string]s: a NUL-terminated buffer is the
      string of the characters before the NUL.
    - [BOOL] is [bool] ([TRUE] = [true]); [int], [DWORD], [HANDLE], pointers
      and [FILETIME] are [Z].  The only arithmetic on an [int] is
      [numFiles + 1] with [numFiles] below the retained count, so it never
      wraps.
    - The process globals are the record [Globals]; everything owned by the
      operating system (files, the thread's last-error value, the answers of
      the system calls, and the list of system calls issued so far) is the
      record [World].  Every function is a state transformer over both. *)

From Stdlib Require Import ZArith List String Ascii Bool Lia.
From Stdlib Require Import DecimalString DecimalN.
Import ListNotations.

Open Scope string_scope.
Open Scope Z_scope.

(** ** Wide-character string primitives *)

Module WStr.

(** The quote character, code 34. *)
Definition quote : ascii := "034"%char.
Definition backslash : ascii := "\"%char.

Definition wcslen (s : string) : Z := Z.of_nat (String.length s).

(** [wcschr s c]: the suffix of [s] starting at the first [c], or [None]
    for the null pointer. *)
Fixpoint wcschr (s : string) (c : ascii) : option string :=
  match s with
  | EmptyString => None
  | String d rest => if Ascii.eqb d c then Some s else wcschr rest c
  end.

Fixpoint starts_with (sub s : string) : bool :=
  match sub, s with
  | EmptyString, _ => true
  | String _ _, EmptyString => false
  | String a sub', String b s' => Ascii.eqb a b && starts_with sub' s'
  end.

(** [wcsstr s sub]: the suffix of [s] starting at the first occurrence of
    [sub], or [None] for the null pointer. *)
Fixpoint wcsstr (s sub : string) : option string :=
  if starts_with sub s then Some s
  else match s with
       | EmptyString => None
       | String _ rest => wcsstr rest sub
       end.

(** [wcscmp a b] is 0 exactly when the strings are equal; only that is
    used by the code. *)
Definition wcscmp (a b : string) : Z :=
  match String.compare a b with Eq => 0 | Lt => -1 | Gt => 1 end.

Definition is_null {A} (p : option A) : bool :=
  match p with None => true | Some _ => false end.

(** The last character of a buffer, [s[wcslen(s)-1]]. *)
Fixpoint last_char (s : string) : option ascii :=
  match s with
  | EmptyString => None
  | String c EmptyString => Some c
  | String _ rest => last_char rest
  end.

(** Occurrence of a character and of a substring, stated by
    decomposition of the string. *)
Definition contains_char (c : ascii) (s : string) : Prop :=
  exists pre post, s = pre ++ String c post.

Definition contains_sub (t s : string) : Prop :=
  exists pre post, s = pre ++ t ++ post.

End WStr.
Import WStr.

(** ** Windows types and constants

    These come from the Windows SDK headers, not from the repository. *)

Definition BOOL := bool.
Definition TRUE : BOOL := true.
Definition FALSE : BOOL := false.
Definition DWORD := Z.
Definition HANDLE := Z.
Definition FILETIME := Z.

Definition nullptr : Z := 0.
Definition INVALID_HANDLE_VALUE : HANDLE := -1.

Definition ERROR_SUCCESS : DWORD := 0.
Definition ERROR_FILE_NOT_FOUND : DWORD := 2.
Definition ERROR_ACCESS_DENIED : DWORD := 5.
Definition ERROR_BAD_ARGUMENTS : DWORD := 160.
Definition ERROR_ALREADY_EXISTS : DWORD := 183.

Definition PROCESS_DUP_HANDLE : DWORD := 64.
Definition PROCESS_QUERY_INFORMATION : DWORD := 1024.
Definition PROCESS_VM_READ : DWORD := 16.

Definition MiniDumpNormal : Z := 0.

Record SYSTEMTIME := {
  wYear : Z;
  wMonth : Z;
  wDayOfWeek : Z;
  wDay : Z;
  wHour : Z;
  wMinute : Z;
  wSecond : Z;
  wMilliseconds : Z
}.

Record WIN32_FIND_DATA := {
  cFileName : string;
  ftLastWriteTime : FILETIME
}.

Record MINIDUMP_EXCEPTION_INFORMATION := {
  ThreadId : DWORD;
  ExceptionPointers : Z;
  ClientPointers : BOOL
}.

(** [CompareFileTime a b]: -1, 0 or 1 as [a] is earlier than, equal to or
    later than [b]. *)
Definition CompareFileTime (a b : FILETIME) : Z :=
  match a ?= b with Lt => -1 | Eq => 0 | Gt => 1 end.

(** [PathIsRelative] of shlwapi: a path is absolute when it starts with a
    backslash or has a colon as its second character. *)
Definition PathIsRelative (p : string) : BOOL :=
  match p with
  | EmptyString => TRUE
  | String c rest =>
      if Ascii.eqb c backslash then FALSE
      else match rest with
           | String d _ => if Ascii.eqb d ":"%char then FALSE else TRUE
           | EmptyString => TRUE
           end
  end.

(** Decimal rendering of an unsigned number, as [operator<<] of a wide
    stream prints a [WORD] or a [DWORD]. *)
Definition dec (n : Z) : string :=
  NilEmpty.string_of_uint (N.to_uint (Z.to_N n)).

(** Decimal rendering of a signed number, as a wide stream prints an [int]
    or a [long]. *)
Definition dec_int (n : Z) : string :=
  if n <? 0 then "-" ++ dec (- n) else dec n.

(** An [HRESULT] is a signed 32-bit [long].  [HRESULT_of_DWORD e] is the
    value a [DWORD] has once it is stored in one: the values from [2^31] on
    become negative.  The values of a [DWORD] are [0] to [2^32 - 1]. *)
Definition HRESULT := Z.

Definition HRESULT_of_DWORD (e : DWORD) : HRESULT :=
  if (2 ^ 31 <=? e) && (e <? 2 ^ 32) then e - 2 ^ 32 else e.

(** ** The process globals (lines 16-27) *)

Record Globals := {
  _collectDumps : bool;
  _numRetainedMinidumps : Z;
  _dateTimeBuffer : string;
  _dumpFolder : string;
  _dumpName : string;
  _minidumpStringBuilder : string;
  _minidumpFileName : string;
  _minidumpPattern : string;
  _tmpPath : string;
  _oldestFileFullName : string
}.

(** The globals as the program starts. *)
Definition initial_globals : Globals :=
  {| _collectDumps := false; _numRetainedMinidumps := 0;
     _dateTimeBuffer := ""; _dumpFolder := ""; _dumpName := "";
     _minidumpStringBuilder := ""; _minidumpFileName := "";
     _minidumpPattern := ""; _tmpPath := ""; _oldestFileFullName := "" |}.

(** ** The operating system *)

(** A regular file: the directory it is in (with the trailing backslash),
    its name, and its last-write time. *)
Record File := {
  fileDir : string;
  fileName : string;
  fileTime : FILETIME
}.

Definition filePath (f : File) : string := fileDir f ++ fileName f.

(** The calls the program issues, in the order it issues them. *)
Inductive Event :=
| EvLog (msg : string)
| EvSetLastError (err : DWORD)
| EvCreateDirectory (folder : string)
| EvFindFirstFile (pattern : string)
| EvDeleteFile (path : string)
| EvCreateFile (path : string) (result : HANDLE)
| EvLoadLibrary (name : string)
| EvGetProcAddress (module : Z) (name : string)
| EvMiniDumpWriteDump (hProcess : HANDLE) (processId : Z) (hFile : HANDLE)
    (dumpType : Z) (exceptionParam : option MINIDUMP_EXCEPTION_INFORMATION)
| EvCloseHandle (h : HANDLE)
| EvOpenProcess (access : DWORD) (processId : Z) (result : HANDLE).

(** The answers of the system calls whose outcome the program cannot
    determine.  An error answer is the last-error code the call leaves. *)
Record Answers := {
  ans_CreateDirectory : string -> DWORD;
  ans_FindFirstFile : string -> option DWORD;
  ans_DeleteFile : string -> option DWORD;
  ans_CreateFile : string -> HANDLE;
  ans_CreateFile_error : string -> DWORD;
  ans_LoadLibrary : string -> Z;
  ans_GetProcAddress : Z -> string -> Z;
  ans_MiniDumpWriteDump : BOOL;
  ans_CloseHandle : HANDLE -> BOOL;
  ans_CloseHandle_error : HANDLE -> DWORD;
  ans_OpenProcess : Z -> HANDLE;
  ans_LocalTime : SYSTEMTIME;
  ans_FileTimeNow : FILETIME;
  ans_CurrentThreadId : DWORD;
  ans_CurrentProcess : HANDLE;
  ans_CurrentProcessId : Z
}.

Record World := {
  files : list File;
  lastError : DWORD;
  calls : list Event;
  answers : Answers
}.

Definition set_files (fs : list File) (w : World) : World :=
  {| files := fs; lastError := lastError w; calls := calls w;
     answers := answers w |}.

Definition set_lastError (e : DWORD) (w : World) : World :=
  {| files := files w; lastError := e; calls := calls w;
     answers := answers w |}.

Definition emit (e : Event) (w : World) : World :=
  {| files := files w; lastError := lastError w; calls := calls w ++ [e];
     answers := answers w |}.

(** *** Wildcard matching and directory enumeration *)

(** [wildcard p s]: the name [s] matches the pattern [p], where [*] stands
    for any run of characters and [?] for any one character. *)
Fixpoint wildcard (p s : string) : bool :=
  match p with
  | EmptyString => match s with EmptyString => true | _ => false end
  | String c p' =>
      if Ascii.eqb c "*"%char then
        (fix star (t : string) : bool :=
           wildcard p' t
           || match t with
              | EmptyString => false
              | String _ t' => star t'
              end) s
      else
        match s with
        | EmptyString => false
        | String d s' =>
            (Ascii.eqb c "?"%char || Ascii.eqb c d) && wildcard p' s'
        end
  end.

(** Splits a path after its last backslash: directory part (with the
    backslash) and name part. *)
Fixpoint splitPath (s : string) : string * string :=
  match s with
  | EmptyString => (EmptyString, EmptyString)
  | String c rest =>
      let '(d, n) := splitPath rest in
      match d with
      | EmptyString =>
          if Ascii.eqb c backslash then (String c EmptyString, n)
          else (EmptyString, String c n)
      | _ => (String c d, n)
      end
  end.

Definition find_data (f : File) : WIN32_FIND_DATA :=
  {| cFileName := fileName f; ftLastWriteTime := fileTime f |}.

(** The directory entries a search for [pattern] yields, in the order of
    the directory. *)
Definition matching (pattern : string) (fs : list File)
  : list WIN32_FIND_DATA :=
  let '(dir, glob) := splitPath pattern in
  map find_data
      (filter (fun f => String.eqb (fileDir f) dir
                        && wildcard glob (fileName f)) fs).

(** ** The state monad of the program *)

Definition M (A : Type) : Type := Globals -> World -> A * Globals * World.

Definition ret {A} (a : A) : M A := fun g w => (a, g, w).

Definition bind {A B} (m : M A) (k : A -> M B) : M B :=
  fun g w => let '(a, g', w') := m g w in k a g' w'.

Declare Scope prog_scope.
Delimit Scope prog_scope with prog.
Notation "x <- m ;; k" := (bind m (fun x => k))
  (at level 100, m at next level, right associativity) : prog_scope.
Notation "m ;; k" := (bind m (fun _ => k))
  (at level 100, right associativity) : prog_scope.
Open Scope prog_scope.

Definition get_globals : M Globals := fun g w => (g, g, w).
Definition put_globals (g' : Globals) : M unit := fun _ w => (tt, g', w).
Definition sys (e : Event) : M unit := fun g w => (tt, g, emit e w).

(** *** System calls *)

Definition SetLastError (e : DWORD) : M unit :=
  fun g w => (tt, g, set_lastError e (emit (EvSetLastError e) w)).

Definition GetLastError : M DWORD := fun g w => (lastError w, g, w).

Definition CreateDirectory (folder : string) : M BOOL :=
  fun g w =>
    let w := emit (EvCreateDirectory folder) w in
    let err := ans_CreateDirectory (answers w) folder in
    if err =? ERROR_SUCCESS then (TRUE, g, w)
    else (FALSE, g, set_lastError err w).

(** [FindFirstFile]: the first entry and, standing for the search handle,
    the entries [FindNextFile] will return; [None] is
    [INVALID_HANDLE_VALUE]. *)
Definition FindFirstFile (pattern : string)
  : M (option (WIN32_FIND_DATA * list WIN32_FIND_DATA)) :=
  fun g w =>
    let w := emit (EvFindFirstFile pattern) w in
    match ans_FindFirstFile (answers w) pattern with
    | Some err => (None, g, set_lastError err w)
    | None =>
        match matching pattern (files w) with
        | [] => (None, g, set_lastError ERROR_FILE_NOT_FOUND w)
        | fd :: rest => (Some (fd, rest), g, w)
        end
    end.

(** [DeleteFile]: removes the file with exactly that path; fails when the
    system refuses or when there is no such file. *)
Definition DeleteFile (path : string) : M BOOL :=
  fun g w =>
    let w := emit (EvDeleteFile path) w in
    match ans_DeleteFile (answers w) path with
    | Some err => (FALSE, g, set_lastError err w)
    | None =>
        if existsb (fun f => String.eqb (filePath f) path) (files w)
        then (TRUE, g,
              set_files
                (filter (fun f => negb (String.eqb (filePath f) path))
                        (files w)) w)
        else (FALSE, g, set_lastError ERROR_FILE_NOT_FOUND w)
    end.

(** [CreateFile] with [CREATE_ALWAYS]: on success the file exists
    afterwards, replacing one of the same path. *)
Definition CreateFile (path : string) : M HANDLE :=
  fun g w =>
    let h := ans_CreateFile (answers w) path in
    let w := emit (EvCreateFile path h) w in
    if h =? INVALID_HANDLE_VALUE
    then (h, g, set_lastError (ans_CreateFile_error (answers w) path) w)
    else
      let '(d, n) := splitPath path in
      (h, g,
       set_files
         (filter (fun f => negb (String.eqb (filePath f) path)) (files w)
          ++ [{| fileDir := d; fileName := n;
                 fileTime := ans_FileTimeNow (answers w) |}]) w).

Definition LoadLibrary (name : string) : M Z :=
  fun g w => (ans_LoadLibrary (answers w) name, g, emit (EvLoadLibrary name) w).

Definition GetProcAddress (module : Z) (name : string) : M Z :=
  fun g w => (ans_GetProcAddress (answers w) module name, g,
              emit (EvGetProcAddress module name) w).

Definition MiniDumpWriteDump (hProcess : HANDLE) (processId : Z)
    (hFile : HANDLE) (dumpType : Z)
    (exceptionParam : option MINIDUMP_EXCEPTION_INFORMATION) : M BOOL :=
  fun g w =>
    (ans_MiniDumpWriteDump (answers w), g,
     emit (EvMiniDumpWriteDump hProcess processId hFile dumpType
                               exceptionParam) w).

Definition CloseHandle (h : HANDLE) : M BOOL :=
  fun g w =>
    let w := emit (EvCloseHandle h) w in
    if ans_CloseHandle (answers w) h then (TRUE, g, w)
    else (FALSE, g, set_lastError (ans_CloseHandle_error (answers w) h) w).

Definition OpenProcess (access : DWORD) (processId : Z) : M HANDLE :=
  fun g w =>
    let h := ans_OpenProcess (answers w) processId in
    (h, g, emit (EvOpenProcess access processId h) w).

Definition GetLocalTime : M SYSTEMTIME :=
  fun g w => (ans_LocalTime (answers w), g, w).

Definition GetCurrentThreadId : M DWORD :=
  fun g w => (ans_CurrentThreadId (answers w), g, w).

Definition GetCurrentProcess : M HANDLE :=
  fun g w => (ans_CurrentProcess (answers w), g, w).

Definition GetCurrentProcessId : M Z :=
  fun g w => (ans_CurrentProcessId (answers w), g, w).

(** Modelled from the spec: the macros [LOG1] .. [LOG4] of [Logging.h],
    which is not among the sources.  The specification treats logging as a
    sink accepting text messages: a log call records the concatenation of
    its arguments. *)
Definition LOG1 (a : string) : M unit := sys (EvLog a).
Definition LOG2 (a b : string) : M unit := sys (EvLog (a ++ b)).
Definition LOG4 (a b c d : string) : M unit :=
  sys (EvLog (a ++ b ++ c ++ d)).

(** *** Assignments to the globals *)

Definition assign_tmpPath (s : string) : M unit :=
  fun g w =>
    (tt,
     {| _collectDumps := _collectDumps g;
        _numRetainedMinidumps := _numRetainedMinidumps g;
        _dateTimeBuffer := _dateTimeBuffer g;
        _dumpFolder := _dumpFolder g;
        _dumpName := _dumpName g;
        _minidumpStringBuilder := _minidumpStringBuilder g;
        _minidumpFileName := _minidumpFileName g;
        _minidumpPattern := _minidumpPattern g;
        _tmpPath := s;
        _oldestFileFullName := _oldestFileFullName g |}, w).

Definition assign_oldestFileFullName (s : string) : M unit :=
  fun g w =>
    (tt,
     {| _collectDumps := _collectDumps g;
        _numRetainedMinidumps := _numRetainedMinidumps g;
        _dateTimeBuffer := _dateTimeBuffer g;
        _dumpFolder := _dumpFolder g;
        _dumpName := _dumpName g;
        _minidumpStringBuilder := _minidumpStringBuilder g;
        _minidumpFileName := _minidumpFileName g;
        _minidumpPattern := _minidumpPattern g;
        _tmpPath := _tmpPath g;
        _oldestFileFullName := s |}, w).

(** [name << s] on the global string stream: the characters are appended
    to what the stream already holds. *)
Definition stream_put (s : string) : M unit :=
  fun g w =>
    (tt,
     {| _collectDumps := _collectDumps g;
        _numRetainedMinidumps := _numRetainedMinidumps g;
        _dateTimeBuffer := _dateTimeBuffer g;
        _dumpFolder := _dumpFolder g;
        _dumpName := _dumpName g;
        _minidumpStringBuilder := _minidumpStringBuilder g ++ s;
        _minidumpFileName := _minidumpFileName g;
        _minidumpPattern := _minidumpPattern g;
        _tmpPath := _tmpPath g;
        _oldestFileFullName := _oldestFileFullName g |}, w).

Definition assign_minidumpFileName (s : string) : M unit :=
  fun g w =>
    (tt,
     {| _collectDumps := _collectDumps g;
        _numRetainedMinidumps := _numRetainedMinidumps g;
        _dateTimeBuffer := _dateTimeBuffer g;
        _dumpFolder := _dumpFolder g;
        _dumpName := _dumpName g;
        _minidumpStringBuilder := _minidumpStringBuilder g;
        _minidumpFileName := s;
        _minidumpPattern := _minidumpPattern g;
        _tmpPath := _tmpPath g;
        _oldestFileFullName := _oldestFileFullName g |}, w).

(** ** CheckDumpNameConstraints (lines 29-45) *)

Definition CheckDumpNameConstraints (dumpName : string) : BOOL :=
  let dumpNameLength := wcslen dumpName in
  if negb (is_null (wcschr dumpName "/"%char))
     || negb (is_null (wcschr dumpName backslash))
     || negb (is_null (wcsstr dumpName ".."))
     || negb (is_null (wcsstr dumpName ":"))
     || negb (is_null (wcsstr dumpName "*"))
     || negb (is_null (wcsstr dumpName "?"))
     || negb (is_null (wcsstr dumpName (String quote EmptyString)))
     || (dumpNameLength =? 0)
  then FALSE
  else TRUE.

(** ** CreateMinidumpFolder (lines 47-83)

    [prefix] is [std::wstring(start, it)], the characters before the
    iterator; [rest] the characters from the iterator on.  [std::find]
    skips the characters that are not a backslash.  Line 65 stores the
    last error in an [HRESULT], so the comparison and the log line see the
    signed value. *)

Fixpoint CreateMinidumpFolder_loop (prefix rest : string) : M BOOL :=
  match rest with
  | EmptyString =>
      LOG1 "Created directory" ;;
      ret TRUE
  | String c rest' =>
      let next := CreateMinidumpFolder_loop (prefix ++ String c EmptyString)
                                            rest' in
      if Ascii.eqb c backslash then
        let folder := prefix in
        if negb ((wcslen folder =? 2)
                 && match String.get 1 folder with
                    | Some d => Ascii.eqb d ":"%char
                    | None => false
                    end)
        then
          LOG2 "Creating directory: '" folder ;;
          ok <- CreateDirectory folder ;;
          if Bool.eqb ok FALSE then
            lastError <- GetLastError ;;
            let err : HRESULT := HRESULT_of_DWORD lastError in
            if negb (err =? ERROR_ALREADY_EXISTS) then
              LOG4 "CreateDirectory '" folder "'failed: " (dec_int err) ;;
              ret FALSE
            else next
          else next
        else next
      else next
  end.

Definition CreateMinidumpFolder : M BOOL :=
  g <- get_globals ;;
  CreateMinidumpFolder_loop EmptyString (_dumpFolder g).

(** ** RemoveOldMinidumps (lines 85-149)

    The body of the do-while loop runs for the entry [fdFile]; [rest] are
    the entries [FindNextFile] still has to return.  [folder] is the
    pointer the source names so: the characters of [_minidumpPattern]. *)

Fixpoint RemoveOldMinidumps_loop (folder : string)
    (fdFile : WIN32_FIND_DATA) (rest : list WIN32_FIND_DATA)
    (numFiles : Z) (oldestFileTime : FILETIME) : M BOOL :=
  let continue (numFiles : Z) (oldestFileTime : FILETIME) : M BOOL :=
    match rest with
    | [] =>
        LOG1 "Removed old minidumps" ;;
        ret TRUE
    | fdNext :: rest' =>
        RemoveOldMinidumps_loop folder fdNext rest' numFiles oldestFileTime
    end in
  if negb (wcscmp (cFileName fdFile) "." =? 0)
     && negb (wcscmp (cFileName fdFile) ".." =? 0)
  then
    assign_tmpPath (folder ++ cFileName fdFile) ;;
    g <- get_globals ;;
    oldestFileTime <-
      (if numFiles =? 0 then
         assign_oldestFileFullName (_tmpPath g) ;;
         ret (ftLastWriteTime fdFile)
       else if CompareFileTime oldestFileTime (ftLastWriteTime fdFile) =? 1
       then
         assign_oldestFileFullName (_tmpPath g) ;;
         ret (ftLastWriteTime fdFile)
       else ret oldestFileTime) ;;
    g <- get_globals ;;
    if numFiles + 1 >=? _numRetainedMinidumps g then
      ok <- DeleteFile (_oldestFileFullName g) ;;
      if negb ok then
        err <- GetLastError ;;
        LOG2 "DeleteFile failed: " (dec err) ;;
        ret FALSE
      else continue numFiles oldestFileTime
    else continue (numFiles + 1) oldestFileTime
  else continue numFiles oldestFileTime.

Definition RemoveOldMinidumps : M BOOL :=
  g <- get_globals ;;
  LOG2 "Removing old minidumps, pattern: " (_minidumpPattern g) ;;
  let folder := _minidumpPattern g in
  found <- FindFirstFile folder ;;
  match found with
  | None =>
      err <- GetLastError ;;
      if err =? ERROR_FILE_NOT_FOUND then
        LOG1 "No previous dump files found" ;;
        ret TRUE
      else
        LOG2 "FindFirstFile failed: " (dec err) ;;
        ret FALSE
  | Some (fdFile, rest) =>
      (* [oldestFileTime] is not initialised; it is assigned in the first
         iteration that reads it, since [numFiles] is 0 there. *)
      RemoveOldMinidumps_loop folder fdFile rest 0 0
  end.

(** ** CreateMinidumpFileName (lines 151-177) *)

Definition CreateMinidumpFileName : M unit :=
  time <- GetLocalTime ;;
  g <- get_globals ;;
  stream_put (_dumpFolder g) ;;
  stream_put (_dumpName g) ;;
  stream_put "_" ;;
  (if wDay time <? 10 then stream_put "0" else ret tt) ;;
  stream_put (dec (wDay time)) ;;
  stream_put "." ;;
  (if wMonth time <? 10 then stream_put "0" else ret tt) ;;
  stream_put (dec (wMonth time)) ;;
  stream_put "." ;;
  stream_put (dec (wYear time)) ;;
  stream_put " - " ;;
  stream_put (dec (wHour time)) ;;
  stream_put "_" ;;
  stream_put (dec (wMinute time)) ;;
  stream_put "_" ;;
  stream_put (dec (wSecond time)) ;;
  stream_put ".dmp" ;;
  g <- get_globals ;;
  assign_minidumpFileName (_minidumpStringBuilder g) ;;
  g <- get_globals ;;
  LOG2 "Minidump file name: " (_minidumpFileName g).

(** ** CreateMiniDump, the capture routine (lines 179-258)

    The source overloads the name [CreateMiniDump] three times; the
    capture routine with four parameters is [CreateMiniDump_capture], the
    one called by the fault handlers is [CreateMiniDump_fault], and the
    exported function keeps the name [CreateMiniDump]. *)

Definition CreateMiniDump_capture (exceptionPointers : Z)
    (processHandle : HANDLE) (processId : Z) (dumpName : string) : M unit :=
  LOG1 "Creating Mini dump..." ;;
  ok <- CreateMinidumpFolder ;;
  if Bool.eqb ok FALSE then ret tt
  else
    ok <- RemoveOldMinidumps ;;
    (if Bool.eqb ok FALSE
     then LOG1 "Failed to remove old minidumps, ignoring it..."
     else ret tt) ;;
    LOG1 "Creating name..." ;;
    CreateMinidumpFileName ;;
    g <- get_globals ;;
    hFile <- CreateFile (_minidumpFileName g) ;;
    if hFile =? INVALID_HANDLE_VALUE then
      err <- GetLastError ;;
      LOG2 "CreateFile returned INVALID_HANDLE_VALUE: GetLastError()="
           (dec err) ;;
      ret tt
    else
      dbghelp <- LoadLibrary "DbgHelp.dll" ;;
      if dbghelp =? nullptr then ret tt
      else
        miniDumpWriteDump <- GetProcAddress dbghelp "MiniDumpWriteDump" ;;
        if miniDumpWriteDump =? nullptr then ret tt
        else
          if negb (hFile =? nullptr) && negb (hFile =? INVALID_HANDLE_VALUE)
          then
            tid <- GetCurrentThreadId ;;
            let info := {| ThreadId := tid;
                           ExceptionPointers := exceptionPointers;
                           ClientPointers := TRUE |} in
            let mdt := MiniDumpNormal in
            rv <- MiniDumpWriteDump processHandle processId hFile mdt
                    (if negb (exceptionPointers =? nullptr)
                     then Some info else None) ;;
            (if negb (Bool.eqb rv FALSE)
             then LOG1 "Minidump saved"
             else LOG1 "MiniDumpWriteDump returned FALSE, unable to write a minidump") ;;
            closed <- CloseHandle hFile ;;
            if Bool.eqb closed FALSE then
              err <- GetLastError ;;
              LOG2 "CloseHandle failed: GetLastError()=" (dec err)
            else ret tt
          else ret tt.

(** The overload taking only the exception pointers (lines 260-273). *)
Definition CreateMiniDump_fault (exceptionPointers : Z) : M unit :=
  g <- get_globals ;;
  if _collectDumps g then
    hProcess <- GetCurrentProcess ;;
    pid <- GetCurrentProcessId ;;
    CreateMiniDump_capture exceptionPointers hProcess pid (_dumpName g)
  else
    LOG1 "NOT creating a minidump because InitDumpCollection has NOT been called (yet)".

(** ** InitDumpCollection (lines 320-365)

    A null pointer argument is [None].  For an empty [dumpFolder] the source
    reads [dumpFolder[-1]]; whatever that read yields, the test rejects the
    folder, because [PathIsRelative] is [TRUE] for the empty path.  The two
    [reserve] calls change the capacity of the scratch buffers, not their
    contents, and have no counterpart here. *)

Definition InitDumpCollection (numRetainedMinidumps : Z)
    (dumpFolder dumpName : option string) : M BOOL :=
  LOG1 "Initializing mini dump collection..." ;;
  g <- get_globals ;;
  if _collectDumps g then
    SetLastError ERROR_ACCESS_DENIED ;;
    ret FALSE
  else
    match dumpFolder, dumpName with
    | Some folder, Some name =>
        if numRetainedMinidumps <=? 0 then
          SetLastError ERROR_BAD_ARGUMENTS ;;
          ret FALSE
        else if negb (is_null (wcschr folder "/"%char))
                || match last_char folder with
                   | Some c => negb (Ascii.eqb c backslash)
                   | None => true
                   end
                || Bool.eqb (PathIsRelative folder) TRUE
        then
          SetLastError ERROR_BAD_ARGUMENTS ;;
          ret FALSE
        else if Bool.eqb (CheckDumpNameConstraints name) FALSE then
          SetLastError ERROR_BAD_ARGUMENTS ;;
          ret FALSE
        else
          put_globals
            {| _collectDumps := _collectDumps g;
               _numRetainedMinidumps := numRetainedMinidumps;
               _dateTimeBuffer := _dateTimeBuffer g;
               _dumpFolder := folder;
               _dumpName := name;
               _minidumpStringBuilder := _minidumpStringBuilder g;
               _minidumpFileName := _minidumpFileName g;
               _minidumpPattern := (folder ++ name) ++ "*.dmp";
               _tmpPath := _tmpPath g;
               _oldestFileFullName := _oldestFileFullName g |} ;;
          LOG1 "Mini dump collection successfully installed!" ;;
          g <- get_globals ;;
          put_globals
            {| _collectDumps := true;
               _numRetainedMinidumps := _numRetainedMinidumps g;
               _dateTimeBuffer := _dateTimeBuffer g;
               _dumpFolder := _dumpFolder g;
               _dumpName := _dumpName g;
               _minidumpStringBuilder := _minidumpStringBuilder g;
               _minidumpFileName := _minidumpFileName g;
               _minidumpPattern := _minidumpPattern g;
               _tmpPath := _tmpPath g;
               _oldestFileFullName := _oldestFileFullName g |} ;;
          ret TRUE
    | _, _ =>
        (* numRetainedMinidumps <= 0 || dumpFolder == NULL || dumpName == NULL *)
        SetLastError ERROR_BAD_ARGUMENTS ;;
        ret FALSE
    end.

(** ** The exported CreateMiniDump (lines 405-442) *)

Definition CreateMiniDump (processId : Z) (dumpName : string) : M BOOL :=
  LOG1 "CreateMiniDump" ;;
  g <- get_globals ;;
  if Bool.eqb (_collectDumps g) false then
    SetLastError ERROR_ACCESS_DENIED ;;
    ret FALSE
  else if Bool.eqb (CheckDumpNameConstraints dumpName) FALSE then
    SetLastError ERROR_BAD_ARGUMENTS ;;
    ret FALSE
  else
    hProcess <- OpenProcess
                  (Z.lor (Z.lor PROCESS_QUERY_INFORMATION PROCESS_VM_READ)
                         PROCESS_DUP_HANDLE)
                  processId ;;
    if hProcess =? nullptr then
      LOG1 "OpenProcess failed..." ;;
      ret FALSE
    else
      CreateMiniDump_capture nullptr hProcess processId dumpName ;;
      CloseHandle hProcess ;;
      ret TRUE.

(** ** Sequences of calls into the library

    The host process calls the exported functions and the fault handlers
    in any order.  Between two calls the operating system may have changed
    arbitrarily, so every call comes with the world it runs in; only the
    globals are carried from one call to the next. *)

Inductive ApiCall :=
| CallInitDumpCollection (numRetainedMinidumps : Z)
    (dumpFolder dumpName : option string)
| CallCreateMiniDump (processId : Z) (dumpName : string)
| CallFaultCapture (exceptionPointers : Z).

Definition run_call (c : ApiCall) (g : Globals) (w : World)
  : Globals * World :=
  match c with
  | CallInitDumpCollection n folder name =>
      let '(_, g', w') := InitDumpCollection n folder name g w in (g', w')
  | CallCreateMiniDump pid name =>
      let '(_, g', w') := CreateMiniDump pid name g w in (g', w')
  | CallFaultCapture ep =>
      let '(_, g', w') := CreateMiniDump_fault ep g w in (g', w')
  end.

Fixpoint run_calls (cs : list (ApiCall * World)) (g : Globals) : Globals :=
  match cs with
  | [] => g
  | (c, w) :: cs' => run_calls cs' (fst (run_call c g w))
  end.

(** ** Reading the outcome of a run *)

Definition value_of {A} (r : A * Globals * World) : A := fst (fst r).
Definition globals_of {A} (r : A * Globals * World) : Globals := snd (fst r).
Definition world_of {A} (r : A * Globals * World) : World := snd r.

(** The configuration [InitDumpCollection] stores. *)
Definition config (g : Globals) : bool * Z * string * string * string :=
  (_collectDumps g, _numRetainedMinidumps g, _dumpFolder g, _dumpName g,
   _minidumpPattern g).

(** The globals a capture reads apart from the scratch buffers of the
    retention scan. *)
Definition same_but_scratch (g g' : Globals) : Prop :=
  config g' = config g
  /\ _dateTimeBuffer g' = _dateTimeBuffer g
  /\ _minidumpStringBuilder g' = _minidumpStringBuilder g
  /\ _minidumpFileName g' = _minidumpFileName g.

(** [extends P w w']: the run from [w] to [w'] left the answers of the
    system alone and issued calls that all satisfy [P]. *)
Definition extends (P : Event -> Prop) (w w' : World) : Prop :=
  answers w' = answers w
  /\ exists evs, calls w' = (calls w ++ evs)%list /\ Forall P evs.

Definition is_log (e : Event) : Prop :=
  match e with EvLog _ => True | _ => False end.

Definition folder_call (e : Event) : Prop :=
  match e with EvLog _ | EvCreateDirectory _ => True | _ => False end.

Definition retention_call (e : Event) : Prop :=
  match e with
  | EvLog _ | EvFindFirstFile _ | EvDeleteFile _ => True
  | _ => False
  end.

(** ** Notions of the specification *)

(** The entries the retention scan counts: every entry found except the
    directory entries [.] and [..]. *)
Definition is_dot_entry (name : string) : bool :=
  (wcscmp name "." =? 0) || (wcscmp name ".." =? 0).

Definition counted (entries : list WIN32_FIND_DATA)
  : list WIN32_FIND_DATA :=
  filter (fun fd => negb (is_dot_entry (cFileName fd))) entries.

Definition dumps_found (pattern : string) (fs : list File)
  : list WIN32_FIND_DATA :=
  counted (matching pattern fs).

(** The retention property in the words of the specification: of [N + k]
    matching files with distinct time stamps exactly [N] remain, the most
    recently written ones. *)
Definition retention_as_specified (g : Globals) (w : World) : Prop :=
  let N := _numRetainedMinidumps g in
  let before := matching (_minidumpPattern g) (files w) in
  let after := matching (_minidumpPattern g)
                        (files (world_of (RemoveOldMinidumps g w))) in
  N <= Z.of_nat (List.length before) ->
  NoDup (map ftLastWriteTime before) ->
  Z.of_nat (List.length after) = N
  /\ (forall e, In e after -> In e before)
  /\ (forall a b, In a after -> In b before -> ~ In b after ->
                  ftLastWriteTime b < ftLastWriteTime a).

(** A number written with at least two digits. *)
Definition pad2 (n : Z) : string :=
  (if n <? 10 then "0" else "") ++ dec n.

(** The value a string of decimal digits denotes. *)
Definition decimal_value (s : string) : option Z :=
  option_map (fun u => Z.of_N (N.of_uint u)) (NilEmpty.uint_of_string s).

(** The file name of a dump: day and month padded, the time of day not. *)
Definition dump_file_name (folder base : string) (t : SYSTEMTIME) : string :=
  folder ++ base ++ "_" ++ pad2 (wDay t) ++ "." ++ pad2 (wMonth t) ++ "."
  ++ dec (wYear t) ++ " - " ++ dec (wHour t) ++ "_" ++ dec (wMinute t)
  ++ "_" ++ dec (wSecond t) ++ ".dmp".

(** The contents of the string stream after captures at the times [ts]:
    the stream is never cleared, each capture appends its name. *)
Fixpoint names_written (folder base : string) (ts : list SYSTEMTIME)
  : string :=
  match ts with
  | [] => ""
  | t :: ts' => dump_file_name folder base t ++ names_written folder base ts'
  end.

(** The file name in the words of section 4.4 of the specification: day,
    month, hour, minute and second all padded to two digits. *)
Definition dump_file_name_all_padded (folder base : string) (t : SYSTEMTIME)
  : string :=
  folder ++ base ++ "_" ++ pad2 (wDay t) ++ "." ++ pad2 (wMonth t) ++ "."
  ++ dec (wYear t) ++ " - " ++ pad2 (wHour t) ++ "_" ++ pad2 (wMinute t)
  ++ "_" ++ pad2 (wSecond t) ++ ".dmp".

(** Seconds since the start of the month, to compare two times of one
    month. *)
Definition seconds_in_month (t : SYSTEMTIME) : Z :=
  ((wDay t * 24 + wHour t) * 60 + wMinute t) * 60 + wSecond t.

(** The exception parameter the dump writer is to receive for a fault
    context [ep] on thread [tid]. *)
Definition exception_param (tid : DWORD) (ep : Z)
  : option MINIDUMP_EXCEPTION_INFORMATION :=
  if ep =? nullptr then None
  else Some {| ThreadId := tid; ExceptionPointers := ep;
               ClientPointers := TRUE |}.

(** The globals once [CreateMinidumpFileName] has left [path] in the
    string stream and in [_minidumpFileName]. *)
Definition named (path : string) (g : Globals) : Globals :=
  {| _collectDumps := _collectDumps g;
     _numRetainedMinidumps := _numRetainedMinidumps g;
     _dateTimeBuffer := _dateTimeBuffer g;
     _dumpFolder := _dumpFolder g;
     _dumpName := _dumpName g;
     _minidumpStringBuilder := path;
     _minidumpFileName := path;
     _minidumpPattern := _minidumpPattern g;
     _tmpPath := _tmpPath g;
     _oldestFileFullName := _oldestFileFullName g |}.

(** The files after [CreateFile] answered [hFile] for [path]. *)
Definition files_after_CreateFile (a : Answers) (path : string)
    (fs : list File) : list File :=
  if ans_CreateFile a path =? INVALID_HANDLE_VALUE then fs
  else
    filter (fun f => negb (String.eqb (filePath f) path)) fs
    ++ [{| fileDir := fst (splitPath path); fileName := snd (splitPath path);
           fileTime := ans_FileTimeNow a |}].

(** The calls of a capture from [CreateFile] on, for the path [path] of
    the dump file; they depend only on the answers of the system. *)
Definition calls_from_CreateFile (a : Answers) (exceptionPointers : Z)
    (processHandle : HANDLE) (processId : Z) (path : string) : list Event :=
  let hFile := ans_CreateFile a path in
  let dbghelp := ans_LoadLibrary a "DbgHelp.dll" in
  EvCreateFile path hFile ::
  if hFile =? INVALID_HANDLE_VALUE then
    [EvLog ("CreateFile returned INVALID_HANDLE_VALUE: GetLastError()="
            ++ dec (ans_CreateFile_error a path))]
  else
    EvLoadLibrary "DbgHelp.dll" ::
    if dbghelp =? nullptr then []
    else
      EvGetProcAddress dbghelp "MiniDumpWriteDump" ::
      if ans_GetProcAddress a dbghelp "MiniDumpWriteDump" =? nullptr then []
      else if hFile =? nullptr then []
      else
        [EvMiniDumpWriteDump processHandle processId hFile MiniDumpNormal
           (exception_param (ans_CurrentThreadId a) exceptionPointers);
         EvLog (if ans_MiniDumpWriteDump a then "Minidump saved"
                else "MiniDumpWriteDump returned FALSE, unable to write a minidump");
         EvCloseHandle hFile]
        ++ (if ans_CloseHandle a hFile then []
            else [EvLog ("CloseHandle failed: GetLastError()="
                         ++ dec (ans_CloseHandle_error a hFile))]).

(** ** Runs that leave the configuration alone

    [tidy P m]: whatever the state, running [m] changes no global but the
    scratch buffers of the retention scan, leaves the answers of the system
    alone, issues only calls satisfying [P], and adds no file. *)

Definition tidy {A} (P : Event -> Prop) (m : M A) : Prop :=
  forall g w,
    same_but_scratch g (globals_of (m g w))
    /\ extends P w (world_of (m g w))
    /\ incl (files (world_of (m g w))) (files w).

(** ** Proof automation *)

(** Rewrites with the outcomes of the tests made so far. *)
Ltac use_tests :=
  repeat match goal with
         | H : answers _ = answers _ |- _ => rewrite H
         | H : _ = true |- _ => rewrite H
         | H : _ = false |- _ => rewrite H
         end.

(** Runs the straight-line part of a program on the current state. *)
Ltac run_prog :=
  cbv beta iota zeta delta
    [bind ret LOG1 LOG2 LOG4 sys get_globals put_globals GetLastError
     SetLastError CreateFile LoadLibrary GetProcAddress GetCurrentThreadId
     GetCurrentProcess GetCurrentProcessId OpenProcess
     MiniDumpWriteDump CloseHandle negb andb Bool.eqb FALSE TRUE];
  cbn [answers calls files lastError emit set_files set_lastError named
       _minidumpFileName fst snd].

Ltac run_known := run_prog; use_tests; run_prog.

(** ** Concrete scenarios *)

Module Scenario.

Definition at_time (h m s : Z) : SYSTEMTIME :=
  {| wYear := 2024; wMonth := 3; wDayOfWeek := 2; wDay := 5;
     wHour := h; wMinute := m; wSecond := s; wMilliseconds := 0 |}.

(** A system on which every call succeeds; the dump folder exists. *)
Definition obliging (t : SYSTEMTIME) : Answers :=
  {| ans_CreateDirectory := fun _ => ERROR_ALREADY_EXISTS;
     ans_FindFirstFile := fun _ => None;
     ans_DeleteFile := fun _ => None;
     ans_CreateFile := fun _ => 7;
     ans_CreateFile_error := fun _ => ERROR_ACCESS_DENIED;
     ans_LoadLibrary := fun _ => 4096;
     ans_GetProcAddress := fun _ _ => 8192;
     ans_MiniDumpWriteDump := TRUE;
     ans_CloseHandle := fun _ => TRUE;
     ans_CloseHandle_error := fun _ => 6;
     ans_OpenProcess := fun _ => 9;
     ans_LocalTime := t;
     ans_FileTimeNow := 1000;
     ans_CurrentThreadId := 42;
     ans_CurrentProcess := -1;
     ans_CurrentProcessId := 4711 |}.

(** The same system without [DbgHelp.dll]. *)
Definition without_dbghelp (t : SYSTEMTIME) : Answers :=
  {| ans_CreateDirectory := fun _ => ERROR_ALREADY_EXISTS;
     ans_FindFirstFile := fun _ => None;
     ans_DeleteFile := fun _ => None;
     ans_CreateFile := fun _ => 7;
     ans_CreateFile_error := fun _ => ERROR_ACCESS_DENIED;
     ans_LoadLibrary := fun _ => nullptr;
     ans_GetProcAddress := fun _ _ => 8192;
     ans_MiniDumpWriteDump := TRUE;
     ans_CloseHandle := fun _ => TRUE;
     ans_CloseHandle_error := fun _ => 6;
     ans_OpenProcess := fun _ => 9;
     ans_LocalTime := t;
     ans_FileTimeNow := 1000;
     ans_CurrentThreadId := 42;
     ans_CurrentProcess := -1;
     ans_CurrentProcessId := 4711 |}.

(** A system that refuses to create the dump folder and any file. *)
Definition read_only (t : SYSTEMTIME) : Answers :=
  {| ans_CreateDirectory := fun _ => ERROR_ACCESS_DENIED;
     ans_FindFirstFile := fun _ => None;
     ans_DeleteFile := fun _ => None;
     ans_CreateFile := fun _ => INVALID_HANDLE_VALUE;
     ans_CreateFile_error := fun _ => ERROR_ACCESS_DENIED;
     ans_LoadLibrary := fun _ => 4096;
     ans_GetProcAddress := fun _ _ => 8192;
     ans_MiniDumpWriteDump := TRUE;
     ans_CloseHandle := fun _ => TRUE;
     ans_CloseHandle_error := fun _ => 6;
     ans_OpenProcess := fun _ => 9;
     ans_LocalTime := t;
     ans_FileTimeNow := 1000;
     ans_CurrentThreadId := 42;
     ans_CurrentProcess := -1;
     ans_CurrentProcessId := 4711 |}.

Definition dump (name : string) (t : FILETIME) : File :=
  {| fileDir := "C:\dumps\"; fileName := name; fileTime := t |}.

(** Two dumps of distinct time stamps and an unrelated file. *)
Definition two_dumps : list File :=
  [ dump "app_01.01.2024 - 1_1_1.dmp" 10;
    dump "app_02.01.2024 - 1_1_1.dmp" 20;
    dump "notes.txt" 5 ].

Definition world (fs : list File) (a : Answers) : World :=
  {| files := fs; lastError := ERROR_SUCCESS; calls := []; answers := a |}.

(** The globals after [InitDumpCollection(n, "C:\dumps\", "app")]. *)
Definition armed (n : Z) : Globals :=
  globals_of (InitDumpCollection n (Some "C:\dumps\") (Some "app")
                initial_globals (world [] (obliging (at_time 9 7 2)))).

End Scenario.


(** * The rest of the file *)

(** ** The fault handlers (lines 275-308)

    [abort] does not return: a function that ends in [failfast] has the
    result type [Exit], whose only value says that the process was
    terminated.  [OnUnhandledException] reads the exception record its
    argument points to; the record is passed along with the pointer.  How
    the stream prints the exception address, a pointer, is left to the
    implementation; both numbers of the log line are rendered by [dec]
    here, and no property depends on that text. *)


Definition EXCEPTION_EXECUTE_HANDLER : Z := 1.

Record EXCEPTION_RECORD := {
  ExceptionCode : DWORD;
  ExceptionAddress : Z
}.


Definition OnUnhandledException (exceptionPointers : Z)
    (ExceptionRecord : EXCEPTION_RECORD) : M Z :=
  LOG4 "Caught unhandled exception, ExceptionCode=0x"
       (dec (ExceptionCode ExceptionRecord))
       ", ExceptionAddress=0x"
       (dec (ExceptionAddress ExceptionRecord)) ;;
  CreateMiniDump_fault exceptionPointers ;;
  ret EXCEPTION_EXECUTE_HANDLER.



(** ** InstallPostmortemDebugger (lines 367-403)

    The functions [SuppressCrtAbortMessages], [DoSetUnhandledExceptionFilter],
    [InterceptCrtAssert] and [InterceptCrtPurecalls] are declared in
    [Hook.h], which is not among the sources; their results are taken as
    parameters, and the calls made are returned beside the result.  The
    [BOOL] parameters and results are integers here, because the source
    compares them with [TRUE] and [FALSE]. *)

Definition CRuntimeVersions := Z.

Inductive Handler :=
| Handler_OnUnhandledException
| Handler_OnCrtAssert
| Handler_OnCrtPurecall.

Inductive HookCall :=
| HookSuppressCrtAbortMessages (crtVersions : CRuntimeVersions)
| HookDoSetUnhandledExceptionFilter (filter : Handler)
| HookInterceptCrtAssert (handler : Handler) (crtVersions : CRuntimeVersions)
| HookInterceptCrtPurecalls (handler : Handler)
    (crtVersions : CRuntimeVersions).

Record HookAnswers := {
  hook_SuppressCrtAbortMessages : CRuntimeVersions -> Z;
  hook_InterceptCrtAssert : CRuntimeVersions -> Z;
  hook_InterceptCrtPurecalls : CRuntimeVersions -> Z
}.

(** [std::endl]. *)
Definition endl : string := String "010"%char EmptyString.

Definition InstallPostmortemDebugger (hooks : HookAnswers)
    (suppressErrorWindows handleUnhandledExceptions handleCrtAsserts
     handleCrtPurecalls : Z) (crtVersions : CRuntimeVersions)
  : M (BOOL * list HookCall) :=
  let message :=
    "Installing post mortem debugger:" ++ endl
    ++ "  suppressErrorWindows=" ++ dec_int suppressErrorWindows ++ endl
    ++ "  handleUnhandledExceptions=" ++ dec_int handleUnhandledExceptions
    ++ endl
    ++ "  handleCrtAsserts=" ++ dec_int handleCrtAsserts ++ endl
    ++ "  handleCrtPurecalls=" ++ dec_int handleCrtPurecalls in
  LOG1 message ;;
  let made1 :=
    if suppressErrorWindows =? 1
    then [HookSuppressCrtAbortMessages crtVersions] else [] in
  if (suppressErrorWindows =? 1)
     && (hook_SuppressCrtAbortMessages hooks crtVersions =? 0)
  then ret (FALSE, made1)
  else
    let made2 :=
      (made1 ++ if handleUnhandledExceptions =? 1
                then [HookDoSetUnhandledExceptionFilter
                        Handler_OnUnhandledException]
                else [])%list in
    let made3 :=
      (made2 ++ if handleCrtAsserts =? 1
                then [HookInterceptCrtAssert Handler_OnCrtAssert crtVersions]
                else [])%list in
    if (handleCrtAsserts =? 1)
       && (hook_InterceptCrtAssert hooks crtVersions =? 0)
    then ret (FALSE, made3)
    else
      let made4 :=
        (made3 ++ if handleCrtPurecalls =? 1
                  then [HookInterceptCrtPurecalls Handler_OnCrtPurecall
                          crtVersions]
                  else [])%list in
      if (handleCrtPurecalls =? 1)
         && (hook_InterceptCrtPurecalls hooks crtVersions =? 0)
      then ret (FALSE, made4)
      else
        LOG1 "Post mortem debugger successfully installed!" ;;
        ret (TRUE, made4).

(** ** Notions for the properties of the rest *)

(** [folder] is the prefix of [path] that ends before one of its
    backslashes. *)
Definition segment_prefix (folder path : string) : Prop :=
  exists rest, path = folder ++ String backslash rest.

(** A drive such as [C:], which [CreateMinidumpFolder] does not create. *)
Definition is_drive (folder : string) : bool :=
  (wcslen folder =? 2)
  && match String.get 1 folder with
     | Some d => Ascii.eqb d ":"%char
     | None => false
     end.

(** A decimal digit. *)
Definition is_digit (c : ascii) : bool :=
  (48 <=? nat_of_ascii c)%nat && (nat_of_ascii c <=? 57)%nat.

Fixpoint all_chars (P : ascii -> bool) (s : string) : bool :=
  match s with
  | EmptyString => true
  | String c s' => P c && all_chars P s'
  end.

(** A time as [GetLocalTime] returns it, as far as the file name needs. *)
Definition time_fields_ok (t : SYSTEMTIME) : Prop :=
  0 <= wDay t < 100 /\ 0 <= wMonth t < 100 /\ 0 <= wYear t
  /\ 0 <= wHour t /\ 0 <= wMinute t /\ 0 <= wSecond t.

(** The calls that touch neither a file nor a handle. *)
Definition inert_call (e : Event) : Prop :=
  match e with EvLog _ | EvSetLastError _ => True | _ => False end.

(** The answers of [CreateDirectory] that let [CreateMinidumpFolder] go
    on: the directory was created, or it exists already. *)
Definition creatable (a : Answers) (folder : string) : Prop :=
  ans_CreateDirectory a folder = ERROR_SUCCESS
  \/ ans_CreateDirectory a folder = ERROR_ALREADY_EXISTS.

(** The calls [CreateMinidumpFolder] may make for the folder [path]. *)
Definition folder_step (path : string) (e : Event) : Prop :=
  is_log e
  \/ exists folder,
       e = EvCreateDirectory folder
       /\ segment_prefix folder path /\ is_drive folder = false.

(** A path [PathIsRelative] does not take for relative: it starts with a
    backslash, or its second character is a colon. *)
Definition rooted (path : string) : Prop :=
  (exists rest, path = String backslash rest)
  \/ (exists c rest, path = String c (String ":"%char rest)).

(** The arguments [InitDumpCollection] accepts in the state [g]. *)
Definition init_accepts (g : Globals) (n : Z) (folder name : option string)
  : Prop :=
  _collectDumps g = false
  /\ 0 < n
  /\ exists f nm,
       folder = Some f /\ name = Some nm
       /\ ~ contains_char "/" f
       /\ (exists f', f = f' ++ String backslash EmptyString)
       /\ rooted f
       /\ CheckDumpNameConstraints nm = TRUE.

(** The globals after an accepted [InitDumpCollection]. *)
Definition armed_with (g : Globals) (n : Z) (f nm : string) : Globals :=
  {| _collectDumps := true;
     _numRetainedMinidumps := n;
     _dateTimeBuffer := _dateTimeBuffer g;
     _dumpFolder := f;
     _dumpName := nm;
     _minidumpStringBuilder := _minidumpStringBuilder g;
     _minidumpFileName := _minidumpFileName g;
     _minidumpPattern := (f ++ nm) ++ "*.dmp";
     _tmpPath := _tmpPath g;
     _oldestFileFullName := _oldestFileFullName g |}.

Definition not_backslash (c : ascii) : bool := negb (Ascii.eqb c backslash).

(** What [CreateMinidumpFileName] writes between the dump name and the
    extension. *)
Definition dump_stem (t : SYSTEMTIME) : string :=
  "_" ++ pad2 (wDay t) ++ "." ++ pad2 (wMonth t) ++ "."
  ++ dec (wYear t) ++ " - " ++ dec (wHour t) ++ "_" ++ dec (wMinute t)
  ++ "_" ++ dec (wSecond t).

(** The path a capture asks [CreateFile] for: what the string stream holds
    already, followed by the new file name. *)
Definition dump_path (g : Globals) (w : World) : string :=
  _minidumpStringBuilder g
  ++ dump_file_name (_dumpFolder g) (_dumpName g) (ans_LocalTime (answers w)).

(** Every directory [CreateMinidumpFolder] asks for can be created or
    exists. *)
Definition folder_available (g : Globals) (a : Answers) : Prop :=
  forall folder,
    segment_prefix folder (_dumpFolder g) ->
    is_drive folder = false ->
    creatable a folder.

(** The file [path] can be created and the dump writer can be resolved. *)
Definition writer_available (a : Answers) (path : string) : Prop :=
  ans_CreateFile a path <> INVALID_HANDLE_VALUE
  /\ ans_CreateFile a path <> nullptr
  /\ ans_LoadLibrary a "DbgHelp.dll" <> nullptr
  /\ ans_GetProcAddress a (ans_LoadLibrary a "DbgHelp.dll")
                        "MiniDumpWriteDump" <> nullptr.

(** The calls of a capture before it creates its file. *)
Definition preparation_call (e : Event) : Prop :=
  folder_call e \/ retention_call e.

(** The calls of a capture that reaches the dump writer, from [CreateFile]
    to [CloseHandle]. *)
Definition dump_calls (a : Answers) (exceptionPointers : Z)
    (processHandle : HANDLE) (processId : Z) (path : string) : list Event :=
  let hFile := ans_CreateFile a path in
  let dbghelp := ans_LoadLibrary a "DbgHelp.dll" in
  [EvCreateFile path hFile;
   EvLoadLibrary "DbgHelp.dll";
   EvGetProcAddress dbghelp "MiniDumpWriteDump";
   EvMiniDumpWriteDump processHandle processId hFile MiniDumpNormal
     (exception_param (ans_CurrentThreadId a) exceptionPointers);
   EvLog (if ans_MiniDumpWriteDump a then "Minidump saved"
          else "MiniDumpWriteDump returned FALSE, unable to write a minidump");
   EvCloseHandle hFile].


(** The access rights the exported [CreateMiniDump] asks [OpenProcess]
    for. *)
Definition dump_access : DWORD :=
  Z.lor (Z.lor PROCESS_QUERY_INFORMATION PROCESS_VM_READ) PROCESS_DUP_HANDLE.

(** The calls of a rejected [CreateMiniDump]. *)
Definition rejection_call (processId : Z) (e : Event) : Prop :=
  inert_call e \/ e = EvOpenProcess dump_access processId nullptr.

(** The hooks [InstallPostmortemDebugger] installs for its four flags when
    none of them fails. *)
Definition hooks_for (suppressErrorWindows handleUnhandledExceptions
    handleCrtAsserts handleCrtPurecalls : Z) (crtVersions : CRuntimeVersions)
  : list HookCall :=
  ((if suppressErrorWindows =? 1
    then [HookSuppressCrtAbortMessages crtVersions] else [])
   ++ (if handleUnhandledExceptions =? 1
       then [HookDoSetUnhandledExceptionFilter Handler_OnUnhandledException]
       else [])
   ++ (if handleCrtAsserts =? 1
       then [HookInterceptCrtAssert Handler_OnCrtAssert crtVersions] else [])
   ++ (if handleCrtPurecalls =? 1
       then [HookInterceptCrtPurecalls Handler_OnCrtPurecall crtVersions]
       else []))%list.

(** * Properties *)

(** ** The string primitives *)

Lemma starts_with_spec (sub s : string) :
  starts_with sub s = true <-> exists post, s = sub ++ post.
Proof.
  revert s; induction sub as [|a sub IH]; intros s; simpl.
  - split; [intros _; exists s; reflexivity | reflexivity].
  - destruct s as [|b s].
    + split; [discriminate | intros [post H]; discriminate].
    + rewrite andb_true_iff, Ascii.eqb_eq, IH. split.
      * intros [-> [post ->]]. exists post. reflexivity.
      * intros [post H]. injection H as -> ->. split; [reflexivity | now exists post].
Qed.

Lemma wcschr_found (s : string) (c : ascii) :
  is_null (wcschr s c) = false <-> contains_char c s.
Proof.
  induction s as [|d s IH]; simpl.
  - split; [discriminate | intros [[|x pre] [post H]]; discriminate].
  - destruct (Ascii.eqb d c) eqn:E.
    + apply Ascii.eqb_eq in E as ->. simpl. split; [intros _ | reflexivity].
      exists "", s. reflexivity.
    + rewrite IH. split.
      * intros [pre [post ->]]. exists (String d pre), post. reflexivity.
      * intros [[|x pre] [post H]]; simpl in H; injection H as -> ->.
        -- rewrite Ascii.eqb_refl in E. discriminate.
        -- now exists pre, post.
Qed.

Lemma wcsstr_found (s sub : string) :
  is_null (wcsstr s sub) = false <-> contains_sub sub s.
Proof.
  induction s as [|d s IH].
  - simpl. destruct (starts_with sub "") eqn:E.
    + simpl. split; [intros _ | reflexivity].
      apply starts_with_spec in E as [post E]. exists "", post. exact E.
    + simpl. split; [discriminate |].
      intros [pre [post H]]. destruct pre; [|discriminate].
      assert (starts_with sub "" = true) as E'
        by (apply starts_with_spec; exists post; exact H).
      congruence.
  - cbn [wcsstr]. destruct (starts_with sub (String d s)) eqn:E.
    + simpl. split; [intros _ | reflexivity].
      apply starts_with_spec in E as [post E]. exists "", post. exact E.
    + rewrite IH. split.
      * intros [pre [post ->]]. exists (String d pre), post. reflexivity.
      * intros [[|x pre] [post H]]; simpl in H.
        -- assert (starts_with sub (String d s) = true) as E'
             by (apply starts_with_spec; exists post; exact H).
           congruence.
        -- injection H as -> ->. now exists pre, post.
Qed.

Lemma contains_sub_char (c : ascii) (s : string) :
  contains_sub (String c EmptyString) s <-> contains_char c s.
Proof. unfold contains_sub, contains_char. simpl. reflexivity. Qed.

Lemma wcslen_zero (s : string) : (wcslen s =? 0) = true <-> s = "".
Proof.
  unfold wcslen. rewrite Z.eqb_eq. destruct s; simpl; split; try reflexivity; try discriminate; lia.
Qed.

(** ** CheckDumpNameConstraints *)

(** C4. [CheckDumpNameConstraints] returns [FALSE] exactly for the empty
    name and for the names containing a slash, a backslash, two
    consecutive dots, a colon, an asterisk, a question mark or a quote;
    every other name gets [TRUE]. *)
Theorem CheckDumpNameConstraints_exact (name : string) :
  (CheckDumpNameConstraints name = FALSE <->
     name = ""
     \/ contains_char "/" name
     \/ contains_char backslash name
     \/ contains_sub ".." name
     \/ contains_char ":" name
     \/ contains_char "*" name
     \/ contains_char "?" name
     \/ contains_char quote name)
  /\ (CheckDumpNameConstraints name = TRUE <->
        name <> ""
        /\ ~ contains_char "/" name
        /\ ~ contains_char backslash name
        /\ ~ contains_sub ".." name
        /\ ~ contains_char ":" name
        /\ ~ contains_char "*" name
        /\ ~ contains_char "?" name
        /\ ~ contains_char quote name).
Proof.
  unfold CheckDumpNameConstraints, TRUE, FALSE.
  pose proof (wcschr_found name "/") as Hslash.
  pose proof (wcschr_found name backslash) as Hback.
  pose proof (wcsstr_found name "..") as Hdots.
  pose proof (wcsstr_found name ":") as Hcolon.
  pose proof (wcsstr_found name "*") as Hstar.
  pose proof (wcsstr_found name "?") as Hquest.
  pose proof (wcsstr_found name (String quote EmptyString)) as Hquote.
  rewrite contains_sub_char in Hcolon, Hstar, Hquest, Hquote.
  pose proof (wcslen_zero name) as Hlen.
  destruct (is_null (wcschr name "/"));
    destruct (is_null (wcschr name backslash));
    destruct (is_null (wcsstr name ".."));
    destruct (is_null (wcsstr name ":"));
    destruct (is_null (wcsstr name "*"));
    destruct (is_null (wcsstr name "?"));
    destruct (is_null (wcsstr name (String quote EmptyString)));
    destruct (wcslen name =? 0); simpl;
    intuition (try discriminate; try congruence).
Qed.

(** ** Runs that leave the configuration alone *)

Lemma same_but_scratch_refl g : same_but_scratch g g.
Proof. repeat split. Qed.

Lemma same_but_scratch_trans g1 g2 g3 :
  same_but_scratch g1 g2 -> same_but_scratch g2 g3 -> same_but_scratch g1 g3.
Proof.
  unfold same_but_scratch. intros (a & b & c & d) (a' & b' & c' & d').
  repeat split; congruence.
Qed.

Lemma extends_refl P w : extends P w w.
Proof. split; [reflexivity|]. exists []. now rewrite app_nil_r. Qed.

Lemma extends_trans P w1 w2 w3 :
  extends P w1 w2 -> extends P w2 w3 -> extends P w1 w3.
Proof.
  intros [a (e1 & c1 & f1)] [a' (e2 & c2 & f2)]. split; [congruence|].
  exists (e1 ++ e2)%list. split.
  - rewrite c2, c1, app_assoc. reflexivity.
  - apply Forall_app. now split.
Qed.

Lemma extends_emit (P : Event -> Prop) e w : P e -> extends P w (emit e w).
Proof.
  intros H. split; [reflexivity|]. exists [e]. split; [reflexivity|].
  now constructor.
Qed.

Lemma tidy_ret {A} P (a : A) : tidy P (ret a).
Proof.
  intros g w. split; [apply same_but_scratch_refl|].
  split; [apply extends_refl | apply incl_refl].
Qed.

Lemma tidy_bind {A B} P (m : M A) (k : A -> M B) :
  tidy P m -> (forall a, tidy P (k a)) -> tidy P (bind m k).
Proof.
  intros Hm Hk g w. unfold bind.
  specialize (Hm g w). destruct (m g w) as [[a g1] w1].
  specialize (Hk a g1 w1). cbn in Hm.
  destruct Hm as (m1 & m2 & m3), Hk as (k1 & k2 & k3).
  split; [eapply same_but_scratch_trans; eauto|].
  split; [eapply extends_trans; eauto | eapply incl_tran; eauto].
Qed.

Lemma tidy_if {A} P (c : bool) (m1 m2 : M A) :
  tidy P m1 -> tidy P m2 -> tidy P (if c then m1 else m2).
Proof. destruct c; auto. Qed.

Lemma tidy_sys P e : P e -> tidy P (sys e).
Proof.
  intros H g w. split; [apply same_but_scratch_refl|].
  split; [now apply extends_emit | apply incl_refl].
Qed.

Lemma tidy_get_globals P : tidy P get_globals.
Proof.
  intros g w. split; [apply same_but_scratch_refl|].
  split; [apply extends_refl | apply incl_refl].
Qed.

Lemma tidy_GetLastError P : tidy P GetLastError.
Proof.
  intros g w. split; [apply same_but_scratch_refl|].
  split; [apply extends_refl | apply incl_refl].
Qed.

Lemma tidy_assign_tmpPath P s : tidy P (assign_tmpPath s).
Proof.
  intros g w. split; [repeat split|].
  split; [apply extends_refl | apply incl_refl].
Qed.

Lemma tidy_assign_oldestFileFullName P s :
  tidy P (assign_oldestFileFullName s).
Proof.
  intros g w. split; [repeat split|].
  split; [apply extends_refl | apply incl_refl].
Qed.

Lemma tidy_CreateDirectory (P : Event -> Prop) folder :
  P (EvCreateDirectory folder) -> tidy P (CreateDirectory folder).
Proof.
  intros H g w. unfold CreateDirectory.
  destruct (_ =? ERROR_SUCCESS); cbn;
    (split; [apply same_but_scratch_refl|]);
    (split; [apply (extends_emit P _ w H) | apply incl_refl]).
Qed.

Lemma tidy_FindFirstFile (P : Event -> Prop) pattern :
  P (EvFindFirstFile pattern) -> tidy P (FindFirstFile pattern).
Proof.
  intros H g w. unfold FindFirstFile. cbn.
  destruct (ans_FindFirstFile (answers w) pattern);
    [|destruct (matching pattern (files w)) as [|fd rest]]; cbn;
    (split; [apply same_but_scratch_refl|]);
    (split; [apply (extends_emit P _ w H) | apply incl_refl]).
Qed.

Lemma tidy_DeleteFile (P : Event -> Prop) path :
  P (EvDeleteFile path) -> tidy P (DeleteFile path).
Proof.
  intros H g w. unfold DeleteFile. cbn.
  destruct (ans_DeleteFile (answers w) path); [|destruct (existsb _ _)]; cbn;
    (split; [apply same_but_scratch_refl|]);
    (split; [apply (extends_emit P _ w H)|]);
    try apply incl_refl.
  intros f Hf. apply filter_In in Hf. tauto.
Qed.

Create HintDb tidy.

#[local] Hint Resolve tidy_ret tidy_get_globals tidy_GetLastError
  tidy_assign_tmpPath tidy_assign_oldestFileFullName : tidy.

Ltac tidy_log := apply tidy_sys; exact I.

Ltac tidy_steps :=
  repeat first
    [ apply tidy_bind; [|intros ?]
    | apply tidy_if
    | tidy_log
    | apply tidy_CreateDirectory; exact I
    | apply tidy_FindFirstFile; exact I
    | apply tidy_DeleteFile; exact I
    | solve [auto with tidy] ].

(** ** CreateMinidumpFolder and RemoveOldMinidumps leave the configuration
    alone *)

Lemma CreateMinidumpFolder_loop_tidy (rest prefix : string) :
  tidy folder_call (CreateMinidumpFolder_loop prefix rest).
Proof.
  revert prefix. induction rest as [|c rest IH]; intros prefix; simpl.
  - unfold LOG1. tidy_steps.
  - unfold LOG2, LOG4. tidy_steps; apply IH.
Qed.

Lemma CreateMinidumpFolder_tidy : tidy folder_call CreateMinidumpFolder.
Proof.
  unfold CreateMinidumpFolder. intros g w. cbn.
  apply CreateMinidumpFolder_loop_tidy.
Qed.

Lemma RemoveOldMinidumps_loop_eq folder fdFile rest numFiles oldestFileTime :
  RemoveOldMinidumps_loop folder fdFile rest numFiles oldestFileTime =
  let continue (numFiles : Z) (oldestFileTime : FILETIME) : M BOOL :=
    match rest with
    | [] =>
        LOG1 "Removed old minidumps" ;;
        ret TRUE
    | fdNext :: rest' =>
        RemoveOldMinidumps_loop folder fdNext rest' numFiles oldestFileTime
    end in
  if negb (is_dot_entry (cFileName fdFile))
  then
    assign_tmpPath (folder ++ cFileName fdFile) ;;
    g <- get_globals ;;
    oldestFileTime <-
      (if numFiles =? 0 then
         assign_oldestFileFullName (_tmpPath g) ;;
         ret (ftLastWriteTime fdFile)
       else if CompareFileTime oldestFileTime (ftLastWriteTime fdFile) =? 1
       then
         assign_oldestFileFullName (_tmpPath g) ;;
         ret (ftLastWriteTime fdFile)
       else ret oldestFileTime) ;;
    g <- get_globals ;;
    if numFiles + 1 >=? _numRetainedMinidumps g then
      ok <- DeleteFile (_oldestFileFullName g) ;;
      if negb ok then
        err <- GetLastError ;;
        LOG2 "DeleteFile failed: " (dec err) ;;
        ret FALSE
      else continue numFiles oldestFileTime
    else continue (numFiles + 1) oldestFileTime
  else continue numFiles oldestFileTime.
Proof.
  unfold is_dot_entry. rewrite negb_orb. destruct rest; reflexivity.
Qed.

Lemma RemoveOldMinidumps_loop_tidy folder rest :
  forall fdFile numFiles oldestFileTime,
    tidy retention_call
         (RemoveOldMinidumps_loop folder fdFile rest numFiles oldestFileTime).
Proof.
  induction rest as [|fdNext rest IH]; intros fdFile numFiles oldestFileTime;
    rewrite RemoveOldMinidumps_loop_eq; cbv zeta; unfold LOG1, LOG2;
    tidy_steps; apply IH.
Qed.

Lemma RemoveOldMinidumps_tidy : tidy retention_call RemoveOldMinidumps.
Proof.
  unfold RemoveOldMinidumps, LOG1, LOG2.
  apply tidy_bind; [auto with tidy | intros g].
  apply tidy_bind; [tidy_log | intros _].
  apply tidy_bind; [apply tidy_FindFirstFile; exact I | intros found].
  destruct found as [[fdFile rest]|].
  - apply RemoveOldMinidumps_loop_tidy.
  - tidy_steps.
Qed.

(** ** The file name *)

Lemma append_assoc (a b c : string) : (a ++ b) ++ c = a ++ (b ++ c).
Proof. induction a as [|x a IH]; simpl; [reflexivity | now rewrite IH]. Qed.

Lemma append_nil_r (a : string) : a ++ "" = a.
Proof. induction a as [|x a IH]; simpl; [reflexivity | now rewrite IH]. Qed.

Lemma CreateMinidumpFileName_run (g : Globals) (w : World) :
  let path := _minidumpStringBuilder g
              ++ dump_file_name (_dumpFolder g) (_dumpName g)
                                (ans_LocalTime (answers w)) in
  CreateMinidumpFileName g w
  = (tt, named path g, emit (EvLog ("Minidump file name: " ++ path)) w).
Proof.
  unfold CreateMinidumpFileName, dump_file_name, pad2, named.
  cbn [bind GetLocalTime get_globals].
  destruct (wDay (ans_LocalTime (answers w)) <? 10);
    destruct (wMonth (ans_LocalTime (answers w)) <? 10);
    cbn -[append dec]; rewrite !append_assoc; reflexivity.
Qed.

(** ** Anatomy of a capture *)

Lemma same_but_scratch_fields g g' :
  same_but_scratch g g' ->
  _collectDumps g' = _collectDumps g
  /\ _numRetainedMinidumps g' = _numRetainedMinidumps g
  /\ _dumpFolder g' = _dumpFolder g
  /\ _dumpName g' = _dumpName g
  /\ _minidumpPattern g' = _minidumpPattern g
  /\ _minidumpStringBuilder g' = _minidumpStringBuilder g.
Proof.
  unfold same_but_scratch, config. intros (H & _ & Hb & _).
  injection H as -> -> -> -> ->. now rewrite Hb.
Qed.

Lemma config_named path g : config (named path g) = config g.
Proof. reflexivity. Qed.

(** A capture is the folder creation, then the retention scan, then the
    calls [calls_from_CreateFile]. *)
Lemma capture_anatomy ep h pid name g w :
  let r1 := CreateMinidumpFolder g (emit (EvLog "Creating Mini dump...") w) in
  let r2 := RemoveOldMinidumps (globals_of r1) (world_of r1) in
  let r := CreateMiniDump_capture ep h pid name g w in
  let path := _minidumpStringBuilder g
              ++ dump_file_name (_dumpFolder g) (_dumpName g)
                                (ans_LocalTime (answers w)) in
  (value_of r1 = FALSE -> r = (tt, globals_of r1, world_of r1))
  /\ (value_of r1 = TRUE ->
      calls (world_of r)
      = (calls (world_of r2)
         ++ (if value_of r2 then []
             else [EvLog "Failed to remove old minidumps, ignoring it..."])
         ++ [EvLog "Creating name..."; EvLog ("Minidump file name: " ++ path)]
         ++ calls_from_CreateFile (answers w) ep h pid path)%list
      /\ files (world_of r)
         = files_after_CreateFile (answers w) path (files (world_of r2))
      /\ answers (world_of r) = answers w
      /\ globals_of r = named path (globals_of r2)).
Proof.
  cbv zeta.
  set (path := _minidumpStringBuilder g
               ++ dump_file_name (_dumpFolder g) (_dumpName g)
                                 (ans_LocalTime (answers w))).
  pose proof (CreateMinidumpFolder_tidy g (emit (EvLog "Creating Mini dump...") w))
    as (G1 & [A1 _] & _).
  remember (CreateMiniDump_capture ep h pid name g w) as r eqn:Er.
  unfold CreateMiniDump_capture in Er. unfold bind at 1 in Er.
  cbn [LOG1 sys] in Er. unfold bind at 1 in Er.
  revert Er G1 A1.
  destruct (CreateMinidumpFolder g (emit (EvLog "Creating Mini dump...") w))
    as [[ok1 g1] w1].
  unfold value_of, globals_of, world_of; cbn [fst snd].
  intros Er G1 A1.
  split; intros ->; cbn [Bool.eqb FALSE TRUE] in Er; [exact Er|].
  pose proof (RemoveOldMinidumps_tidy g1 w1) as (G2 & [A2 _] & _).
  unfold bind at 1 in Er.
  revert Er G2 A2.
  destruct (RemoveOldMinidumps g1 w1) as [[ok2 g2] w2].
  unfold value_of, globals_of, world_of; cbn [fst snd].
  intros Er G2 A2.
  assert (answers w2 = answers w) as A by (rewrite A2, A1; reflexivity).
  pose proof (same_but_scratch_fields _ _
                (same_but_scratch_trans _ _ _ G1 G2))
    as (_ & _ & Hf & Hn & _ & Hb).
  assert (forall w2',
    answers w2' = answers w ->
    let r := (LOG1 "Creating name..." ;;
     CreateMinidumpFileName ;;
     g <- get_globals ;;
     hFile <- CreateFile (_minidumpFileName g) ;;
     if hFile =? INVALID_HANDLE_VALUE then
       err <- GetLastError ;;
       LOG2 "CreateFile returned INVALID_HANDLE_VALUE: GetLastError()="
            (dec err) ;;
       ret tt
     else
       dbghelp <- LoadLibrary "DbgHelp.dll" ;;
       if dbghelp =? nullptr then ret tt
       else
         miniDumpWriteDump <- GetProcAddress dbghelp "MiniDumpWriteDump" ;;
         if miniDumpWriteDump =? nullptr then ret tt
         else
           if negb (hFile =? nullptr) && negb (hFile =? INVALID_HANDLE_VALUE)
           then
             tid <- GetCurrentThreadId ;;
             let info := {| ThreadId := tid;
                            ExceptionPointers := ep;
                            ClientPointers := TRUE |} in
             let mdt := MiniDumpNormal in
             rv <- MiniDumpWriteDump h pid hFile mdt
                     (if negb (ep =? nullptr)
                      then Some info else None) ;;
             (if negb (Bool.eqb rv FALSE)
              then LOG1 "Minidump saved"
              else LOG1 "MiniDumpWriteDump returned FALSE, unable to write a minidump") ;;
             closed <- CloseHandle hFile ;;
             if Bool.eqb closed FALSE then
               err <- GetLastError ;;
               LOG2 "CloseHandle failed: GetLastError()=" (dec err)
             else ret tt
           else ret tt) g2 w2' in
    calls (snd r)
    = (calls w2'
         ++ [EvLog "Creating name..."; EvLog ("Minidump file name: " ++ path)]
         ++ calls_from_CreateFile (answers w) ep h pid path)%list
    /\ files (snd r) = files_after_CreateFile (answers w) path (files w2')
    /\ answers (snd r) = answers w
    /\ snd (fst r) = named path g2) as Tail.
  { intros w2' A' r'. subst r'.
    run_prog. rewrite CreateMinidumpFileName_run.
    cbn [answers emit]. rewrite A', Hf, Hn, Hb. fold path.
    unfold calls_from_CreateFile, files_after_CreateFile, exception_param.
    assert (forall w0, answers w0 = answers w2' -> answers w0 = answers w)
      as Aw by (intros; congruence).
    run_known.
    destruct (ans_CreateFile (answers w) path =? INVALID_HANDLE_VALUE) eqn:Ecf.
    { run_known. rewrite <- ?app_assoc. repeat split; auto. }
    destruct (splitPath path) as [d n] eqn:Esp.
    run_known.
    destruct (ans_LoadLibrary (answers w) "DbgHelp.dll" =? nullptr) eqn:Ell.
    { run_known. rewrite <- ?app_assoc. repeat split; auto. }
    run_known.
    destruct (ans_GetProcAddress (answers w) _ _ =? nullptr) eqn:Egp.
    { run_known. rewrite <- ?app_assoc. repeat split; auto. }
    destruct (ans_CreateFile (answers w) path =? nullptr) eqn:Enull.
    { run_known. rewrite <- ?app_assoc. repeat split; auto. }
    run_known.
    destruct (ep =? nullptr);
      destruct (ans_MiniDumpWriteDump (answers w)) eqn:Ewr;
      run_known;
      destruct (ans_CloseHandle (answers w) _) eqn:Ecl;
      run_known; rewrite <- ?app_assoc; repeat split; auto. }
  destruct ok2; unfold bind at 1 in Er; cbn [Bool.eqb FALSE TRUE ret LOG1 sys] in Er;
    rewrite Er.
  - exact (Tail w2 A).
  - destruct (Tail (emit (EvLog "Failed to remove old minidumps, ignoring it...") w2) A)
      as (T1 & T2 & T3 & T4).
    split; [|split; [exact T2 | split; [exact T3 | exact T4]]].
    etransitivity; [exact T1|].
    cbn [calls emit]. rewrite <- !app_assoc. reflexivity.
Qed.

Lemma splitPath_app (s : string) : fst (splitPath s) ++ snd (splitPath s) = s.
Proof.
  induction s as [|c s IH]; [reflexivity|]. cbn [splitPath].
  destruct (splitPath s) as [d n]. cbn [fst snd] in IH.
  destruct d as [|x d].
  - destruct (Ascii.eqb c backslash); cbn in *; now rewrite IH.
  - cbn in *. now rewrite IH.
Qed.

Lemma files_after_CreateFile_incl a path fs :
  ans_CreateFile a path = INVALID_HANDLE_VALUE ->
  files_after_CreateFile a path fs = fs.
Proof. unfold files_after_CreateFile. now intros ->. Qed.

Lemma files_after_CreateFile_has a path fs :
  ans_CreateFile a path <> INVALID_HANDLE_VALUE ->
  exists f, In f (files_after_CreateFile a path fs) /\ filePath f = path.
Proof.
  intros H. unfold files_after_CreateFile.
  apply Z.eqb_neq in H. rewrite H.
  eexists. split; [apply in_or_app; right; left; reflexivity|].
  unfold filePath. cbn. apply splitPath_app.
Qed.

(** The calls of a capture: a log, the calls of the folder creation, the
    calls of the retention scan, and then either nothing (the folder could
    not be created) or logs followed by [calls_from_CreateFile]. *)
Lemma capture_new_calls ep h pid name g w :
  let r1 := CreateMinidumpFolder g (emit (EvLog "Creating Mini dump...") w) in
  let r := CreateMiniDump_capture ep h pid name g w in
  let path := _minidumpStringBuilder g
              ++ dump_file_name (_dumpFolder g) (_dumpName g)
                                (ans_LocalTime (answers w)) in
  exists evs1 evs2 tail,
    calls (world_of r)
    = (calls w ++ EvLog "Creating Mini dump..." :: evs1 ++ evs2 ++ tail)%list
    /\ Forall folder_call evs1
    /\ Forall retention_call evs2
    /\ ((value_of r1 = FALSE /\ tail = [])
        \/ (value_of r1 = TRUE
            /\ exists logs, Forall is_log logs
               /\ tail = (logs ++ calls_from_CreateFile (answers w) ep h pid
                                                        path)%list)).
Proof.
  cbv zeta.
  destruct (capture_anatomy ep h pid name g w) as [HF HT].
  pose proof (CreateMinidumpFolder_tidy g (emit (EvLog "Creating Mini dump...") w))
    as (_ & [_ (evs1 & C1 & F1)] & _).
  cbn [calls emit] in C1. rewrite <- app_assoc in C1. cbn [app] in C1.
  destruct (value_of (CreateMinidumpFolder g (emit (EvLog "Creating Mini dump...") w)))
    eqn:Ok1.
  - specialize (HT eq_refl) as (HC & _).
    pose proof (RemoveOldMinidumps_tidy
                  (globals_of (CreateMinidumpFolder g (emit (EvLog "Creating Mini dump...") w)))
                  (world_of (CreateMinidumpFolder g (emit (EvLog "Creating Mini dump...") w))))
      as (_ & [_ (evs2 & C2 & F2)] & _).
    exists evs1, evs2. eexists. split; [|split; [exact F1 | split; [exact F2|]]].
    + rewrite HC, C2, C1.
      repeat (rewrite <- app_assoc || rewrite <- app_comm_cons).
      reflexivity.
    + right. split; [reflexivity|].
      match goal with
      | |- exists logs, _ /\ (?a ++ ?x :: ?y :: [] ++ ?c)%list = _ =>
          exists (a ++ [x; y])%list; split;
          [|now rewrite <- app_assoc]
      end.
      apply Forall_app. split.
      * match goal with
        | |- Forall _ (if ?c then _ else _) => destruct c
        end; repeat (constructor; try exact I).
      * repeat (constructor; try exact I).
  - specialize (HF eq_refl). rewrite HF. cbn [world_of snd].
    exists evs1, [], []. split; [|split; [exact F1 | split; [constructor|]]].
    + etransitivity; [exact C1|]. cbn [app]. now rewrite app_nil_r.
    + left. split; reflexivity.
Qed.

(** ** Retention failure does not stop a capture *)

(** C3. When the folder exists and [RemoveOldMinidumps] returns [FALSE],
    the capture logs the failure and goes on: it builds the file name, calls
    [CreateFile] for it and, when the file could be created, the file exists
    afterwards; when moreover the dump writer could be resolved, the writer
    is called on that file. *)
Theorem capture_survives_retention_failure
    (ep : Z) (h : HANDLE) (pid : Z) (name : string) (g : Globals) (w : World) :
  let r1 := CreateMinidumpFolder g (emit (EvLog "Creating Mini dump...") w) in
  let r2 := RemoveOldMinidumps (globals_of r1) (world_of r1) in
  let r := CreateMiniDump_capture ep h pid name g w in
  let path := _minidumpStringBuilder g
              ++ dump_file_name (_dumpFolder g) (_dumpName g)
                                (ans_LocalTime (answers w)) in
  let hFile := ans_CreateFile (answers w) path in
  let dbghelp := ans_LoadLibrary (answers w) "DbgHelp.dll" in
  value_of r1 = TRUE ->
  value_of r2 = FALSE ->
  exists post,
    calls (world_of r)
    = (calls (world_of r2)
       ++ [EvLog "Failed to remove old minidumps, ignoring it...";
           EvLog "Creating name...";
           EvLog ("Minidump file name: " ++ path);
           EvCreateFile path hFile]
       ++ post)%list
    /\ (hFile <> INVALID_HANDLE_VALUE ->
        exists f, In f (files (world_of r)) /\ filePath f = path)
    /\ (hFile <> INVALID_HANDLE_VALUE ->
        hFile <> nullptr ->
        dbghelp <> nullptr ->
        ans_GetProcAddress (answers w) dbghelp "MiniDumpWriteDump" <> nullptr ->
        In (EvMiniDumpWriteDump h pid hFile MiniDumpNormal
              (exception_param (ans_CurrentThreadId (answers w)) ep))
           post).
Proof.
  cbv zeta. intros Ok1 Ok2.
  destruct (capture_anatomy ep h pid name g w) as [_ HT].
  specialize (HT Ok1) as (HC & HF & _).
  rewrite Ok2 in HC. unfold calls_from_CreateFile in HC.
  eexists. split; [|split].
  - rewrite HC. cbn [app]. reflexivity.
  - intros Hh. rewrite HF. now apply files_after_CreateFile_has.
  - intros H1 H2 H3 H4.
    apply Z.eqb_neq in H1, H2, H3, H4. rewrite H1, H2, H3, H4.
    right. right. left. reflexivity.
Qed.

Lemma capture_survives_retention_failure_witness :
  let g := Scenario.armed 1 in
  let w := Scenario.world Scenario.two_dumps
             (Scenario.obliging (Scenario.at_time 9 7 2)) in
  let r1 := CreateMinidumpFolder g (emit (EvLog "Creating Mini dump...") w) in
  value_of r1 = TRUE
  /\ value_of (RemoveOldMinidumps (globals_of r1) (world_of r1)) = FALSE
  /\ exists f, In f (files (world_of (CreateMiniDump_capture 0 9 1 "x" g w)))
               /\ filePath f = "C:\dumps\app_05.03.2024 - 9_7_2.dmp".
Proof.
  cbv zeta. split; [reflexivity | split; [reflexivity|]].
  destruct (capture_survives_retention_failure 0 9 1 "x" (Scenario.armed 1)
              (Scenario.world Scenario.two_dumps
                 (Scenario.obliging (Scenario.at_time 9 7 2)))
              eq_refl eq_refl) as (post & _ & Hfile & _).
  apply Hfile. vm_compute. discriminate.
Defined.

(** ** Where the calls of a capture come from *)

Lemma capture_call_origin ep h pid name g w evs e :
  calls (world_of (CreateMiniDump_capture ep h pid name g w))
  = (calls w ++ evs)%list ->
  In e evs ->
  folder_call e \/ retention_call e
  \/ In e (calls_from_CreateFile (answers w) ep h pid
             (_minidumpStringBuilder g
              ++ dump_file_name (_dumpFolder g) (_dumpName g)
                                (ans_LocalTime (answers w)))).
Proof.
  intros Hc Hin.
  destruct (capture_new_calls ep h pid name g w)
    as (evs1 & evs2 & tail & C & F1 & F2 & T).
  rewrite Hc in C. apply app_inv_head in C. subst evs.
  rewrite Forall_forall in F1, F2.
  destruct Hin as [<- | Hin]; [left; exact I|].
  apply in_app_or in Hin as [Hin | Hin]; [left; auto|].
  apply in_app_or in Hin as [Hin | Hin]; [right; left; auto|].
  destruct T as [[_ ->] | [_ (logs & FL & ->)]]; [destruct Hin|].
  apply in_app_or in Hin as [Hin | Hin]; [|right; right; exact Hin].
  rewrite Forall_forall in FL. specialize (FL _ Hin).
  destruct e; try destruct FL. left. exact I.
Qed.

Lemma writer_call_in_calls_from_CreateFile a ep h pid path hp p hf t x :
  In (EvMiniDumpWriteDump hp p hf t x) (calls_from_CreateFile a ep h pid path) ->
  hp = h /\ p = pid /\ hf = ans_CreateFile a path /\ t = MiniDumpNormal
  /\ x = exception_param (ans_CurrentThreadId a) ep.
Proof.
  unfold calls_from_CreateFile.
  repeat match goal with
         | |- context [if ?c then _ else _] => destruct c
         end; cbn [In app];
    intuition (try discriminate);
    match goal with H : _ = EvMiniDumpWriteDump _ _ _ _ _ |- _ =>
      injection H; intros; subst; auto end.
Qed.

Lemma CreateFile_call_in_calls_from_CreateFile a ep h pid path p hf :
  In (EvCreateFile p hf) (calls_from_CreateFile a ep h pid path) ->
  p = path /\ hf = ans_CreateFile a path.
Proof.
  unfold calls_from_CreateFile.
  repeat match goal with
         | |- context [if ?c then _ else _] => destruct c
         end; cbn [In app];
    intuition (try discriminate);
    match goal with H : _ = EvCreateFile _ _ |- _ =>
      injection H; intros; subst; auto end.
Qed.

(** ** The exception information handed to the dump writer *)

(** C7. Every call of the dump writer a capture makes carries, for a
    non-null fault context, an exception-information record with
    [ClientPointers] set to [TRUE] and [ExceptionPointers] the supplied
    context, and for a null context a null pointer; and the writer is
    called whenever the folder exists, the file could be created and the
    writer could be resolved. *)
Theorem writer_gets_fault_context
    (ep : Z) (h : HANDLE) (pid : Z) (name : string) (g : Globals) (w : World) :
  let r := CreateMiniDump_capture ep h pid name g w in
  let r1 := CreateMinidumpFolder g (emit (EvLog "Creating Mini dump...") w) in
  let path := _minidumpStringBuilder g
              ++ dump_file_name (_dumpFolder g) (_dumpName g)
                                (ans_LocalTime (answers w)) in
  let hFile := ans_CreateFile (answers w) path in
  let dbghelp := ans_LoadLibrary (answers w) "DbgHelp.dll" in
  (forall evs hp p hf t x,
      calls (world_of r) = (calls w ++ evs)%list ->
      In (EvMiniDumpWriteDump hp p hf t x) evs ->
      (ep <> nullptr ->
       exists info, x = Some info /\ ClientPointers info = TRUE
                    /\ ExceptionPointers info = ep)
      /\ (ep = nullptr -> x = None))
  /\ (value_of r1 = TRUE ->
      hFile <> INVALID_HANDLE_VALUE ->
      hFile <> nullptr ->
      dbghelp <> nullptr ->
      ans_GetProcAddress (answers w) dbghelp "MiniDumpWriteDump" <> nullptr ->
      exists evs x,
        calls (world_of r) = (calls w ++ evs)%list
        /\ In (EvMiniDumpWriteDump h pid hFile MiniDumpNormal x) evs).
Proof.
  cbv zeta. split.
  - intros evs hp p hf t x Hc Hin.
    destruct (capture_call_origin _ _ _ _ _ _ _ _ Hc Hin) as [F | [F | F]];
      [destruct F | destruct F |].
    apply writer_call_in_calls_from_CreateFile in F as (_ & _ & _ & _ & ->).
    unfold exception_param. split.
    + intros Hep. apply Z.eqb_neq in Hep. rewrite Hep.
      eexists. repeat split.
    + intros ->. reflexivity.
  - intros Ok1 H1 H2 H3 H4.
    destruct (capture_new_calls ep h pid name g w)
      as (evs1 & evs2 & tail & C & _ & _ & T).
    destruct T as [[Ok1' _] | [_ (logs & _ & ->)]];
      [rewrite Ok1 in Ok1'; discriminate|].
    eexists. eexists. split; [exact C|].
    right. apply in_or_app. right. apply in_or_app. right.
    apply in_or_app. right.
    unfold calls_from_CreateFile.
    apply Z.eqb_neq in H1, H2, H3, H4. rewrite H1, H2, H3, H4.
    right. right. right. left. reflexivity.
Qed.

Lemma writer_gets_fault_context_witness :
  let g := Scenario.armed 3 in
  let w := Scenario.world Scenario.two_dumps
             (Scenario.obliging (Scenario.at_time 9 7 2)) in
  exists evs x,
    calls (world_of (CreateMiniDump_capture 4660 (-1) 4711 "app" g w))
    = (calls w ++ evs)%list
    /\ In (EvMiniDumpWriteDump (-1) 4711 7 MiniDumpNormal x) evs
    /\ exists info, x = Some info /\ ClientPointers info = TRUE
                    /\ ExceptionPointers info = 4660.
Proof.
  cbv zeta.
  destruct (writer_gets_fault_context 4660 (-1) 4711 "app" (Scenario.armed 3)
              (Scenario.world Scenario.two_dumps
                 (Scenario.obliging (Scenario.at_time 9 7 2))))
    as [Hall Hex].
  destruct Hex as (evs & x & Hc & Hin);
    [reflexivity | vm_compute; discriminate | vm_compute; discriminate
     | vm_compute; discriminate | vm_compute; discriminate |].
  exists evs, x. split; [exact Hc | split; [exact Hin|]].
  apply (Hall evs _ _ _ _ x Hc Hin). vm_compute. discriminate.
Defined.

(** ** The exported CreateMiniDump *)

Lemma CreateMiniDump_unarmed pid name g w :
  _collectDumps g = false ->
  CreateMiniDump pid name g w
  = (FALSE, g,
     set_lastError ERROR_ACCESS_DENIED
       (emit (EvSetLastError ERROR_ACCESS_DENIED)
             (emit (EvLog "CreateMiniDump") w))).
Proof. intros H. unfold CreateMiniDump. run_prog. rewrite H. reflexivity. Qed.

Lemma CreateMiniDump_bad_name pid name g w :
  _collectDumps g = true ->
  CheckDumpNameConstraints name = FALSE ->
  CreateMiniDump pid name g w
  = (FALSE, g,
     set_lastError ERROR_BAD_ARGUMENTS
       (emit (EvSetLastError ERROR_BAD_ARGUMENTS)
             (emit (EvLog "CreateMiniDump") w))).
Proof.
  intros H1 H2. unfold CreateMiniDump. run_prog. rewrite H1, H2. reflexivity.
Qed.

Lemma CreateMiniDump_no_process pid name g w :
  _collectDumps g = true ->
  CheckDumpNameConstraints name = TRUE ->
  ans_OpenProcess (answers w) pid = nullptr ->
  CreateMiniDump pid name g w
  = (FALSE, g,
     emit (EvLog "OpenProcess failed...")
       (emit (EvOpenProcess
                (Z.lor (Z.lor PROCESS_QUERY_INFORMATION PROCESS_VM_READ)
                       PROCESS_DUP_HANDLE) pid nullptr)
             (emit (EvLog "CreateMiniDump") w))).
Proof.
  intros H1 H2 H3. unfold CreateMiniDump. run_prog. rewrite H1, H2.
  run_prog. rewrite H3. reflexivity.
Qed.

Lemma CreateMiniDump_runs pid name g w :
  _collectDumps g = true ->
  CheckDumpNameConstraints name = TRUE ->
  ans_OpenProcess (answers w) pid <> nullptr ->
  let hProcess := ans_OpenProcess (answers w) pid in
  let rc := CreateMiniDump_capture nullptr hProcess pid name g
              (emit (EvOpenProcess
                       (Z.lor (Z.lor PROCESS_QUERY_INFORMATION PROCESS_VM_READ)
                              PROCESS_DUP_HANDLE) pid hProcess)
                    (emit (EvLog "CreateMiniDump") w)) in
  CreateMiniDump pid name g w
  = (TRUE, globals_of rc,
     world_of (CloseHandle hProcess (globals_of rc) (world_of rc))).
Proof.
  intros H1 H2 H3. cbv zeta. unfold CreateMiniDump.
  unfold bind at 1. cbn [LOG1 sys]. unfold bind at 1. cbn [get_globals].
  rewrite H1, H2. cbn [Bool.eqb FALSE TRUE].
  unfold bind at 1. cbn [OpenProcess answers emit].
  apply Z.eqb_neq in H3. rewrite H3.
  unfold bind at 1.
  destruct (CreateMiniDump_capture _ _ _ _ _ _) as [[u gc] wc].
  unfold bind, CloseHandle, globals_of, world_of. cbn [fst snd ret].
  destruct (ans_CloseHandle _ _); reflexivity.
Qed.

(** C8. The exported [CreateMiniDump] fails with last error
    [ERROR_ACCESS_DENIED] when collection was never initialised, whatever
    the name and the process; otherwise it fails with last error
    [ERROR_BAD_ARGUMENTS] when the name violates the constraints, whatever
    the process, and [OpenProcess] is not called; otherwise it fails when
    [OpenProcess] returns null. *)
Theorem CreateMiniDump_checks_in_order
    (pid : Z) (name : string) (g : Globals) (w : World) :
  let r := CreateMiniDump pid name g w in
  let access := Z.lor (Z.lor PROCESS_QUERY_INFORMATION PROCESS_VM_READ)
                      PROCESS_DUP_HANDLE in
  (_collectDumps g = false ->
   value_of r = FALSE
   /\ lastError (world_of r) = ERROR_ACCESS_DENIED
   /\ calls (world_of r)
      = (calls w ++ [EvLog "CreateMiniDump";
                     EvSetLastError ERROR_ACCESS_DENIED])%list)
  /\ (_collectDumps g = true ->
      CheckDumpNameConstraints name = FALSE ->
      value_of r = FALSE
      /\ lastError (world_of r) = ERROR_BAD_ARGUMENTS
      /\ calls (world_of r)
         = (calls w ++ [EvLog "CreateMiniDump";
                        EvSetLastError ERROR_BAD_ARGUMENTS])%list)
  /\ (_collectDumps g = true ->
      CheckDumpNameConstraints name = TRUE ->
      ans_OpenProcess (answers w) pid = nullptr ->
      value_of r = FALSE
      /\ calls (world_of r)
         = (calls w ++ [EvLog "CreateMiniDump";
                        EvOpenProcess access pid nullptr;
                        EvLog "OpenProcess failed..."])%list).
Proof.
  cbv zeta. split; [|split].
  - intros H. rewrite (CreateMiniDump_unarmed _ _ _ _ H).
    cbn. rewrite <- app_assoc. repeat split.
  - intros H1 H2. rewrite (CreateMiniDump_bad_name _ _ _ _ H1 H2).
    cbn. rewrite <- app_assoc. repeat split.
  - intros H1 H2 H3. rewrite (CreateMiniDump_no_process _ _ _ _ H1 H2 H3).
    cbn. rewrite <- !app_assoc. repeat split.
Qed.

Lemma CreateMiniDump_checks_in_order_witness :
  let w := Scenario.world [] (Scenario.obliging (Scenario.at_time 9 7 2)) in
  (* not initialised, and the name is invalid as well: access denied *)
  lastError (world_of (CreateMiniDump 1 "a/b" initial_globals w))
  = ERROR_ACCESS_DENIED
  (* initialised, invalid name: bad arguments *)
  /\ lastError (world_of (CreateMiniDump 1 "a/b" (Scenario.armed 2) w))
     = ERROR_BAD_ARGUMENTS.
Proof.
  cbv zeta. split.
  - apply (CreateMiniDump_checks_in_order 1 "a/b" initial_globals
             (Scenario.world [] (Scenario.obliging (Scenario.at_time 9 7 2)))).
    reflexivity.
  - apply (CreateMiniDump_checks_in_order 1 "a/b" (Scenario.armed 2)
             (Scenario.world [] (Scenario.obliging (Scenario.at_time 9 7 2))));
      reflexivity.
Defined.

Lemma capture_incl_files ep h pid name g w :
  ans_CreateFile (answers w)
    (_minidumpStringBuilder g
     ++ dump_file_name (_dumpFolder g) (_dumpName g)
                       (ans_LocalTime (answers w)))
  = INVALID_HANDLE_VALUE ->
  incl (files (world_of (CreateMiniDump_capture ep h pid name g w)))
       (files w).
Proof.
  intros Hcf.
  destruct (capture_anatomy ep h pid name g w) as [HF HT].
  pose proof (CreateMinidumpFolder_tidy g (emit (EvLog "Creating Mini dump...") w))
    as (_ & _ & I1).
  cbn [files emit] in I1.
  destruct (value_of (CreateMinidumpFolder g (emit (EvLog "Creating Mini dump...") w))).
  - specialize (HT eq_refl) as (_ & Hf & _). rewrite Hf.
    rewrite (files_after_CreateFile_incl _ _ _ Hcf).
    eapply incl_tran; [|exact I1].
    apply RemoveOldMinidumps_tidy.
  - rewrite (HF eq_refl). exact I1.
Qed.

Lemma CreateMiniDump_outcome pid name g w :
  _collectDumps g = true ->
  CheckDumpNameConstraints name = TRUE ->
  ans_OpenProcess (answers w) pid <> nullptr ->
  let hProcess := ans_OpenProcess (answers w) pid in
  let rc := CreateMiniDump_capture nullptr hProcess pid name g
              (emit (EvOpenProcess
                       (Z.lor (Z.lor PROCESS_QUERY_INFORMATION PROCESS_VM_READ)
                              PROCESS_DUP_HANDLE) pid hProcess)
                    (emit (EvLog "CreateMiniDump") w)) in
  let r := CreateMiniDump pid name g w in
  value_of r = TRUE
  /\ globals_of r = globals_of rc
  /\ files (world_of r) = files (world_of rc)
  /\ calls (world_of r)
     = (calls (world_of rc) ++ [EvCloseHandle hProcess])%list.
Proof.
  intros H1 H2 H3. cbv zeta.
  rewrite (CreateMiniDump_runs _ _ _ _ H1 H2 H3). cbv zeta.
  unfold CloseHandle, value_of, globals_of, world_of. cbn [fst snd].
  destruct (ans_CloseHandle _ _); repeat split.
Qed.

Lemma CreateMiniDump_call_origin pid name g w evs e :
  _collectDumps g = true ->
  CheckDumpNameConstraints name = TRUE ->
  ans_OpenProcess (answers w) pid <> nullptr ->
  calls (world_of (CreateMiniDump pid name g w)) = (calls w ++ evs)%list ->
  In e evs ->
  is_log e
  \/ (exists access, e = EvOpenProcess access pid (ans_OpenProcess (answers w) pid))
  \/ e = EvCloseHandle (ans_OpenProcess (answers w) pid)
  \/ folder_call e \/ retention_call e
  \/ In e (calls_from_CreateFile (answers w) nullptr
             (ans_OpenProcess (answers w) pid) pid
             (_minidumpStringBuilder g
              ++ dump_file_name (_dumpFolder g) (_dumpName g)
                                (ans_LocalTime (answers w)))).
Proof.
  intros H1 H2 H3 Hc Hin.
  destruct (CreateMiniDump_outcome _ _ _ _ H1 H2 H3) as (_ & _ & _ & Hcl).
  cbv zeta in Hcl. rewrite Hcl in Hc. clear Hcl.
  set (w0 := emit (EvOpenProcess _ pid _) (emit (EvLog "CreateMiniDump") w)) in Hc.
  destruct (capture_new_calls nullptr (ans_OpenProcess (answers w) pid) pid
              name g w0) as (evs1 & evs2 & tail & C & _).
  pose proof (capture_call_origin nullptr (ans_OpenProcess (answers w) pid)
                pid name g w0 _ e C) as Origin.
  rewrite C in Hc. subst w0. cbn [calls emit] in Hc.
  repeat (rewrite <- app_assoc in Hc || rewrite <- app_comm_cons in Hc).
  apply app_inv_head in Hc. subst evs. cbn [app] in Hin.
  destruct Hin as [<- | [<- | Hin]]; [left; exact I | right; left; eauto |].
  change (EvLog "Creating Mini dump..." :: evs1 ++ evs2 ++ tail
          ++ [EvCloseHandle (ans_OpenProcess (answers w) pid)])%list
    with ((EvLog "Creating Mini dump..." :: evs1 ++ evs2 ++ tail
          ++ [EvCloseHandle (ans_OpenProcess (answers w) pid)]))%list in Hin.
  assert (In e (EvLog "Creating Mini dump..." :: evs1 ++ evs2 ++ tail)%list
          \/ e = EvCloseHandle (ans_OpenProcess (answers w) pid)) as [Hin' | ->].
  { destruct Hin as [<- | Hin]; [left; left; reflexivity|].
    apply in_app_or in Hin as [Hin | Hin];
      [left; right; apply in_or_app; left; exact Hin|].
    apply in_app_or in Hin as [Hin | Hin];
      [left; right; apply in_or_app; right; apply in_or_app; left; exact Hin|].
    apply in_app_or in Hin as [Hin | [<- | []]];
      [left; right; apply in_or_app; right; apply in_or_app; right; exact Hin
      | right; reflexivity]. }
  - specialize (Origin Hin'). cbn [answers emit] in Origin. tauto.
  - tauto.
Qed.

(** ** The value returned by the exported CreateMiniDump *)

(** C10. Once collection is initialised, the name is valid and
    [OpenProcess] succeeds, the exported [CreateMiniDump] returns [TRUE]
    whatever the later calls answer; in particular when the dump file
    cannot be created it returns [TRUE] although no file was added and the
    dump writer was never called. *)
Theorem CreateMiniDump_TRUE_without_dump
    (pid : Z) (name : string) (g : Globals) (w : World) :
  let r := CreateMiniDump pid name g w in
  _collectDumps g = true ->
  CheckDumpNameConstraints name = TRUE ->
  ans_OpenProcess (answers w) pid <> nullptr ->
  value_of r = TRUE
  /\ ((forall p, ans_CreateFile (answers w) p = INVALID_HANDLE_VALUE) ->
      incl (files (world_of r)) (files w)
      /\ forall evs hp p hf t x,
           calls (world_of r) = (calls w ++ evs)%list ->
           ~ In (EvMiniDumpWriteDump hp p hf t x) evs).
Proof.
  cbv zeta. intros H1 H2 H3. split.
  - apply (CreateMiniDump_outcome _ _ _ _ H1 H2 H3).
  - intros Hcf. split.
    + destruct (CreateMiniDump_outcome _ _ _ _ H1 H2 H3) as (_ & _ & Hf & _).
      cbv zeta in Hf. rewrite Hf.
      eapply incl_tran; [apply capture_incl_files; apply Hcf|].
      cbn [files emit]. apply incl_refl.
    + intros evs hp p hf t x Hc Hin.
      destruct (CreateMiniDump_call_origin _ _ _ _ _ _ H1 H2 H3 Hc Hin)
        as [F | [[a F] | [F | [F | [F | F]]]]];
        [destruct F | discriminate F | discriminate F
         | destruct F | destruct F |].
      unfold calls_from_CreateFile in F. rewrite Hcf in F.
      cbn in F. intuition discriminate.
Qed.

Lemma CreateMiniDump_TRUE_without_dump_witness :
  let g := Scenario.armed 2 in
  let w := Scenario.world Scenario.two_dumps
             (Scenario.read_only (Scenario.at_time 9 7 2)) in
  value_of (CreateMiniDump 1 "anything" g w) = TRUE
  /\ incl (files (world_of (CreateMiniDump 1 "anything" g w)))
          Scenario.two_dumps.
Proof.
  cbv zeta.
  destruct (CreateMiniDump_TRUE_without_dump 1 "anything" (Scenario.armed 2)
              (Scenario.world Scenario.two_dumps
                 (Scenario.read_only (Scenario.at_time 9 7 2))))
    as [Htrue Hnone];
    [reflexivity | reflexivity | vm_compute; discriminate |].
  split; [exact Htrue|].
  apply Hnone. reflexivity.
Defined.

(** ** The path of the dump file *)

Lemma CreateMiniDump_CreateFile_path pid name g w evs p hf :
  calls (world_of (CreateMiniDump pid name g w)) = (calls w ++ evs)%list ->
  In (EvCreateFile p hf) evs ->
  p = _minidumpStringBuilder g
      ++ dump_file_name (_dumpFolder g) (_dumpName g)
                        (ans_LocalTime (answers w)).
Proof.
  intros Hc Hin.
  destruct (_collectDumps g) eqn:H1.
  2:{ rewrite (CreateMiniDump_unarmed _ _ _ _ H1) in Hc.
      cbn [world_of snd calls set_lastError emit] in Hc.
      rewrite <- app_assoc in Hc. apply app_inv_head in Hc. subst evs.
      cbn in Hin. intuition discriminate. }
  destruct (CheckDumpNameConstraints name) eqn:H2.
  2:{ rewrite (CreateMiniDump_bad_name _ _ _ _ H1 H2) in Hc.
      cbn [world_of snd calls set_lastError emit] in Hc.
      rewrite <- app_assoc in Hc. apply app_inv_head in Hc. subst evs.
      cbn in Hin. intuition discriminate. }
  destruct (Z.eq_dec (ans_OpenProcess (answers w) pid) nullptr) as [H3 | H3].
  { rewrite (CreateMiniDump_no_process _ _ _ _ H1 H2 H3) in Hc.
    cbn [world_of snd calls set_lastError emit] in Hc.
    rewrite <- !app_assoc in Hc. apply app_inv_head in Hc. subst evs.
    cbn in Hin. intuition discriminate. }
  destruct (CreateMiniDump_call_origin _ _ _ _ _ _ H1 H2 H3 Hc Hin)
    as [F | [[a F] | [F | [F | [F | F]]]]];
    [destruct F | discriminate F | discriminate F
     | destruct F | destruct F |].
  apply CreateFile_call_in_calls_from_CreateFile in F. apply F.
Qed.

(** ** One-time initialisation *)

Lemma InitDumpCollection_armed n folder name g w :
  _collectDumps g = true ->
  InitDumpCollection n folder name g w
  = (FALSE, g,
     set_lastError ERROR_ACCESS_DENIED
       (emit (EvSetLastError ERROR_ACCESS_DENIED)
             (emit (EvLog "Initializing mini dump collection...") w))).
Proof.
  intros H. unfold InitDumpCollection. run_prog. rewrite H. reflexivity.
Qed.

Lemma InitDumpCollection_success n folder name g w :
  value_of (InitDumpCollection n folder name g w) = TRUE ->
  exists f nm,
    folder = Some f /\ name = Some nm
    /\ 0 < n
    /\ CheckDumpNameConstraints nm = TRUE
    /\ config (globals_of (InitDumpCollection n folder name g w))
       = (true, n, f, nm, (f ++ nm) ++ "*.dmp")
    /\ _minidumpStringBuilder (globals_of (InitDumpCollection n folder name g w))
       = _minidumpStringBuilder g.
Proof.
  unfold InitDumpCollection. run_prog.
  destruct (_collectDumps g); [discriminate|].
  destruct folder as [f|], name as [nm|]; try discriminate.
  destruct (n <=? 0) eqn:En; [discriminate|].
  destruct (_ || _ || _); [discriminate|].
  destruct (CheckDumpNameConstraints nm) eqn:Ec; [|discriminate].
  intros _. exists f, nm. apply Z.leb_gt in En.
  split; [reflexivity | split; [reflexivity | split; [exact En|]]].
  split; [exact Ec | split; reflexivity].
Qed.

Lemma capture_config ep h pid name g w :
  config (globals_of (CreateMiniDump_capture ep h pid name g w)) = config g.
Proof.
  destruct (capture_anatomy ep h pid name g w) as [HF HT].
  pose proof (CreateMinidumpFolder_tidy g (emit (EvLog "Creating Mini dump...") w))
    as ([G1 _] & _).
  destruct (value_of (CreateMinidumpFolder g (emit (EvLog "Creating Mini dump...") w))).
  - specialize (HT eq_refl) as (_ & _ & _ & ->).
    rewrite config_named.
    pose proof (RemoveOldMinidumps_tidy
                  (globals_of (CreateMinidumpFolder g (emit (EvLog "Creating Mini dump...") w)))
                  (world_of (CreateMinidumpFolder g (emit (EvLog "Creating Mini dump...") w))))
      as ([G2 _] & _).
    congruence.
  - rewrite (HF eq_refl). exact G1.
Qed.

(** A call into the armed library leaves the globals alone or runs one
    capture. *)
Lemma run_call_globals c g w :
  _collectDumps g = true ->
  fst (run_call c g w) = g
  \/ exists ep h pid name w0,
       answers w0 = answers w
       /\ fst (run_call c g w)
          = globals_of (CreateMiniDump_capture ep h pid name g w0).
Proof.
  intros Harmed. destruct c as [n folder name | pid name | ep]; cbn [run_call].
  - rewrite (InitDumpCollection_armed _ _ _ _ _ Harmed). now left.
  - destruct (CheckDumpNameConstraints name) eqn:H2.
    + destruct (Z.eq_dec (ans_OpenProcess (answers w) pid) nullptr) as [H3 | H3].
      * rewrite (CreateMiniDump_no_process _ _ _ _ Harmed H2 H3). now left.
      * destruct (CreateMiniDump_outcome _ _ _ _ Harmed H2 H3) as (_ & Hg & _).
        cbv zeta in Hg. unfold globals_of in Hg at 1.
        destruct (CreateMiniDump pid name g w) as [[v g'] w'].
        cbn [fst snd] in *. subst g'. right.
        do 5 eexists. split; [|reflexivity]. reflexivity.
    + rewrite (CreateMiniDump_bad_name _ _ _ _ Harmed H2). now left.
  - right. exists ep, (ans_CurrentProcess (answers w)),
      (ans_CurrentProcessId (answers w)), (_dumpName g), w.
    split; [reflexivity|].
    unfold CreateMiniDump_fault. unfold bind at 1. cbn [get_globals].
    rewrite Harmed. unfold bind at 1 2.
    cbn [GetCurrentProcess GetCurrentProcessId]. unfold globals_of.
    destruct (CreateMiniDump_capture _ _ _ _ _ _) as [[u g'] w'].
    reflexivity.
Qed.

Lemma run_call_config c g w :
  _collectDumps g = true -> config (fst (run_call c g w)) = config g.
Proof.
  intros Harmed.
  destruct (run_call_globals c g w Harmed)
    as [-> | (ep & h & pid & name & w0 & _ & ->)];
    [reflexivity | apply capture_config].
Qed.

Lemma config_armed g g' :
  config g' = config g -> _collectDumps g = true -> _collectDumps g' = true.
Proof. unfold config. intros H. injection H as -> _ _ _ _. auto. Qed.

Lemma run_calls_config cs :
  forall g, _collectDumps g = true -> config (run_calls cs g) = config g.
Proof.
  induction cs as [|[c w] cs IH]; intros g Harmed; [reflexivity|].
  cbn [run_calls].
  pose proof (run_call_config c g w Harmed) as Hc.
  rewrite IH; [exact Hc|].
  eapply config_armed; eauto.
Qed.

(** C2. After a first successful [InitDumpCollection], and whatever the
    library is called with afterwards, a further [InitDumpCollection]
    returns [FALSE] with last error [ERROR_ACCESS_DENIED] and changes no
    global; the retained count, folder, base name and pattern are those of
    the first call, and a later capture calls [CreateFile] with a path made
    of the first call's folder and base name. *)
Theorem InitDumpCollection_only_once
    (n : Z) (folder name : option string) (g0 : Globals) (w0 : World)
    (cs : list (ApiCall * World))
    (n' : Z) (folder' name' : option string) (w : World) :
  let g1 := globals_of (InitDumpCollection n folder name g0 w0) in
  let g := run_calls cs g1 in
  let r := InitDumpCollection n' folder' name' g w in
  value_of (InitDumpCollection n folder name g0 w0) = TRUE ->
  value_of r = FALSE
  /\ lastError (world_of r) = ERROR_ACCESS_DENIED
  /\ globals_of r = g
  /\ _collectDumps g = true
  /\ _numRetainedMinidumps g = n
  /\ folder = Some (_dumpFolder g)
  /\ name = Some (_dumpName g)
  /\ _minidumpPattern g = (_dumpFolder g ++ _dumpName g) ++ "*.dmp"
  /\ (forall pid nm w' evs p hf,
         calls (world_of (CreateMiniDump pid nm (globals_of r) w'))
         = (calls w' ++ evs)%list ->
         In (EvCreateFile p hf) evs ->
         exists f b, folder = Some f /\ name = Some b
                     /\ p = _minidumpStringBuilder g
                            ++ dump_file_name f b (ans_LocalTime (answers w'))).
Proof.
  cbv zeta. intros Hfirst.
  destruct (InitDumpCollection_success _ _ _ _ _ Hfirst)
    as (f & nm & -> & -> & _ & _ & Hcfg & _).
  set (g1 := globals_of (InitDumpCollection n (Some f) (Some nm) g0 w0)) in *.
  assert (_collectDumps g1 = true) as Harmed1
    by (unfold config in Hcfg; now injection Hcfg).
  pose proof (run_calls_config cs g1 Harmed1) as Hc.
  rewrite Hcfg in Hc. unfold config in Hc.
  injection Hc as Ha Hn Hf Hb Hp.
  rewrite (InitDumpCollection_armed _ _ _ _ _ Ha).
  cbn [value_of globals_of world_of fst snd lastError set_lastError].
  rewrite Hf, Hb. repeat split; try assumption.
  intros pid nm' w' evs p hf Hcalls Hin.
  exists f, nm. repeat split.
  rewrite <- Hf at 1. rewrite <- Hb.
  eapply CreateMiniDump_CreateFile_path; eauto.
Qed.

Lemma InitDumpCollection_only_once_witness :
  let w := Scenario.world [] (Scenario.obliging (Scenario.at_time 9 7 2)) in
  let g1 := globals_of (InitDumpCollection 2 (Some "C:\dumps\") (Some "app")
                          initial_globals w) in
  let g := run_calls [(CallCreateMiniDump 1 "x", w)] g1 in
  value_of (InitDumpCollection 2 (Some "C:\dumps\") (Some "app")
              initial_globals w) = TRUE
  /\ value_of (InitDumpCollection 5 (Some "D:\other\") (Some "svc") g w) = FALSE
  /\ _dumpFolder g = "C:\dumps\" /\ _dumpName g = "app".
Proof.
  cbv zeta. split; [reflexivity|].
  destruct (InitDumpCollection_only_once 2 (Some "C:\dumps\") (Some "app")
              initial_globals
              (Scenario.world [] (Scenario.obliging (Scenario.at_time 9 7 2)))
              [(CallCreateMiniDump 1 "x",
                Scenario.world [] (Scenario.obliging (Scenario.at_time 9 7 2)))]
              5 (Some "D:\other\") (Some "svc")
              (Scenario.world [] (Scenario.obliging (Scenario.at_time 9 7 2)))
              eq_refl)
    as (Hv & _ & _ & _ & _ & Hf & Hb & _).
  split; [exact Hv|]. split; congruence.
Defined.

(** ** The dump name argument *)

Lemma names_written_app folder base ts t :
  names_written folder base (ts ++ [t])
  = names_written folder base ts ++ dump_file_name folder base t.
Proof.
  induction ts as [|t' ts IH]; cbn [names_written app].
  - now rewrite append_nil_r.
  - now rewrite IH, append_assoc.
Qed.






(** ** The file name of a dump *)

Lemma decimal_value_dec (n : Z) : 0 <= n -> decimal_value (dec n) = Some n.
Proof.
  intros H. unfold decimal_value, dec.
  rewrite NilEmpty.usu. cbn [option_map].
  rewrite DecimalN.Unsigned.of_to, Z2N.id by exact H. reflexivity.
Qed.

Lemma below_by_cases (P : Z -> bool) (bound : nat) :
  forallb (fun k => P (Z.of_nat k)) (seq 0 bound) = true ->
  forall n, 0 <= n < Z.of_nat bound -> P n = true.
Proof.
  intros H n Hn. rewrite forallb_forall in H.
  rewrite <- (Z2Nat.id n) by lia. apply H. apply in_seq. lia.
Qed.

Lemma pad2_two_digits (n : Z) :
  0 <= n < 100 ->
  String.length (pad2 n) = 2%nat /\ decimal_value (pad2 n) = Some n.
Proof.
  intros Hn.
  pose proof (below_by_cases
                (fun k => Nat.eqb (String.length (pad2 k)) 2
                          && match decimal_value (pad2 k) with
                             | Some v => v =? k
                             | None => false
                             end) 100 eq_refl n Hn) as H.
  cbv beta in H. apply andb_true_iff in H as [H1 H2].
  apply Nat.eqb_eq in H1. split; [exact H1|].
  destruct (decimal_value (pad2 n)); [|discriminate].
  apply Z.eqb_eq in H2. now subst.
Qed.

Lemma dec_one_digit (n : Z) : 0 <= n < 10 -> String.length (dec n) = 1%nat.
Proof.
  intros Hn.
  pose proof (below_by_cases (fun k => Nat.eqb (String.length (dec k)) 1)
                             10 eq_refl n Hn) as H.
  now apply Nat.eqb_eq in H.
Qed.

(** C5, as the code has it.  The generated name is the stream contents,
    the folder, the base name, an underscore, the day and the month each
    written with exactly two digits (a leading zero below ten), the year,
    and then hour, minute and second in plain decimal, without padding: a
    single digit below ten. *)
Theorem file_name_pads_day_and_month_only (g : Globals) (w : World) :
  let t := ans_LocalTime (answers w) in
  let name := _minidumpFileName (globals_of (CreateMinidumpFileName g w)) in
  0 <= wDay t < 100 ->
  0 <= wMonth t < 100 ->
  0 <= wHour t -> 0 <= wMinute t -> 0 <= wSecond t ->
  exists dd mm hh mi ss,
    name = _minidumpStringBuilder g ++ _dumpFolder g ++ _dumpName g
           ++ "_" ++ dd ++ "." ++ mm ++ "." ++ dec (wYear t)
           ++ " - " ++ hh ++ "_" ++ mi ++ "_" ++ ss ++ ".dmp"
    /\ (String.length dd = 2%nat /\ decimal_value dd = Some (wDay t))
    /\ (String.length mm = 2%nat /\ decimal_value mm = Some (wMonth t))
    /\ (hh = dec (wHour t) /\ decimal_value hh = Some (wHour t)
        /\ (wHour t < 10 -> String.length hh = 1%nat))
    /\ (mi = dec (wMinute t) /\ decimal_value mi = Some (wMinute t)
        /\ (wMinute t < 10 -> String.length mi = 1%nat))
    /\ (ss = dec (wSecond t) /\ decimal_value ss = Some (wSecond t)
        /\ (wSecond t < 10 -> String.length ss = 1%nat)).
Proof.
  cbv zeta. intros Hd Hm Hh Hmi Hs.
  rewrite CreateMinidumpFileName_run. cbn [globals_of fst snd named _minidumpFileName].
  exists (pad2 (wDay (ans_LocalTime (answers w)))),
         (pad2 (wMonth (ans_LocalTime (answers w)))),
         (dec (wHour (ans_LocalTime (answers w)))),
         (dec (wMinute (ans_LocalTime (answers w)))),
         (dec (wSecond (ans_LocalTime (answers w)))).
  split; [reflexivity|].
  split; [now apply pad2_two_digits|].
  split; [now apply pad2_two_digits|].
  repeat split;
    try (now apply decimal_value_dec);
    intros; apply dec_one_digit; lia.
Qed.

Lemma file_name_pads_day_and_month_only_witness :
  let w := Scenario.world [] (Scenario.obliging (Scenario.at_time 9 7 2)) in
  exists dd mm hh mi ss,
    _minidumpFileName (globals_of (CreateMinidumpFileName (Scenario.armed 2) w))
    = "C:\dumps\app_" ++ dd ++ "." ++ mm ++ ".2024 - " ++ hh ++ "_" ++ mi
      ++ "_" ++ ss ++ ".dmp"
    /\ String.length dd = 2%nat /\ String.length mm = 2%nat
    /\ String.length hh = 1%nat /\ String.length mi = 1%nat
    /\ String.length ss = 1%nat.
Proof.
  cbv zeta.
  destruct (file_name_pads_day_and_month_only (Scenario.armed 2)
              (Scenario.world [] (Scenario.obliging (Scenario.at_time 9 7 2))))
    as (dd & mm & hh & mi & ss & Hn & [Hd _] & [Hm _] & (_ & _ & Hh)
        & (_ & _ & Hmi) & (_ & _ & Hs));
    try (vm_compute; intuition discriminate).
  exists dd, mm, hh, mi, ss.
  split; [exact Hn|].
  repeat split; try assumption;
    [apply Hh | apply Hmi | apply Hs]; reflexivity.
Defined.

(** The name of section 4.4 of the specification, with the time of day
    padded as well, is not the name the code generates; and the generated
    names do not sort chronologically: ten o'clock sorts before one second
    to ten. *)
Lemma file_name_not_all_padded :
  let g := Scenario.armed 2 in
  let w t := Scenario.world [] (Scenario.obliging t) in
  let name t :=
    _minidumpFileName (globals_of (CreateMinidumpFileName g (w t))) in
  name (Scenario.at_time 9 7 2) = "C:\dumps\app_05.03.2024 - 9_7_2.dmp"
  /\ dump_file_name_all_padded "C:\dumps\" "app" (Scenario.at_time 9 7 2)
     = "C:\dumps\app_05.03.2024 - 09_07_02.dmp"
  /\ name (Scenario.at_time 9 7 2)
     <> dump_file_name_all_padded "C:\dumps\" "app" (Scenario.at_time 9 7 2)
  /\ seconds_in_month (Scenario.at_time 9 59 59)
     < seconds_in_month (Scenario.at_time 10 0 0)
  /\ String.ltb (name (Scenario.at_time 10 0 0))
                (name (Scenario.at_time 9 59 59)) = true.
Proof.
  cbv zeta. split; [reflexivity|]. split; [reflexivity|].
  split; [vm_compute; discriminate|]. split; reflexivity.
Qed.

(** ** The handle of the dump file *)

(** On the path that reaches the dump writer the handle is closed, whether
    the write succeeds or not. *)
Lemma file_handle_closed_after_write ep h pid name g w :
  let r := CreateMiniDump_capture ep h pid name g w in
  let r1 := CreateMinidumpFolder g (emit (EvLog "Creating Mini dump...") w) in
  let path := _minidumpStringBuilder g
              ++ dump_file_name (_dumpFolder g) (_dumpName g)
                                (ans_LocalTime (answers w)) in
  let hFile := ans_CreateFile (answers w) path in
  let dbghelp := ans_LoadLibrary (answers w) "DbgHelp.dll" in
  value_of r1 = TRUE ->
  hFile <> INVALID_HANDLE_VALUE ->
  hFile <> nullptr ->
  dbghelp <> nullptr ->
  ans_GetProcAddress (answers w) dbghelp "MiniDumpWriteDump" <> nullptr ->
  exists evs,
    calls (world_of r) = (calls w ++ evs)%list
    /\ In (EvCloseHandle hFile) evs.
Proof.
  cbv zeta. intros Ok1 H1 H2 H3 H4.
  destruct (capture_new_calls ep h pid name g w)
    as (evs1 & evs2 & tail & C & _ & _ & T).
  destruct T as [[Ok1' _] | [_ (logs & _ & ->)]];
    [rewrite Ok1 in Ok1'; discriminate|].
  eexists. split; [exact C|].
  right. apply in_or_app. right. apply in_or_app. right.
  apply in_or_app. right.
  unfold calls_from_CreateFile.
  apply Z.eqb_neq in H1, H2, H3, H4. rewrite H1, H2, H3, H4.
  right. right. right. right. right. left. reflexivity.
Qed.

(** C6, as the code has it.  When the dump file was created but
    [DbgHelp.dll] or its entry point [MiniDumpWriteDump] cannot be
    resolved, the capture returns without a single call of [CloseHandle]:
    the handle of the dump file stays open. *)
Theorem file_handle_left_open
    (ep : Z) (h : HANDLE) (pid : Z) (name : string) (g : Globals) (w : World) :
  let r := CreateMiniDump_capture ep h pid name g w in
  let r1 := CreateMinidumpFolder g (emit (EvLog "Creating Mini dump...") w) in
  let path := _minidumpStringBuilder g
              ++ dump_file_name (_dumpFolder g) (_dumpName g)
                                (ans_LocalTime (answers w)) in
  let hFile := ans_CreateFile (answers w) path in
  let dbghelp := ans_LoadLibrary (answers w) "DbgHelp.dll" in
  value_of r1 = TRUE ->
  hFile <> INVALID_HANDLE_VALUE ->
  dbghelp = nullptr
  \/ ans_GetProcAddress (answers w) dbghelp "MiniDumpWriteDump" = nullptr ->
  exists evs,
    calls (world_of r) = (calls w ++ evs)%list
    /\ In (EvCreateFile path hFile) evs
    /\ forall h', ~ In (EvCloseHandle h') evs.
Proof.
  cbv zeta. intros Ok1 Hh Hno.
  destruct (capture_new_calls ep h pid name g w)
    as (evs1 & evs2 & tail & C & _ & _ & T).
  destruct T as [[Ok1' _] | [_ (logs & _ & ->)]];
    [rewrite Ok1 in Ok1'; discriminate|].
  eexists. split; [exact C|]. split.
  - right. apply in_or_app. right. apply in_or_app. right.
    apply in_or_app. right. left. reflexivity.
  - intros h' Hin.
    destruct (capture_call_origin _ _ _ _ _ _ _ _ C Hin) as [F | [F | F]];
      [destruct F | destruct F |].
    unfold calls_from_CreateFile in F.
    apply Z.eqb_neq in Hh. rewrite Hh in F.
    destruct Hno as [Hno | Hno].
    + rewrite Hno in F. cbn in F. intuition discriminate.
    + rewrite Hno in F.
      destruct (ans_LoadLibrary (answers w) "DbgHelp.dll" =? nullptr);
        cbn in F; intuition discriminate.
Qed.

Lemma file_handle_left_open_witness :
  let g := Scenario.armed 2 in
  let w := Scenario.world []
             (Scenario.without_dbghelp (Scenario.at_time 9 7 2)) in
  exists evs,
    calls (world_of (CreateMiniDump_capture 0 9 1 "app" g w))
    = (calls w ++ evs)%list
    /\ In (EvCreateFile "C:\dumps\app_05.03.2024 - 9_7_2.dmp" 7) evs
    /\ ~ In (EvCloseHandle 7) evs.
Proof.
  cbv zeta.
  destruct (file_handle_left_open 0 9 1 "app" (Scenario.armed 2)
              (Scenario.world []
                 (Scenario.without_dbghelp (Scenario.at_time 9 7 2))))
    as (evs & Hc & Hin & Hno);
    [reflexivity | vm_compute; discriminate | left; reflexivity |].
  exists evs. split; [exact Hc | split; [exact Hin | apply Hno]].
Defined.

(** ** The retention scan *)

Lemma CompareFileTime_later (a b : FILETIME) :
  (CompareFileTime a b =? 1) = (b <? a).
Proof.
  unfold CompareFileTime. destruct (Z.compare_spec a b) as [E | L | G]; cbn.
  - subst. symmetry. apply Z.ltb_irrefl.
  - symmetry. apply Z.ltb_ge. lia.
  - symmetry. apply Z.ltb_lt. exact G.
Qed.

(** One iteration on a [.] or [..] entry. *)
Lemma loop_step_dot folder fd rest n t g w :
  is_dot_entry (cFileName fd) = true ->
  RemoveOldMinidumps_loop folder fd rest n t g w
  = match rest with
    | [] => (TRUE, g, emit (EvLog "Removed old minidumps") w)
    | fdNext :: rest' => RemoveOldMinidumps_loop folder fdNext rest' n t g w
    end.
Proof.
  intros Hdot. rewrite RemoveOldMinidumps_loop_eq. cbv zeta.
  rewrite Hdot. cbn [negb]. destruct rest; reflexivity.
Qed.

(** One iteration on a counted entry below the quota. *)
Lemma loop_step_count folder fd rest n t g w :
  is_dot_entry (cFileName fd) = false ->
  n + 1 < _numRetainedMinidumps g ->
  let newer := (n =? 0) || (ftLastWriteTime fd <? t) in
  exists g',
    _numRetainedMinidumps g' = _numRetainedMinidumps g
    /\ _oldestFileFullName g'
       = (if newer then folder ++ cFileName fd else _oldestFileFullName g)
    /\ RemoveOldMinidumps_loop folder fd rest n t g w
       = match rest with
         | [] => (TRUE, g', emit (EvLog "Removed old minidumps") w)
         | fdNext :: rest' =>
             RemoveOldMinidumps_loop folder fdNext rest' (n + 1)
               (if newer then ftLastWriteTime fd else t) g' w
         end.
Proof.
  intros Hdot Hn. cbv zeta.
  rewrite RemoveOldMinidumps_loop_eq. cbv zeta.
  rewrite Hdot, <- CompareFileTime_later. cbn [negb].
  apply Z.lt_nge in Hn. rewrite <- Z.geb_le in Hn.
  apply not_true_is_false in Hn.
  unfold bind, assign_tmpPath, get_globals, assign_oldestFileFullName, ret,
    LOG1, sys.
  destruct (n =? 0); [|destruct (CompareFileTime t (ftLastWriteTime fd) =? 1)];
    cbn [orb _numRetainedMinidumps _oldestFileFullName _tmpPath];
    rewrite Hn; eexists; (split; [|split; [|destruct rest; reflexivity]]);
    reflexivity.
Qed.

Lemma DeleteFile_keeps_globals path g w :
  globals_of (DeleteFile path g w) = g.
Proof.
  unfold DeleteFile. cbn.
  destruct (ans_DeleteFile (answers w) path); [|destruct (existsb _ _)];
    reflexivity.
Qed.

(** One iteration on a counted entry that reaches the quota. *)
Lemma loop_step_delete folder fd rest n t g w :
  is_dot_entry (cFileName fd) = false ->
  _numRetainedMinidumps g <= n + 1 ->
  let newer := (n =? 0) || (ftLastWriteTime fd <? t) in
  let path := if newer then folder ++ cFileName fd
              else _oldestFileFullName g in
  exists g',
    _numRetainedMinidumps g' = _numRetainedMinidumps g
    /\ _oldestFileFullName g' = path
    /\ RemoveOldMinidumps_loop folder fd rest n t g w
       = (let r := DeleteFile path g' w in
          if value_of r then
            match rest with
            | [] => (TRUE, g', emit (EvLog "Removed old minidumps") (world_of r))
            | fdNext :: rest' =>
                RemoveOldMinidumps_loop folder fdNext rest' n
                  (if newer then ftLastWriteTime fd else t) g' (world_of r)
            end
          else
            (FALSE, g',
             emit (EvLog ("DeleteFile failed: " ++ dec (lastError (world_of r))))
                  (world_of r))).
Proof.
  intros Hdot Hn. cbv zeta.
  rewrite RemoveOldMinidumps_loop_eq. cbv zeta.
  rewrite Hdot, <- CompareFileTime_later. cbn [negb].
  rewrite <- Z.geb_le in Hn.
  unfold bind at 1. cbn [assign_tmpPath]. unfold bind at 1. cbn [get_globals].
  unfold bind at 1.
  destruct (n =? 0); [|destruct (CompareFileTime t (ftLastWriteTime fd) =? 1)];
    cbn [orb];
    unfold bind, assign_oldestFileFullName, get_globals, ret, GetLastError,
      LOG1, LOG2, sys;
    cbn [_numRetainedMinidumps _oldestFileFullName _tmpPath];
    rewrite Hn;
    match goal with
    | |- context [DeleteFile ?p ?G w] =>
        exists G; split; [reflexivity | split; [reflexivity|]];
        pose proof (DeleteFile_keeps_globals p G w) as HG;
        unfold globals_of in HG; unfold value_of, world_of;
        destruct (DeleteFile p G w) as [[[|] gd] wd];
        cbn [fst snd negb] in *; subst gd;
        [destruct rest; reflexivity | reflexivity]
    end.
Qed.

Lemma counted_dot fd rest :
  is_dot_entry (cFileName fd) = true -> counted (fd :: rest) = counted rest.
Proof. intros H. unfold counted. cbn [filter]. now rewrite H. Qed.

Lemma counted_entry fd rest :
  is_dot_entry (cFileName fd) = false ->
  counted (fd :: rest) = fd :: counted rest.
Proof. intros H. unfold counted. cbn [filter]. now rewrite H. Qed.

(** Below the quota the scan deletes nothing. *)
Lemma loop_below_quota folder rest :
  forall fd n t g w,
    n + Z.of_nat (List.length (counted (fd :: rest))) < _numRetainedMinidumps g ->
    exists g',
      RemoveOldMinidumps_loop folder fd rest n t g w
      = (TRUE, g', emit (EvLog "Removed old minidumps") w).
Proof.
  induction rest as [|fdNext rest IH]; intros fd n t g w Hlen;
    destruct (is_dot_entry (cFileName fd)) eqn:Hdot.
  - rewrite (loop_step_dot _ _ _ _ _ _ _ Hdot). eexists; reflexivity.
  - rewrite (counted_entry _ _ Hdot) in Hlen. cbn [List.length] in Hlen.
    destruct (loop_step_count folder fd [] n t g w Hdot) as (g' & _ & _ & ->);
      [lia|]. eexists; reflexivity.
  - rewrite (loop_step_dot _ _ _ _ _ _ _ Hdot).
    rewrite (counted_dot _ _ Hdot) in Hlen. now apply IH.
  - rewrite (counted_entry _ _ Hdot) in Hlen. cbn [List.length] in Hlen.
    destruct (loop_step_count folder fd (fdNext :: rest) n t g w Hdot)
      as (g' & HN & _ & ->); [lia|].
    apply IH. rewrite HN. lia.
Qed.

(** The candidate after an entry has been compared with the oldest one seen
    before. *)
Lemma candidate_update folder (seen : list WIN32_FIND_DATA) fd n t g :
  n = Z.of_nat (List.length seen) ->
  (seen <> [] ->
   exists c, In c seen /\ t = ftLastWriteTime c
             /\ _oldestFileFullName g = folder ++ cFileName c
             /\ forall e, In e seen -> ftLastWriteTime c <= ftLastWriteTime e) ->
  let newer := (n =? 0) || (ftLastWriteTime fd <? t) in
  exists c, In c (seen ++ [fd])%list
            /\ (if newer then ftLastWriteTime fd else t) = ftLastWriteTime c
            /\ (if newer then folder ++ cFileName fd else _oldestFileFullName g)
               = folder ++ cFileName c
            /\ forall e, In e (seen ++ [fd])%list ->
                         ftLastWriteTime c <= ftLastWriteTime e.
Proof.
  intros Hn Hinv. cbv zeta. destruct seen as [|s seen].
  - subst n. cbn. exists fd. repeat split; auto.
    intros e [<- | []]. lia.
  - destruct Hinv as (c & Hc & Ht & Ho & Hmin); [discriminate|].
    assert ((n =? 0) = false) as ->
      by (apply Z.eqb_neq; subst n; cbn [List.length]; lia).
    cbn [orb]. destruct (ftLastWriteTime fd <? t) eqn:Hlt.
    + apply Z.ltb_lt in Hlt. exists fd. split; [apply in_or_app; right; now left|].
      repeat split. intros e He. apply in_app_or in He as [He | [<- | []]];
        [specialize (Hmin e He); lia | lia].
    + apply Z.ltb_ge in Hlt. exists c. split; [apply in_or_app; now left|].
      repeat split; auto. intros e He. apply in_app_or in He as [He | [<- | []]];
        [now apply Hmin | lia].
Qed.

Lemma DeleteFile_calls path g w :
  calls (world_of (DeleteFile path g w)) = (calls w ++ [EvDeleteFile path])%list.
Proof.
  unfold DeleteFile. cbn.
  destruct (ans_DeleteFile (answers w) path); [|destruct (existsb _ _)];
    reflexivity.
Qed.

(** At the quota the scan asks for the deletion of the oldest entry among
    those seen so far and the current one. *)
Lemma loop_first_delete folder rest :
  forall fd seen n t g w,
    n = Z.of_nat (List.length seen) ->
    n < _numRetainedMinidumps g ->
    _numRetainedMinidumps g
    <= n + Z.of_nat (List.length (counted (fd :: rest))) ->
    (seen <> [] ->
     exists c, In c seen /\ t = ftLastWriteTime c
               /\ _oldestFileFullName g = folder ++ cFileName c
               /\ forall e, In e seen -> ftLastWriteTime c <= ftLastWriteTime e) ->
    let group := (seen ++ firstn (Z.to_nat (_numRetainedMinidumps g - n))
                                 (counted (fd :: rest)))%list in
    exists c post,
      calls (world_of (RemoveOldMinidumps_loop folder fd rest n t g w))
      = (calls w ++ EvDeleteFile (folder ++ cFileName c) :: post)%list
      /\ In c group
      /\ forall e, In e group -> ftLastWriteTime c <= ftLastWriteTime e.
Proof.
  induction rest as [|fdNext rest IH]; intros fd seen n t g w Hn Hlt Hlen Hinv;
    cbv zeta; destruct (is_dot_entry (cFileName fd)) eqn:Hdot.
  - rewrite (counted_dot _ _ Hdot) in Hlen. cbn in Hlen. lia.
  - rewrite (counted_entry _ _ Hdot) in *. cbn [List.length counted filter] in Hlen.
    assert (_numRetainedMinidumps g - n = 1) as -> by lia.
    destruct (candidate_update folder seen fd n t g Hn Hinv)
      as (c & Hc & _ & Hpath & Hmin).
    destruct (loop_step_delete folder fd [] n t g w Hdot) as (g' & _ & _ & ->);
      [lia|]. cbv zeta. rewrite Hpath.
    exists c. cbn [Z.to_nat Pos.to_nat Pos.iter_op Nat.add firstn].
    pose proof (DeleteFile_calls (folder ++ cFileName c) g' w) as Hd.
    destruct (value_of (DeleteFile (folder ++ cFileName c) g' w));
      eexists; (split; [|split; [exact Hc | exact Hmin]]);
      unfold world_of in *; cbn [snd calls emit]; rewrite Hd;
      rewrite <- app_assoc; reflexivity.
  - rewrite (loop_step_dot _ _ _ _ _ _ _ Hdot).
    rewrite (counted_dot _ _ Hdot) in *. now apply IH.
  - rewrite (counted_entry _ _ Hdot) in *. cbn [List.length] in Hlen.
    destruct (candidate_update folder seen fd n t g Hn Hinv)
      as (c1 & Hc1 & Ht1 & Hpath1 & Hmin1).
    destruct (Z_lt_le_dec (n + 1) (_numRetainedMinidumps g)) as [Hbelow | Hreach].
    + destruct (loop_step_count folder fd (fdNext :: rest) n t g w Hdot Hbelow)
        as (g' & HN & Ho & ->).
      rewrite <- HN.
      destruct (IH fdNext (seen ++ [fd])%list (n + 1)
                   (if (n =? 0) || (ftLastWriteTime fd <? t)
                    then ftLastWriteTime fd else t) g' w)
        as (c & post & Hcalls & Hin & Hmin).
      * rewrite length_app. cbn [List.length]. lia.
      * rewrite HN. lia.
      * rewrite HN. lia.
      * intros _. exists c1. rewrite Ho. repeat split; assumption.
      * cbv zeta in *.
        replace (Z.to_nat (_numRetainedMinidumps g' - n))
          with (S (Z.to_nat (_numRetainedMinidumps g' - (n + 1)))) by lia.
        cbn [firstn].
        replace (seen ++ fd :: firstn (Z.to_nat (_numRetainedMinidumps g' - (n + 1)))
                                      (counted (fdNext :: rest)))%list
          with ((seen ++ [fd]) ++ firstn (Z.to_nat (_numRetainedMinidumps g' - (n + 1)))
                                         (counted (fdNext :: rest)))%list
          by (rewrite <- app_assoc; reflexivity).
        exists c, post. repeat split; assumption.
    + assert (_numRetainedMinidumps g - n = 1) as -> by lia.
      destruct (loop_step_delete folder fd (fdNext :: rest) n t g w Hdot Hreach)
        as (g' & _ & _ & ->). cbv zeta. rewrite Hpath1.
      exists c1. cbn [Z.to_nat Pos.to_nat Pos.iter_op Nat.add firstn].
      pose proof (DeleteFile_calls (folder ++ cFileName c1) g' w) as Hd.
      destruct (value_of (DeleteFile (folder ++ cFileName c1) g' w)).
      * destruct (RemoveOldMinidumps_loop_tidy folder rest fdNext n
                    (if (n =? 0) || (ftLastWriteTime fd <? t)
                     then ftLastWriteTime fd else t) g'
                    (world_of (DeleteFile (folder ++ cFileName c1) g' w)))
          as (_ & [_ (evs & Hev & _)] & _).
        exists evs. split; [|split; [exact Hc1 | exact Hmin1]].
        unfold world_of in *. rewrite Hev, Hd, <- app_assoc. reflexivity.
      * eexists. split; [|split; [exact Hc1 | exact Hmin1]].
        unfold world_of in *. cbn [snd calls emit]. rewrite Hd.
        rewrite <- app_assoc. reflexivity.
Qed.

Lemma RemoveOldMinidumps_run g w :
  ans_FindFirstFile (answers w) (_minidumpPattern g) = None ->
  let pattern := _minidumpPattern g in
  let w2 := emit (EvFindFirstFile pattern)
              (emit (EvLog ("Removing old minidumps, pattern: " ++ pattern)) w) in
  RemoveOldMinidumps g w
  = match matching pattern (files w) with
    | [] => (TRUE, g,
             emit (EvLog "No previous dump files found")
                  (set_lastError ERROR_FILE_NOT_FOUND w2))
    | fd :: rest => RemoveOldMinidumps_loop pattern fd rest 0 0 g w2
    end.
Proof.
  intros H. cbv zeta. unfold RemoveOldMinidumps.
  unfold bind at 1. cbn [get_globals]. unfold bind at 1. cbn [LOG2 sys].
  unfold bind at 1. unfold FindFirstFile. cbn [answers emit files].
  rewrite H. destruct (matching (_minidumpPattern g) (files w)); reflexivity.
Qed.

(** *** What the scan does on a file system without wildcard characters

    The path handed to [DeleteFile] starts with the search pattern, which
    contains an asterisk; no file of a Windows file system has such a
    path.  So the scan deletes nothing, and it reports failure as soon as
    it reaches the quota. *)

Lemma contains_char_app_l c a b :
  contains_char c a -> contains_char c (a ++ b).
Proof.
  intros (pre & post & ->). exists pre, (post ++ b).
  rewrite append_assoc. reflexivity.
Qed.

Lemma DeleteFile_wildcard path g w :
  contains_char "*" path ->
  (forall f, In f (files w) -> ~ contains_char "*" (filePath f)) ->
  value_of (DeleteFile path g w) = FALSE
  /\ files (world_of (DeleteFile path g w)) = files w.
Proof.
  intros Hstar Hfs. unfold DeleteFile. cbn [answers emit files].
  destruct (ans_DeleteFile (answers w) path); [split; reflexivity|].
  destruct (existsb _ _) eqn:E; [|split; reflexivity].
  apply existsb_exists in E as (f & Hf & Heq).
  apply String.eqb_eq in Heq. exfalso. apply (Hfs f Hf). now rewrite Heq.
Qed.

Lemma loop_deletes_nothing folder rest :
  contains_char "*" folder ->
  forall fd n t g w,
    (forall f, In f (files w) -> ~ contains_char "*" (filePath f)) ->
    (n <> 0 -> exists s, _oldestFileFullName g = folder ++ s) ->
    let r := RemoveOldMinidumps_loop folder fd rest n t g w in
    files (world_of r) = files w
    /\ (n < _numRetainedMinidumps g ->
        _numRetainedMinidumps g
        <= n + Z.of_nat (List.length (counted (fd :: rest))) ->
        value_of r = FALSE).
Proof.
  intros Hstar.
  induction rest as [|fdNext rest IH]; intros fd n t g w Hfs Hinv; cbv zeta;
    destruct (is_dot_entry (cFileName fd)) eqn:Hdot.
  - rewrite (loop_step_dot _ _ _ _ _ _ _ Hdot), (counted_dot _ _ Hdot).
    split; [reflexivity|]. cbn. lia.
  - rewrite (counted_entry _ _ Hdot). cbn [List.length counted filter].
    destruct (Z_lt_le_dec (n + 1) (_numRetainedMinidumps g)) as [Hbelow | Hreach].
    + destruct (loop_step_count folder fd [] n t g w Hdot Hbelow)
        as (g' & _ & _ & ->).
      split; [reflexivity | lia].
    + destruct (loop_step_delete folder fd [] n t g w Hdot Hreach)
        as (g' & _ & _ & ->). cbv zeta.
      match goal with
      | |- context [DeleteFile ?p g' w] =>
          destruct (DeleteFile_wildcard p g' w) as [Hv Hf]; [|exact Hfs|]
      end.
      { destruct ((n =? 0) || (ftLastWriteTime fd <? t)) eqn:Hnew.
        - now apply contains_char_app_l.
        - apply orb_false_iff in Hnew as [Hn0 _]. apply Z.eqb_neq in Hn0.
          destruct (Hinv Hn0) as (s & ->). now apply contains_char_app_l. }
      rewrite Hv. split; [exact Hf | reflexivity].
  - rewrite (loop_step_dot _ _ _ _ _ _ _ Hdot), (counted_dot _ _ Hdot).
    now apply IH.
  - rewrite (counted_entry _ _ Hdot). cbn [List.length].
    destruct (Z_lt_le_dec (n + 1) (_numRetainedMinidumps g)) as [Hbelow | Hreach].
    + destruct (loop_step_count folder fd (fdNext :: rest) n t g w Hdot Hbelow)
        as (g' & HN & Ho & ->).
      destruct (IH fdNext (n + 1)
                   (if (n =? 0) || (ftLastWriteTime fd <? t)
                    then ftLastWriteTime fd else t) g' w Hfs) as [Hf Hv].
      * intros _. rewrite Ho.
        destruct ((n =? 0) || (ftLastWriteTime fd <? t)) eqn:Hnew;
          [eexists; reflexivity|].
        apply orb_false_iff in Hnew as [Hn0 _]. apply Z.eqb_neq in Hn0.
        exact (Hinv Hn0).
      * cbv zeta in Hf, Hv. split; [exact Hf|].
        intros _ Hlen. apply Hv; rewrite HN; lia.
    + destruct (loop_step_delete folder fd (fdNext :: rest) n t g w Hdot Hreach)
        as (g' & _ & _ & ->). cbv zeta.
      match goal with
      | |- context [DeleteFile ?p g' w] =>
          destruct (DeleteFile_wildcard p g' w) as [Hv Hf]; [|exact Hfs|]
      end.
      { destruct ((n =? 0) || (ftLastWriteTime fd <? t)) eqn:Hnew.
        - now apply contains_char_app_l.
        - apply orb_false_iff in Hnew as [Hn0 _]. apply Z.eqb_neq in Hn0.
          destruct (Hinv Hn0) as (s & ->). now apply contains_char_app_l. }
      rewrite Hv. split; [exact Hf | reflexivity].
Qed.

(** On a file system without wildcard characters in its paths the scan
    deletes nothing, and it returns [TRUE] exactly when it stays below the
    quota. *)
Lemma RemoveOldMinidumps_deletes_nothing (g : Globals) (w : World) :
  let N := _numRetainedMinidumps g in
  let pattern := _minidumpPattern g in
  let r := RemoveOldMinidumps g w in
  1 <= N ->
  ans_FindFirstFile (answers w) pattern = None ->
  contains_char "*" pattern ->
  (forall f, In f (files w) -> ~ contains_char "*" (filePath f)) ->
  files (world_of r) = files w
  /\ (value_of r = TRUE
      <-> Z.of_nat (List.length (dumps_found pattern (files w))) < N).
Proof.
  cbv zeta. intros HN Hfind Hstar Hfs. unfold dumps_found.
  rewrite (RemoveOldMinidumps_run _ _ Hfind). cbv zeta.
  destruct (matching (_minidumpPattern g) (files w)) as [|fd rest] eqn:Em.
  - split; [reflexivity|]. cbn. split; [lia | reflexivity].
  - destruct (loop_deletes_nothing (_minidumpPattern g) rest Hstar fd 0 0 g
                (emit (EvFindFirstFile (_minidumpPattern g))
                   (emit (EvLog ("Removing old minidumps, pattern: "
                                 ++ _minidumpPattern g)) w)) Hfs)
      as [Hf Hv]; [intros H; now destruct H|].
    cbv zeta in Hf, Hv. split; [exact Hf|]. split.
    + intros Ht.
      destruct (Z_lt_le_dec (Z.of_nat (List.length (counted (fd :: rest))))
                            (_numRetainedMinidumps g)) as [Hlt | Hge];
        [exact Hlt|].
      rewrite Hv in Ht by lia. discriminate.
    + intros Hlt.
      destruct (loop_below_quota (_minidumpPattern g) rest fd 0 0 g
                  (emit (EvFindFirstFile (_minidumpPattern g))
                     (emit (EvLog ("Removing old minidumps, pattern: "
                                   ++ _minidumpPattern g)) w)))
        as (g' & ->); [lia | reflexivity].
Qed.

(** C1, as the code has it.  Line 95 takes the search pattern for the
    folder, so the path handed to [DeleteFile] is the pattern followed by
    the name of the entry.  With a retained count [N >= 1], a working
    directory search and no asterisk in any file path, the scan therefore
    removes nothing: every file is still there when it returns; it returns
    [FALSE] exactly when it counted [N] entries or more; its first deletion
    request is then for the pattern followed by the name of the entry with
    the oldest last-write time among the first [N]; and with more than [N]
    matching files of distinct time stamps the retention property of the
    specification fails. *)
Theorem RemoveOldMinidumps_quota (g : Globals) (w : World) :
  let N := _numRetainedMinidumps g in
  let pattern := _minidumpPattern g in
  let dumps := dumps_found pattern (files w) in
  let r := RemoveOldMinidumps g w in
  1 <= N ->
  ans_FindFirstFile (answers w) pattern = None ->
  contains_char "*" pattern ->
  (forall f, In f (files w) -> ~ contains_char "*" (filePath f)) ->
  files (world_of r) = files w
  /\ (value_of r = FALSE <-> N <= Z.of_nat (List.length dumps))
  /\ (N <= Z.of_nat (List.length dumps) ->
      exists c post,
        calls (world_of r)
        = (calls w
           ++ [EvLog ("Removing old minidumps, pattern: " ++ pattern);
               EvFindFirstFile pattern;
               EvDeleteFile (pattern ++ cFileName c)]
           ++ post)%list
        /\ In c (firstn (Z.to_nat N) dumps)
        /\ forall e, In e (firstn (Z.to_nat N) dumps) ->
                     ftLastWriteTime c <= ftLastWriteTime e)
  /\ (N < Z.of_nat (List.length (matching pattern (files w))) ->
      NoDup (map ftLastWriteTime (matching pattern (files w))) ->
      ~ retention_as_specified g w).
Proof.
  cbv zeta. intros HN Hfind Hstar Hfs.
  destruct (RemoveOldMinidumps_deletes_nothing g w HN Hfind Hstar Hfs)
    as [Hfiles Hret].
  cbv zeta in Hfiles, Hret.
  split; [exact Hfiles|]. split; [|split].
  - destruct (value_of (RemoveOldMinidumps g w)).
    + split; [discriminate|]. intros Hge.
      assert (TRUE = TRUE) as Ht by reflexivity. apply Hret in Ht. lia.
    + split; [|reflexivity]. intros _.
      destruct (Z_lt_le_dec
                  (Z.of_nat (List.length
                               (dumps_found (_minidumpPattern g) (files w))))
                  (_numRetainedMinidumps g)) as [Hlt | Hge]; [|exact Hge].
      apply Hret in Hlt. discriminate.
  - unfold dumps_found. rewrite (RemoveOldMinidumps_run _ _ Hfind). cbv zeta.
    destruct (matching (_minidumpPattern g) (files w)) as [|fd rest];
      [cbn; lia|].
    intros Hlen.
    destruct (loop_first_delete (_minidumpPattern g) rest fd [] 0 0 g
                (emit (EvFindFirstFile (_minidumpPattern g))
                   (emit (EvLog ("Removing old minidumps, pattern: "
                                 ++ _minidumpPattern g)) w)))
      as (c & post & Hcalls & Hin & Hmin);
      [reflexivity | lia | lia | intros H; now destruct H |].
    cbv zeta in Hin, Hmin. rewrite Z.sub_0_r in Hin, Hmin.
    cbn [app] in Hin, Hmin.
    exists c, post. split; [|split; [exact Hin | exact Hmin]].
    rewrite Hcalls. cbn [calls emit]. rewrite <- !app_assoc. reflexivity.
  - intros Hmore Hdistinct Hspec. unfold retention_as_specified in Hspec.
    destruct Hspec as [Hlen _]; [lia | exact Hdistinct |].
    rewrite Hfiles in Hlen. lia.
Qed.

Lemma RemoveOldMinidumps_quota_witness :
  let g := Scenario.armed 1 in
  let w := Scenario.world Scenario.two_dumps
             (Scenario.obliging (Scenario.at_time 9 7 2)) in
  (* one dump retained, two dumps found: nothing is removed *)
  files (world_of (RemoveOldMinidumps g w)) = Scenario.two_dumps
  /\ value_of (RemoveOldMinidumps g w) = FALSE
  /\ ~ retention_as_specified g w.
Proof.
  cbv zeta.
  destruct (RemoveOldMinidumps_quota (Scenario.armed 1)
              (Scenario.world Scenario.two_dumps
                 (Scenario.obliging (Scenario.at_time 9 7 2))))
    as (Hfiles & Hret & _ & Hspec).
  - vm_compute. discriminate.
  - reflexivity.
  - exists "C:\dumps\app", ".dmp". reflexivity.
  - intros f Hf Hc. apply wcschr_found in Hc.
    destruct Hf as [<- | [<- | [<- | []]]]; vm_compute in Hc; discriminate.
  - split; [exact Hfiles|]. split.
    + apply Hret. vm_compute. discriminate.
    + apply Hspec.
      * vm_compute. reflexivity.
      * change (NoDup [10; 20]).
        repeat constructor; cbn; intuition discriminate.
Defined.

(** The retention property of the specification fails for a retained count
    of 1 and two dumps: the scan returns [FALSE] at the first entry and both
    dumps are still there. *)
Lemma retention_as_specified_fails :
  let g := Scenario.armed 1 in
  let w := Scenario.world Scenario.two_dumps
             (Scenario.obliging (Scenario.at_time 9 7 2)) in
  map ftLastWriteTime (matching (_minidumpPattern g) (files w)) = [10; 20]
  /\ value_of (RemoveOldMinidumps g w) = FALSE
  /\ files (world_of (RemoveOldMinidumps g w)) = files w
  /\ ~ retention_as_specified g w.
Proof.
  cbv zeta. split; [reflexivity|]. split; [reflexivity|].
  split; [reflexivity|].
  unfold retention_as_specified. intros H.
  destruct H as [Hlen _].
  - vm_compute. discriminate.
  - change (NoDup [10; 20]). repeat constructor; cbn; intuition discriminate.
  - vm_compute in Hlen. discriminate.
Qed.

(** * Properties of the rest of the file *)

(** ** CreateMinidumpFolder *)

(** Stored in an [HRESULT], a last error still compares equal to a small
    error code exactly when it is that code. *)
Lemma HRESULT_of_DWORD_eqb (e k : Z) :
  0 <= k < 2 ^ 31 -> (HRESULT_of_DWORD e =? k) = (e =? k).
Proof.
  unfold HRESULT_of_DWORD.
  change (2 ^ 31) with 2147483648. change (2 ^ 32) with 4294967296.
  intros Hk.
  destruct (2147483648 <=? e) eqn:A; destruct (e <? 4294967296) eqn:B;
    cbn [andb]; try reflexivity.
  apply Z.leb_le in A. apply Z.ltb_lt in B.
  destruct (e =? k) eqn:E; [apply Z.eqb_eq in E | apply Z.eqb_neq]; lia.
Qed.

Lemma ERROR_ALREADY_EXISTS_small : 0 <= ERROR_ALREADY_EXISTS < 2 ^ 31.
Proof. vm_compute. split; [discriminate | reflexivity]. Qed.

Lemma folder_loop_spec rest :
  forall pre g w,
    let r := CreateMinidumpFolder_loop pre rest g w in
    globals_of r = g
    /\ files (world_of r) = files w
    /\ answers (world_of r) = answers w
    /\ (value_of r = TRUE <->
        forall a b, rest = a ++ String backslash b ->
                    is_drive (pre ++ a) = false ->
                    creatable (answers w) (pre ++ a))
    /\ exists evs,
         calls (world_of r) = (calls w ++ evs)%list
         /\ Forall (folder_step (pre ++ rest)) evs.
Proof.
  induction rest as [|c rest IH]; intros pre g w; cbv zeta.
  - cbn. repeat split; auto.
    + intros _ a b H. destruct a; discriminate.
    + exists [EvLog "Created directory"]. split; [reflexivity|].
      constructor; [left; exact I | constructor].
  - assert (forall w',
      answers w' = answers w -> files w' = files w ->
      (exists evs0, calls w' = (calls w ++ evs0)%list
                    /\ Forall (folder_step (pre ++ String c rest)) evs0) ->
      let r := CreateMinidumpFolder_loop (pre ++ String c EmptyString) rest g w' in
      globals_of r = g
      /\ files (world_of r) = files w
      /\ answers (world_of r) = answers w
      /\ (value_of r = TRUE <->
          forall a b, rest = a ++ String backslash b ->
                      is_drive (pre ++ String c a) = false ->
                      creatable (answers w) (pre ++ String c a))
      /\ exists evs,
           calls (world_of r) = (calls w ++ evs)%list
           /\ Forall (folder_step (pre ++ String c rest)) evs) as Next.
    { intros w' Ha Hf (evs0 & Hc0 & F0). cbv zeta.
      destruct (IH (pre ++ String c EmptyString) g w')
        as (G & Fi & An & Iff & (evs & Hc & F)).
      rewrite append_assoc in F. cbn [append] in F.
      split; [exact G|]. split; [congruence|]. split; [congruence|]. split.
      - rewrite Iff, Ha. split; intros H a b Hr Hd.
        + specialize (H a b Hr). rewrite append_assoc in H. cbn [append] in H.
          auto.
        + rewrite append_assoc in Hd |- *. cbn [append] in Hd |- *.
          apply (H a b Hr Hd).
      - exists (evs0 ++ evs)%list. split.
        + rewrite Hc, Hc0, app_assoc. reflexivity.
        + apply Forall_app. split; assumption. }
    cbn [CreateMinidumpFolder_loop].
    destruct (Ascii.eqb c backslash) eqn:Ec.
    + apply Ascii.eqb_eq in Ec. subst c.
      fold (is_drive pre).
      assert (forall P : Prop,
                 (forall a b, String backslash rest = a ++ String backslash b ->
                              is_drive (pre ++ a) = false ->
                              creatable (answers w) (pre ++ a)) <->
                 (is_drive pre = false -> creatable (answers w) pre)
                 /\ (forall a b, rest = a ++ String backslash b ->
                                 is_drive (pre ++ String backslash a) = false ->
                                 creatable (answers w)
                                           (pre ++ String backslash a))) as Split.
      { intros _. split.
        - intros H. split.
          + intros Hd. specialize (H "" rest eq_refl).
            rewrite append_nil_r in H. auto.
          + intros a b Hr Hd.
            apply (H (String backslash a) b); [cbn; now rewrite Hr | exact Hd].
        - intros [H0 H1] a b Hr Hd. destruct a as [|x a].
          + rewrite append_nil_r in *. auto.
          + cbn in Hr. injection Hr as <- Hr. apply (H1 a b Hr Hd). }
      destruct (is_drive pre) eqn:Edrive; cbn [negb].
      * destruct (Next w eq_refl eq_refl) as (G & Fi & An & Iff & Ev).
        { exists []. split; [now rewrite app_nil_r | constructor]. }
        split; [exact G|]. split; [exact Fi|]. split; [exact An|].
        split; [|exact Ev].
        rewrite Iff, (Split True). intuition discriminate.
      * assert (folder_step (pre ++ String backslash rest)
                            (EvCreateDirectory pre)) as Hstep.
        { right. exists pre. repeat split; [now exists rest | exact Edrive]. }
        unfold LOG2, LOG4, CreateDirectory. run_prog.
        destruct (ans_CreateDirectory (answers w) pre =? ERROR_SUCCESS) eqn:E0.
        -- run_prog.
           match goal with
           | |- context [CreateMinidumpFolder_loop _ rest g ?w1] =>
               destruct (Next w1 eq_refl eq_refl) as (G & Fi & An & Iff & Ev)
           end.
           { eexists. split; [cbn [calls emit]; rewrite <- app_assoc; reflexivity|].
             constructor; [left; exact I|]. constructor; [exact Hstep | constructor]. }
           split; [exact G|]. split; [exact Fi|]. split; [exact An|].
           split; [|exact Ev].
           rewrite Iff, (Split True). apply Z.eqb_eq in E0.
           unfold creatable at 2. intuition.
        -- run_prog.
           rewrite (HRESULT_of_DWORD_eqb _ _ ERROR_ALREADY_EXISTS_small).
           destruct (ans_CreateDirectory (answers w) pre =? ERROR_ALREADY_EXISTS)
             eqn:E1; run_prog.
           ++ match goal with
              | |- context [CreateMinidumpFolder_loop _ rest g ?w1] =>
                  destruct (Next w1 eq_refl eq_refl) as (G & Fi & An & Iff & Ev)
              end.
              { eexists. split; [cbn [calls emit set_lastError];
                                 rewrite <- app_assoc; reflexivity|].
                constructor; [left; exact I|].
                constructor; [exact Hstep | constructor]. }
              split; [exact G|]. split; [exact Fi|]. split; [exact An|].
              split; [|exact Ev].
              rewrite Iff, (Split True). apply Z.eqb_eq in E1.
              unfold creatable at 2. intuition.
           ++ unfold value_of, globals_of, world_of. cbn [fst snd].
              split; [reflexivity|]. split; [reflexivity|]. split; [reflexivity|].
              split.
              ** rewrite (Split True). apply Z.eqb_neq in E0, E1.
                 unfold creatable at 1. split; [discriminate|].
                 intros [H _]. specialize (H eq_refl). tauto.
              ** eexists. split; [cbn [calls emit set_lastError];
                                  rewrite <- !app_assoc; reflexivity|].
                 constructor; [left; exact I|].
                 constructor; [exact Hstep|].
                 constructor; [left; exact I | constructor].
    + destruct (Next w eq_refl eq_refl) as (G & Fi & An & Iff & Ev).
      { exists []. split; [now rewrite app_nil_r | constructor]. }
      split; [exact G|]. split; [exact Fi|]. split; [exact An|].
      split; [|exact Ev].
      rewrite Iff. split.
      * intros H a b Hr Hd. destruct a as [|x a].
        -- cbn in Hr. injection Hr as -> _.
           rewrite Ascii.eqb_refl in Ec. discriminate.
        -- cbn in Hr. injection Hr as <- Hr. apply (H a b Hr Hd).
      * intros H a b Hr Hd.
        apply (H (String c a) b); [cbn; now rewrite Hr | exact Hd].
Qed.

Lemma CreateMinidumpFolder_spec (g : Globals) (w : World) :
  let r := CreateMinidumpFolder g w in
  globals_of r = g
  /\ files (world_of r) = files w
  /\ answers (world_of r) = answers w
  /\ (value_of r = TRUE <-> folder_available g (answers w))
  /\ exists evs,
       calls (world_of r) = (calls w ++ evs)%list
       /\ Forall (folder_step (_dumpFolder g)) evs.
Proof.
  cbv zeta. unfold CreateMinidumpFolder. unfold bind. cbn [get_globals].
  destruct (folder_loop_spec (_dumpFolder g) "" g w)
    as (G & F & A & Iff & Ev).
  cbv zeta in *. cbn [append] in *.
  split; [exact G|]. split; [exact F|]. split; [exact A|]. split; [|exact Ev].
  rewrite Iff. unfold folder_available, segment_prefix. split.
  - intros H folder [rest Hr] Hd. exact (H folder rest Hr Hd).
  - intros H a b Hr Hd. apply H; [now exists b | exact Hd].
Qed.

(** X1. [CreateMinidumpFolder] returns [TRUE] exactly when every prefix of
    the dump folder that ends before a backslash, drives such as [C:]
    apart, can be created or exists already. *)
Theorem CreateMinidumpFolder_succeeds_iff (g : Globals) (w : World) :
  value_of (CreateMinidumpFolder g w) = TRUE
  <-> forall folder,
        segment_prefix folder (_dumpFolder g) ->
        is_drive folder = false ->
        creatable (answers w) folder.
Proof.
  unfold CreateMinidumpFolder. unfold bind. cbn [get_globals].
  destruct (folder_loop_spec (_dumpFolder g) "" g w) as (_ & _ & _ & Iff & _).
  cbv zeta in Iff. rewrite Iff. cbn [append]. unfold segment_prefix.
  split.
  - intros H folder [rest Hr] Hd. exact (H folder rest Hr Hd).
  - intros H a b Hr Hd. apply H; [now exists b | exact Hd].
Qed.

(** X2. [CreateMinidumpFolder] changes no global and no file; besides
    logging, its only calls are [CreateDirectory] for prefixes of the dump
    folder that end before a backslash and are not a drive. *)
Theorem CreateMinidumpFolder_frame (g : Globals) (w : World) :
  let r := CreateMinidumpFolder g w in
  globals_of r = g
  /\ files (world_of r) = files w
  /\ exists evs,
       calls (world_of r) = (calls w ++ evs)%list
       /\ Forall (folder_step (_dumpFolder g)) evs.
Proof.
  cbv zeta. unfold CreateMinidumpFolder. unfold bind. cbn [get_globals].
  destruct (folder_loop_spec (_dumpFolder g) "" g w)
    as (G & F & _ & _ & Ev).
  cbv zeta in *. cbn [append] in Ev. auto.
Qed.

Lemma folder_loop_failure rest :
  forall pre g w,
    let r := CreateMinidumpFolder_loop pre rest g w in
    value_of r = FALSE ->
    exists evs folder,
      calls (world_of r)
      = (calls w ++ evs
         ++ [EvCreateDirectory folder;
             EvLog ("CreateDirectory '" ++ folder ++ "'failed: "
                    ++ dec_int (HRESULT_of_DWORD
                                  (ans_CreateDirectory (answers w) folder)))])%list
      /\ ~ creatable (answers w) folder
      /\ lastError (world_of r) = ans_CreateDirectory (answers w) folder
      /\ Forall (fun e => match e with
                          | EvCreateDirectory f => creatable (answers w) f
                          | _ => True
                          end) evs.
Proof.
  induction rest as [|c rest IH]; intros pre g w; cbv zeta.
  - cbn. discriminate.
  - assert (forall w' evs0,
      answers w' = answers w ->
      calls w' = (calls w ++ evs0)%list ->
      Forall (fun e => match e with
                       | EvCreateDirectory f => creatable (answers w) f
                       | _ => True
                       end) evs0 ->
      let r := CreateMinidumpFolder_loop (pre ++ String c EmptyString) rest g w' in
      value_of r = FALSE ->
      exists evs folder,
        calls (world_of r)
        = (calls w ++ evs
           ++ [EvCreateDirectory folder;
               EvLog ("CreateDirectory '" ++ folder ++ "'failed: "
                      ++ dec_int (HRESULT_of_DWORD
                                    (ans_CreateDirectory (answers w) folder)))])%list
        /\ ~ creatable (answers w) folder
        /\ lastError (world_of r) = ans_CreateDirectory (answers w) folder
        /\ Forall (fun e => match e with
                            | EvCreateDirectory f => creatable (answers w) f
                            | _ => True
                            end) evs) as Next.
    { intros w' evs0 Ha Hc0 F0. cbv zeta. intros Hv.
      destruct (IH _ g w' Hv) as (evs & folder & Hc & Hn & Hl & F).
      rewrite Ha in *. exists (evs0 ++ evs)%list, folder.
      split; [rewrite Hc, Hc0, <- !app_assoc; reflexivity|].
      split; [exact Hn|]. split; [exact Hl|].
      apply Forall_app. split; [exact F0|]. exact F. }
    cbn [CreateMinidumpFolder_loop].
    destruct (Ascii.eqb c backslash);
      [|apply (Next w []);
        [reflexivity | now rewrite app_nil_r | constructor]].
    destruct (negb _);
      [|apply (Next w []);
        [reflexivity | now rewrite app_nil_r | constructor]].
    unfold LOG2, LOG4, CreateDirectory. run_prog.
    destruct (ans_CreateDirectory (answers w) pre =? ERROR_SUCCESS) eqn:E0.
    + run_prog.
      match goal with
      | |- context [CreateMinidumpFolder_loop _ rest g ?w1] =>
          apply (Next w1 [EvLog ("Creating directory: '" ++ pre);
                          EvCreateDirectory pre]); [reflexivity | |]
      end.
      * cbn [calls emit]. rewrite <- app_assoc. reflexivity.
      * constructor; [exact I|]. constructor; [|constructor].
        left. now apply Z.eqb_eq.
    + run_prog.
      rewrite (HRESULT_of_DWORD_eqb _ _ ERROR_ALREADY_EXISTS_small).
      destruct (ans_CreateDirectory (answers w) pre =? ERROR_ALREADY_EXISTS)
        eqn:E1; run_prog.
      * match goal with
        | |- context [CreateMinidumpFolder_loop _ rest g ?w1] =>
            apply (Next w1 [EvLog ("Creating directory: '" ++ pre);
                            EvCreateDirectory pre]); [reflexivity | |]
        end.
        -- cbn [calls emit set_lastError]. rewrite <- app_assoc. reflexivity.
        -- constructor; [exact I|]. constructor; [|constructor].
           right. now apply Z.eqb_eq.
      * intros _. unfold value_of, world_of. cbn [fst snd].
        exists [EvLog ("Creating directory: '" ++ pre)], pre.
        split; [cbn [calls emit set_lastError]; rewrite <- !app_assoc;
                reflexivity|].
        apply Z.eqb_neq in E0, E1.
        split; [unfold creatable; tauto|].
        split; [reflexivity|].
        constructor; [exact I | constructor].
Qed.

(** X3. When [CreateMinidumpFolder] returns [FALSE] it has stopped at the
    first directory that could neither be created nor exists: the calls
    before were accepted, the last two calls are that [CreateDirectory] and
    its log line, which prints the error as the signed [HRESULT] it was
    stored in, and the last error is the error of that call. *)
Theorem CreateMinidumpFolder_stops_at_first_failure (g : Globals) (w : World) :
  let r := CreateMinidumpFolder g w in
  value_of r = FALSE ->
  exists evs folder,
    calls (world_of r)
    = (calls w ++ evs
       ++ [EvCreateDirectory folder;
           EvLog ("CreateDirectory '" ++ folder ++ "'failed: "
                  ++ dec_int (HRESULT_of_DWORD
                                (ans_CreateDirectory (answers w) folder)))])%list
    /\ ~ creatable (answers w) folder
    /\ lastError (world_of r) = ans_CreateDirectory (answers w) folder
    /\ Forall (fun e => match e with
                        | EvCreateDirectory f => creatable (answers w) f
                        | _ => True
                        end) evs.
Proof.
  cbv zeta. unfold CreateMinidumpFolder. unfold bind. cbn [get_globals].
  apply folder_loop_failure.
Qed.

Lemma CreateMinidumpFolder_stops_at_first_failure_witness :
  let a := {| ans_CreateDirectory := fun _ => 2147942405;
              ans_FindFirstFile := fun _ => None;
              ans_DeleteFile := fun _ => None;
              ans_CreateFile := fun _ => 7;
              ans_CreateFile_error := fun _ => ERROR_ACCESS_DENIED;
              ans_LoadLibrary := fun _ => 4096;
              ans_GetProcAddress := fun _ _ => 8192;
              ans_MiniDumpWriteDump := TRUE;
              ans_CloseHandle := fun _ => TRUE;
              ans_CloseHandle_error := fun _ => 6;
              ans_OpenProcess := fun _ => 9;
              ans_LocalTime := Scenario.at_time 9 7 2;
              ans_FileTimeNow := 1000;
              ans_CurrentThreadId := 42;
              ans_CurrentProcess := -1;
              ans_CurrentProcessId := 4711 |} in
  let r := CreateMinidumpFolder (Scenario.armed 2) (Scenario.world [] a) in
  lastError (world_of r) = 2147942405
  /\ exists evs folder,
       calls (world_of r)
       = (evs ++ [EvCreateDirectory folder;
                  EvLog ("CreateDirectory '" ++ folder
                         ++ "'failed: -2147024891")])%list.
Proof.
  cbv zeta.
  match goal with
  | |- lastError (world_of (CreateMinidumpFolder _ ?w)) = _ /\ _ =>
      destruct (CreateMinidumpFolder_stops_at_first_failure (Scenario.armed 2)
                  w eq_refl) as (evs & folder & Hc & _ & Hl & _)
  end.
  split; [exact Hl|]. exists evs, folder. exact Hc.
Defined.

(** ** RemoveOldMinidumps *)

(** X4. When the directory search finds no entry, or fails, the retention
    scan issues no [DeleteFile], changes no file and no global, and returns
    [TRUE] exactly when the error left by the search is
    [ERROR_FILE_NOT_FOUND]. *)
Theorem RemoveOldMinidumps_without_entries (g : Globals) (w : World) :
  let pattern := _minidumpPattern g in
  let r := RemoveOldMinidumps g w in
  (ans_FindFirstFile (answers w) pattern = None
   /\ matching pattern (files w) = [])
  \/ (exists err, ans_FindFirstFile (answers w) pattern = Some err) ->
  globals_of r = g
  /\ files (world_of r) = files w
  /\ (value_of r = TRUE <-> lastError (world_of r) = ERROR_FILE_NOT_FOUND)
  /\ exists msg,
       calls (world_of r)
       = (calls w ++ [EvLog ("Removing old minidumps, pattern: " ++ pattern);
                      EvFindFirstFile pattern; EvLog msg])%list.
Proof.
  cbv zeta. intros H. unfold RemoveOldMinidumps, FindFirstFile, LOG2, LOG1.
  run_prog.
  destruct H as [[H1 H2] | [err H]]; [rewrite H1, H2 | rewrite H]; run_prog.
  - cbn. rewrite <- !app_assoc.
    split; [reflexivity|]. split; [reflexivity|]. split; [tauto|].
    eexists. reflexivity.
  - destruct (err =? ERROR_FILE_NOT_FOUND) eqn:E; cbn; rewrite <- !app_assoc;
      (split; [reflexivity|]); (split; [reflexivity|]);
      (split; [|eexists; reflexivity]).
    + apply Z.eqb_eq in E. tauto.
    + apply Z.eqb_neq in E. split; [discriminate | tauto].
Qed.

Lemma RemoveOldMinidumps_without_entries_witness :
  let w := Scenario.world [] (Scenario.obliging (Scenario.at_time 9 7 2)) in
  let r := RemoveOldMinidumps (Scenario.armed 2) w in
  value_of r = TRUE /\ lastError (world_of r) = ERROR_FILE_NOT_FOUND.
Proof.
  cbv zeta.
  destruct (RemoveOldMinidumps_without_entries (Scenario.armed 2)
              (Scenario.world [] (Scenario.obliging (Scenario.at_time 9 7 2))))
    as (_ & _ & Hv & _); [left; split; reflexivity|].
  split; [apply Hv|]; reflexivity.
Defined.

(** X5. With the configuration a successful [InitDumpCollection] stored,
    on a file system whose paths contain no asterisk, the retention scan
    deletes nothing, because the path it hands to [DeleteFile] starts with
    the search pattern; it returns [TRUE] exactly when fewer entries than
    the retained count were found. *)
Theorem retention_deletes_nothing_after_init
    (n : Z) (folder name : option string) (g0 : Globals) (w0 : World)
    (cs : list (ApiCall * World)) (w : World) :
  let g := run_calls cs (globals_of (InitDumpCollection n folder name g0 w0)) in
  let r := RemoveOldMinidumps g w in
  value_of (InitDumpCollection n folder name g0 w0) = TRUE ->
  ans_FindFirstFile (answers w) (_minidumpPattern g) = None ->
  (forall f, In f (files w) -> ~ contains_char "*" (filePath f)) ->
  files (world_of r) = files w
  /\ (value_of r = TRUE
      <-> Z.of_nat (List.length (dumps_found (_minidumpPattern g) (files w)))
          < n).
Proof.
  cbv zeta. intros Hinit Hfind Hfs.
  destruct (InitDumpCollection_success _ _ _ _ _ Hinit)
    as (f & nm & _ & _ & Hn & _ & Hcfg & _).
  set (g1 := globals_of (InitDumpCollection n folder name g0 w0)) in *.
  assert (_collectDumps g1 = true) as Harmed
    by (unfold config in Hcfg; now injection Hcfg).
  pose proof (run_calls_config cs g1 Harmed) as Hc.
  rewrite Hcfg in Hc. unfold config in Hc. injection Hc as _ HN _ _ Hp.
  rewrite <- HN.
  apply RemoveOldMinidumps_deletes_nothing; try assumption.
  - lia.
  - rewrite Hp. exists (f ++ nm), ".dmp". reflexivity.
Qed.

Lemma retention_deletes_nothing_after_init_witness :
  let w := Scenario.world Scenario.two_dumps
             (Scenario.obliging (Scenario.at_time 9 7 2)) in
  let g := run_calls [] (globals_of (InitDumpCollection 2 (Some "C:\dumps\")
                                       (Some "app") initial_globals w)) in
  value_of (RemoveOldMinidumps g w) = FALSE
  /\ files (world_of (RemoveOldMinidumps g w)) = Scenario.two_dumps.
Proof.
  cbv zeta. split; [reflexivity|].
  apply (retention_deletes_nothing_after_init 2 (Some "C:\dumps\") (Some "app")
           initial_globals
           (Scenario.world Scenario.two_dumps
              (Scenario.obliging (Scenario.at_time 9 7 2)))
           []
           (Scenario.world Scenario.two_dumps
              (Scenario.obliging (Scenario.at_time 9 7 2))));
    [reflexivity | reflexivity |].
  intros f Hf Hc. apply wcschr_found in Hc.
  destruct Hf as [<- | [<- | [<- | []]]]; vm_compute in Hc; discriminate.
Defined.

(** ** File names *)

Lemma length_append (a b : string) :
  String.length (a ++ b) = (String.length a + String.length b)%nat.
Proof. induction a as [|x a IH]; simpl; [reflexivity | now rewrite IH]. Qed.

Lemma append_inj_l (a x y : string) : a ++ x = a ++ y -> x = y.
Proof.
  induction a as [|c a IH]; cbn; [auto|]. intros H. injection H. exact IH.
Qed.

Lemma append_inj_length (a a' b b' : string) :
  String.length a = String.length a' ->
  a ++ b = a' ++ b' -> a = a' /\ b = b'.
Proof.
  revert a'. induction a as [|c a IH]; intros [|c' a'] Hl H;
    try discriminate; cbn in *.
  - auto.
  - injection H as -> H. injection Hl as Hl.
    destruct (IH a' Hl H) as [-> ->]. auto.
Qed.

Lemma all_chars_append P a b :
  all_chars P (a ++ b) = all_chars P a && all_chars P b.
Proof.
  induction a as [|c a IH]; cbn; [reflexivity|].
  now rewrite IH, andb_assoc.
Qed.

Lemma all_chars_weaken (P Q : ascii -> bool) s :
  (forall c, P c = true -> Q c = true) ->
  all_chars P s = true -> all_chars Q s = true.
Proof.
  intros H. induction s as [|c s IH]; cbn; [auto|].
  rewrite !andb_true_iff. intros [Hc Hs]. auto.
Qed.

Lemma string_of_uint_digits (d : Decimal.uint) :
  all_chars is_digit (NilEmpty.string_of_uint d) = true.
Proof. induction d; cbn; auto. Qed.

Lemma dec_digits (n : Z) : all_chars is_digit (dec n) = true.
Proof. apply string_of_uint_digits. Qed.

Lemma pad2_digits (n : Z) : all_chars is_digit (pad2 n) = true.
Proof.
  unfold pad2. rewrite all_chars_append, dec_digits.
  destruct (n <? 10); reflexivity.
Qed.

(** Two runs of digits, each followed by a character that is no digit,
    are equal when the strings are. *)
Lemma digits_then_separator (d d' : string) (c c' : ascii) (r r' : string) :
  all_chars is_digit d = true ->
  all_chars is_digit d' = true ->
  is_digit c = false ->
  is_digit c' = false ->
  d ++ String c r = d' ++ String c' r' ->
  d = d' /\ r = r'.
Proof.
  revert d'. induction d as [|x d IH]; intros [|x' d'] Hd Hd' Hc Hc' H;
    cbn in *.
  - injection H as _ H. auto.
  - injection H as -> _. apply andb_true_iff in Hd' as [Hx _]. congruence.
  - injection H as -> _. apply andb_true_iff in Hd as [Hx _]. congruence.
  - injection H as -> H.
    apply andb_true_iff in Hd as [_ Hd]. apply andb_true_iff in Hd' as [_ Hd'].
    destruct (IH d' Hd Hd' Hc Hc' H) as [-> ->]. auto.
Qed.

Lemma dec_injective (n n' : Z) : 0 <= n -> 0 <= n' -> dec n = dec n' -> n = n'.
Proof.
  intros H H' E. apply (f_equal decimal_value) in E.
  rewrite !decimal_value_dec in E by assumption. now injection E.
Qed.

Lemma pad2_injective (n n' : Z) :
  0 <= n < 100 -> 0 <= n' < 100 -> pad2 n = pad2 n' -> n = n'.
Proof.
  intros H H' E. apply (f_equal decimal_value) in E.
  destruct (pad2_two_digits n H) as [_ E1].
  destruct (pad2_two_digits n' H') as [_ E2].
  rewrite E1, E2 in E. now injection E.
Qed.

(** Two dump file names of one folder and base name are equal only when
    the times are. *)
Lemma dump_file_name_inj
    (folder base : string) (t t' : SYSTEMTIME) :
  time_fields_ok t ->
  time_fields_ok t' ->
  dump_file_name folder base t = dump_file_name folder base t' ->
  wDay t = wDay t' /\ wMonth t = wMonth t' /\ wYear t = wYear t'
  /\ wHour t = wHour t' /\ wMinute t = wMinute t' /\ wSecond t = wSecond t'.
Proof.
  intros (Hd & Hm & Hy & Hh & Hmi & Hs) (Hd' & Hm' & Hy' & Hh' & Hmi' & Hs').
  unfold dump_file_name. intros E.
  apply append_inj_l, append_inj_l in E. cbn [append] in E. injection E as E.
  apply append_inj_length in E as [Ed E];
    [|now rewrite (proj1 (pad2_two_digits _ Hd)), (proj1 (pad2_two_digits _ Hd'))].
  cbn [append] in E. injection E as E.
  apply append_inj_length in E as [Em E];
    [|now rewrite (proj1 (pad2_two_digits _ Hm)), (proj1 (pad2_two_digits _ Hm'))].
  cbn [append] in E. injection E as E.
  apply digits_then_separator in E as [Ey E];
    try apply dec_digits; try reflexivity.
  injection E as E.
  apply digits_then_separator in E as [Eh E];
    try apply dec_digits; try reflexivity.
  apply digits_then_separator in E as [Emi E];
    try apply dec_digits; try reflexivity.
  apply digits_then_separator in E as [Es _];
    try apply dec_digits; try reflexivity.
  repeat split;
    first [apply pad2_injective; assumption | apply dec_injective; assumption].
Qed.

(** X6. From one state of the globals, two runs of
    [CreateMinidumpFileName] at times of valid fields leave the same file
    name only when day, month, year, hour, minute and second all agree:
    although the time of day is not padded, names collide only within one
    second. *)
Theorem CreateMinidumpFileName_injective (g : Globals) (w w' : World) :
  let t := ans_LocalTime (answers w) in
  let t' := ans_LocalTime (answers w') in
  time_fields_ok t ->
  time_fields_ok t' ->
  _minidumpFileName (globals_of (CreateMinidumpFileName g w))
  = _minidumpFileName (globals_of (CreateMinidumpFileName g w')) ->
  wDay t = wDay t' /\ wMonth t = wMonth t' /\ wYear t = wYear t'
  /\ wHour t = wHour t' /\ wMinute t = wMinute t' /\ wSecond t = wSecond t'.
Proof.
  cbv zeta. intros Ht Ht'. rewrite !CreateMinidumpFileName_run.
  cbn [globals_of fst snd named _minidumpFileName]. intros E.
  apply append_inj_l in E.
  exact (dump_file_name_inj _ _ _ _ Ht Ht' E).
Qed.

Lemma CreateMinidumpFileName_injective_witness :
  let w := Scenario.world [] (Scenario.obliging (Scenario.at_time 9 7 2)) in
  _minidumpFileName (globals_of (CreateMinidumpFileName (Scenario.armed 2) w))
  = "C:\dumps\app_05.03.2024 - 9_7_2.dmp"
  /\ wSecond (ans_LocalTime (answers w)) = 2.
Proof.
  cbv zeta. split; [reflexivity|].
  apply (CreateMinidumpFileName_injective (Scenario.armed 2)
           (Scenario.world [] (Scenario.obliging (Scenario.at_time 9 7 2)))
           (Scenario.world [] (Scenario.obliging (Scenario.at_time 9 7 2))));
    [unfold time_fields_ok; cbn; lia | unfold time_fields_ok; cbn; lia
     | reflexivity].
Defined.

Lemma dump_file_name_not_empty folder base t :
  (0 < String.length (dump_file_name folder base t))%nat.
Proof.
  unfold dump_file_name. rewrite !length_append. cbn [String.length]. lia.
Qed.

(** The globals a capture leaves when the folder could be created. *)
Lemma capture_globals_named ep h pid name g w :
  value_of (CreateMinidumpFolder g (emit (EvLog "Creating Mini dump...") w))
  = TRUE ->
  let g' := globals_of (CreateMiniDump_capture ep h pid name g w) in
  _minidumpStringBuilder g'
  = _minidumpStringBuilder g
    ++ dump_file_name (_dumpFolder g) (_dumpName g) (ans_LocalTime (answers w))
  /\ _dumpFolder g' = _dumpFolder g
  /\ _dumpName g' = _dumpName g.
Proof.
  intros Hok. cbv zeta.
  destruct (capture_anatomy ep h pid name g w) as [_ HT].
  specialize (HT Hok) as (_ & _ & _ & ->).
  pose proof (capture_config ep h pid name g w) as Hc.
  destruct (capture_anatomy ep h pid name g w) as [_ HT].
  specialize (HT Hok) as (_ & _ & _ & Hg). rewrite Hg in Hc.
  rewrite config_named in Hc. unfold config in Hc.
  injection Hc as _ _ Hf Hb _. cbn [named _minidumpStringBuilder _dumpFolder _dumpName].
  auto.
Qed.

(** X7. The string stream is never cleared: after a capture that got as
    far as naming its file, the next capture asks [CreateFile] for the
    earlier path followed by the new name, a path longer than the new name,
    whatever the arguments of the two captures. *)
Theorem second_capture_appends_to_first_name
    (ep ep' : Z) (h h' : HANDLE) (pid pid' : Z) (name name' : string)
    (g : Globals) (w w' : World) (evs : list Event) (p : string) (hf : HANDLE) :
  let g1 := globals_of (CreateMiniDump_capture ep h pid name g w) in
  let first := _minidumpStringBuilder g
               ++ dump_file_name (_dumpFolder g) (_dumpName g)
                                 (ans_LocalTime (answers w)) in
  let second := dump_file_name (_dumpFolder g) (_dumpName g)
                               (ans_LocalTime (answers w')) in
  value_of (CreateMinidumpFolder g (emit (EvLog "Creating Mini dump...") w))
  = TRUE ->
  calls (world_of (CreateMiniDump_capture ep' h' pid' name' g1 w'))
  = (calls w' ++ evs)%list ->
  In (EvCreateFile p hf) evs ->
  p = first ++ second
  /\ (String.length second < String.length p)%nat.
Proof.
  cbv zeta. intros Hok Hc Hin.
  destruct (capture_globals_named ep h pid name g w Hok) as (Hs & Hf & Hb).
  cbv zeta in Hs, Hf, Hb.
  destruct (capture_call_origin _ _ _ _ _ _ _ _ Hc Hin) as [F | [F | F]];
    [destruct F | destruct F |].
  apply CreateFile_call_in_calls_from_CreateFile in F as [-> _].
  rewrite Hs, Hf, Hb. split; [reflexivity|].
  rewrite !length_append.
  pose proof (dump_file_name_not_empty (_dumpFolder g) (_dumpName g)
                (ans_LocalTime (answers w))). lia.
Qed.

Lemma second_capture_appends_to_first_name_witness :
  let w := Scenario.world [] (Scenario.obliging (Scenario.at_time 9 7 2)) in
  let w' := Scenario.world [] (Scenario.obliging (Scenario.at_time 9 7 3)) in
  let g1 := globals_of (CreateMiniDump_capture 0 9 1 "x" (Scenario.armed 2) w) in
  let p :=
    "C:\dumps\app_05.03.2024 - 9_7_2.dmpC:\dumps\app_05.03.2024 - 9_7_3.dmp" in
  In (EvCreateFile p 7)
     (calls (world_of (CreateMiniDump_capture 0 9 1 "x" g1 w')))
  /\ p = "C:\dumps\app_05.03.2024 - 9_7_2.dmp"
         ++ dump_file_name "C:\dumps\" "app" (Scenario.at_time 9 7 3).
Proof.
  cbv zeta.
  assert (In (EvCreateFile
                "C:\dumps\app_05.03.2024 - 9_7_2.dmpC:\dumps\app_05.03.2024 - 9_7_3.dmp"
                7)
             (calls (world_of
                (CreateMiniDump_capture 0 9 1 "x"
                   (globals_of (CreateMiniDump_capture 0 9 1 "x" (Scenario.armed 2)
                      (Scenario.world [] (Scenario.obliging (Scenario.at_time 9 7 2)))))
                   (Scenario.world [] (Scenario.obliging (Scenario.at_time 9 7 3)))))))
    as Hin by (vm_compute; tauto).
  split; [exact Hin|].
  assert (value_of (CreateMinidumpFolder (Scenario.armed 2)
            (emit (EvLog "Creating Mini dump...")
               (Scenario.world [] (Scenario.obliging (Scenario.at_time 9 7 2)))))
          = TRUE) as Hok by (vm_compute; reflexivity).
  assert (forall l : list Event,
            l = (calls (Scenario.world []
                          (Scenario.obliging (Scenario.at_time 9 7 3))) ++ l)%list)
    as Hc by reflexivity.
  destruct (second_capture_appends_to_first_name 0 0 9 9 1 1 "x" "x"
              (Scenario.armed 2)
              (Scenario.world [] (Scenario.obliging (Scenario.at_time 9 7 2)))
              (Scenario.world [] (Scenario.obliging (Scenario.at_time 9 7 3)))
              _ _ _ Hok (Hc _) Hin) as [Hp _].
  etransitivity; [exact Hp|]. vm_compute. reflexivity.
Defined.

(** ** InitDumpCollection *)

Lemma last_char_backslash (s : string) :
  last_char s = Some backslash <-> exists s', s = s' ++ String backslash EmptyString.
Proof.
  induction s as [|c s IH].
  - cbn. split; [discriminate | intros [[|x s'] H]; discriminate].
  - destruct s as [|d s].
    + cbn. split.
      * intros H. injection H as ->. now exists "".
      * intros [[|x s'] H]; cbn in H.
        -- now injection H as ->.
        -- injection H as _ H. destruct s'; discriminate.
    + change (last_char (String c (String d s))) with (last_char (String d s)).
      rewrite IH. split.
      * intros [s' ->]. now exists (String c s').
      * intros [[|x s'] H]; cbn in H; [discriminate|].
        injection H as _ H. now exists s'.
Qed.

Lemma PathIsRelative_rooted (p : string) : PathIsRelative p = FALSE <-> rooted p.
Proof.
  unfold rooted. destruct p as [|c [|d rest]]; cbn.
  - split; [discriminate | intros [[r H] | (c & r & H)]; discriminate].
  - destruct (Ascii.eqb c backslash) eqn:E.
    + apply Ascii.eqb_eq in E as ->. split; [left; now exists "" | reflexivity].
    + split; [discriminate|]. intros [[r H] | (c' & r & H)]; [|discriminate].
      injection H as -> _. now rewrite Ascii.eqb_refl in E.
  - destruct (Ascii.eqb c backslash) eqn:E.
    + apply Ascii.eqb_eq in E as ->. split; [left; eexists; reflexivity | reflexivity].
    + destruct (Ascii.eqb d ":") eqn:E'.
      * apply Ascii.eqb_eq in E' as ->.
        split; [right; do 2 eexists; reflexivity | reflexivity].
      * split; [discriminate|]. intros [[r H] | (c' & r & H)].
        -- injection H as -> _. now rewrite Ascii.eqb_refl in E.
        -- injection H as _ -> _. now rewrite Ascii.eqb_refl in E'.
Qed.

Lemma InitDumpCollection_accepts_iff n folder name g w :
  value_of (InitDumpCollection n folder name g w) = TRUE
  <-> init_accepts g n folder name.
Proof.
  unfold init_accepts, InitDumpCollection. run_prog.
  destruct (_collectDumps g).
  { cbn. split; [discriminate | intros [H _]; discriminate]. }
  destruct folder as [f|], name as [nm|]; cbn [value_of fst];
    try (split; [discriminate | intros (_ & _ & f0 & nm0 & H1 & H2 & _);
                                discriminate]).
  pose proof (wcschr_found f "/") as Hslash.
  pose proof (last_char_backslash f) as Hlast.
  pose proof (PathIsRelative_rooted f) as Hroot.
  destruct (n <=? 0) eqn:En.
  { apply Z.leb_le in En. cbn.
    split; [discriminate | intros (_ & Hn & _); lia]. }
  apply Z.leb_gt in En.
  destruct (is_null (wcschr f "/")); cbn [negb orb].
  2:{ cbn. split; [discriminate|].
      intros (_ & _ & f0 & nm0 & H1 & _ & Hs & _). injection H1 as <-.
      exfalso. apply Hs. now apply Hslash. }
  assert (~ contains_char "/" f) as Hns
    by (intros H; apply Hslash in H; discriminate).
  destruct (last_char f) as [c|] eqn:El.
  2:{ cbn. split; [discriminate|].
      intros (_ & _ & f0 & nm0 & H1 & _ & _ & He & _). injection H1 as <-.
      apply Hlast in He. discriminate. }
  destruct (Ascii.eqb c backslash) eqn:Ec; cbn [negb orb].
  2:{ cbn. split; [discriminate|].
      intros (_ & _ & f0 & nm0 & H1 & _ & _ & He & _). injection H1 as <-.
      apply Hlast in He. injection He as ->.
      now rewrite Ascii.eqb_refl in Ec. }
  apply Ascii.eqb_eq in Ec. subst c.
  destruct (PathIsRelative f); cbn [Bool.eqb TRUE].
  { cbn. split; [discriminate|].
    intros (_ & _ & f0 & nm0 & H1 & _ & _ & _ & Hr & _). injection H1 as <-.
    apply Hroot in Hr. discriminate. }
  destruct (CheckDumpNameConstraints nm) eqn:Ecn; cbn.
  - split; [|reflexivity]. intros _.
    split; [reflexivity|]. split; [exact En|].
    exists f, nm. repeat split; auto.
    + now apply Hlast.
    + now apply Hroot.
  - split; [discriminate|].
    intros (_ & _ & f0 & nm0 & _ & H2 & _ & _ & _ & Hc). injection H2 as <-.
    rewrite Ecn in Hc. discriminate.
Qed.

Lemma InitDumpCollection_outcome n folder name g w :
  let r := InitDumpCollection n folder name g w in
  (value_of r = TRUE ->
   exists f nm, folder = Some f /\ name = Some nm
                /\ globals_of r = armed_with g n f nm
                /\ lastError (world_of r) = lastError w)
  /\ (value_of r = FALSE ->
      globals_of r = g
      /\ lastError (world_of r)
         = (if _collectDumps g then ERROR_ACCESS_DENIED
            else ERROR_BAD_ARGUMENTS))
  /\ files (world_of r) = files w
  /\ exists evs, calls (world_of r) = (calls w ++ evs)%list
                 /\ Forall inert_call evs.
Proof.
  cbv zeta. unfold InitDumpCollection, SetLastError. run_prog.
  assert (forall e1 e2, Forall inert_call [EvLog e1; EvSetLastError e2]) as Fbad
    by (intros; repeat constructor).
  destruct (_collectDumps g) eqn:Ea.
  { cbn. rewrite <- !app_assoc. split; [discriminate|].
    split; [auto|]. split; [reflexivity|]. eexists. split; [reflexivity|].
    apply Fbad. }
  destruct folder as [f|], name as [nm|];
    try (cbn; rewrite <- !app_assoc; split; [discriminate|];
         split; [auto|]; split; [reflexivity|]; eexists;
         split; [reflexivity | apply Fbad]).
  destruct (n <=? 0);
    [cbn; rewrite <- !app_assoc; split; [discriminate|];
     split; [auto|]; split; [reflexivity|]; eexists;
     split; [reflexivity | apply Fbad]|].
  destruct (_ || _ || _);
    [cbn; rewrite <- !app_assoc; split; [discriminate|];
     split; [auto|]; split; [reflexivity|]; eexists;
     split; [reflexivity | apply Fbad]|].
  destruct (CheckDumpNameConstraints nm); cbn; rewrite <- ?app_assoc.
  - split; [|split; [discriminate|]].
    + intros _. exists f, nm. unfold armed_with. auto.
    + split; [reflexivity|]. eexists. split; [reflexivity|].
      repeat constructor.
  - split; [discriminate|].
    split; [auto|]. split; [reflexivity|]. eexists. split; [reflexivity|].
    apply Fbad.
Qed.

(** X8. [InitDumpCollection] returns [TRUE] exactly when collection is not
    initialised yet, the retained count is positive, both strings are given,
    the folder contains no slash, ends with a backslash and starts with a
    backslash or a drive, and the name passes [CheckDumpNameConstraints];
    it then stores count, folder, name and the pattern folder + name +
    [*.dmp], and touches nothing else. *)
Theorem InitDumpCollection_accepts_exactly
    (n : Z) (folder name : option string) (g : Globals) (w : World) :
  let r := InitDumpCollection n folder name g w in
  (value_of r = TRUE <-> init_accepts g n folder name)
  /\ forall f nm, folder = Some f -> name = Some nm -> value_of r = TRUE ->
                  globals_of r = armed_with g n f nm.
Proof.
  cbv zeta. split; [apply InitDumpCollection_accepts_iff|].
  intros f nm -> -> Hv.
  destruct (InitDumpCollection_outcome n (Some f) (Some nm) g w) as (Ht & _).
  destruct (Ht Hv) as (f0 & nm0 & E1 & E2 & Hg & _).
  injection E1 as <-. injection E2 as <-. exact Hg.
Qed.

(** X9. A rejected [InitDumpCollection] changes no global and no file and
    issues nothing but a log line and [SetLastError]; the last error is
    [ERROR_ACCESS_DENIED] when collection was initialised already and
    [ERROR_BAD_ARGUMENTS] otherwise. *)
Theorem InitDumpCollection_rejection_changes_nothing
    (n : Z) (folder name : option string) (g : Globals) (w : World) :
  let r := InitDumpCollection n folder name g w in
  value_of r = FALSE ->
  globals_of r = g
  /\ files (world_of r) = files w
  /\ lastError (world_of r)
     = (if _collectDumps g then ERROR_ACCESS_DENIED else ERROR_BAD_ARGUMENTS)
  /\ exists evs, calls (world_of r) = (calls w ++ evs)%list
                 /\ Forall inert_call evs.
Proof.
  cbv zeta. intros Hv.
  destruct (InitDumpCollection_outcome n folder name g w)
    as (_ & Hf & Hfiles & Hev).
  destruct (Hf Hv) as [Hg Hl]. auto.
Qed.

Lemma InitDumpCollection_rejection_changes_nothing_witness :
  let w := Scenario.world [] (Scenario.obliging (Scenario.at_time 9 7 2)) in
  (* a relative folder *)
  lastError (world_of (InitDumpCollection 2 (Some "dumps\") (Some "app")
                         initial_globals w)) = ERROR_BAD_ARGUMENTS
  /\ globals_of (InitDumpCollection 2 (Some "dumps\") (Some "app")
                   initial_globals w) = initial_globals.
Proof.
  cbv zeta.
  destruct (InitDumpCollection_rejection_changes_nothing 2 (Some "dumps\")
              (Some "app") initial_globals
              (Scenario.world [] (Scenario.obliging (Scenario.at_time 9 7 2)))
              eq_refl) as (Hg & _ & Hl & _).
  split; [exact Hl | exact Hg].
Defined.

(** ** The search pattern and the files it finds *)

Lemma wildcard_star (p s : string) :
  wildcard (String "*" p) s
  = wildcard p s
    || match s with
       | EmptyString => false
       | String _ t => wildcard (String "*" p) t
       end.
Proof. destruct s; reflexivity. Qed.

Lemma wildcard_prefix (nm q t : string) :
  wildcard q t = true -> wildcard (nm ++ q) (nm ++ t) = true.
Proof.
  intros H. induction nm as [|c nm IH]; [exact H|].
  change (String c nm ++ q) with (String c (nm ++ q)).
  change (String c nm ++ t) with (String c (nm ++ t)).
  destruct (Ascii.eqb c "*") eqn:E.
  - apply Ascii.eqb_eq in E as ->.
    rewrite wildcard_star, wildcard_star, IH.
    destruct (nm ++ t); cbn [orb]; now rewrite ?orb_true_r.
  - cbn [wildcard]. rewrite E, Ascii.eqb_refl, orb_true_r. exact IH.
Qed.

Lemma wildcard_extension (s : string) : wildcard "*.dmp" (s ++ ".dmp") = true.
Proof.
  induction s as [|c s IH]; [reflexivity|].
  change (String c s ++ ".dmp") with (String c (s ++ ".dmp")).
  rewrite wildcard_star, IH. apply orb_true_r.
Qed.

Lemma splitPath_name (x : string) :
  all_chars not_backslash x = true -> splitPath x = ("", x).
Proof.
  induction x as [|c x IH]; [reflexivity|].
  cbn [all_chars]. rewrite andb_true_iff. intros [Hc Hx].
  cbn [splitPath]. rewrite (IH Hx).
  unfold not_backslash in Hc. apply negb_true_iff in Hc. now rewrite Hc.
Qed.

Lemma splitPath_folder (f' x : string) :
  all_chars not_backslash x = true ->
  splitPath ((f' ++ String backslash "") ++ x)
  = (f' ++ String backslash "", x).
Proof.
  intros Hx. induction f' as [|c f' IH].
  - cbn [append splitPath]. rewrite (splitPath_name x Hx).
    now rewrite Ascii.eqb_refl.
  - change ((String c f' ++ String backslash "") ++ x)
      with (String c ((f' ++ String backslash "") ++ x)).
    cbn [splitPath]. rewrite IH. destruct f'; reflexivity.
Qed.

Lemma wcschr_none (s : string) (c : ascii) :
  is_null (wcschr s c) = true ->
  all_chars (fun d => negb (Ascii.eqb d c)) s = true.
Proof.
  induction s as [|d s IH]; [reflexivity|].
  cbn [wcschr all_chars]. destruct (Ascii.eqb d c); [discriminate|].
  exact IH.
Qed.

Lemma accepted_name (nm : string) :
  CheckDumpNameConstraints nm = TRUE ->
  all_chars not_backslash nm = true /\ nm <> "".
Proof.
  unfold CheckDumpNameConstraints.
  destruct (is_null (wcschr nm "/")); [|discriminate].
  destruct (is_null (wcschr nm backslash)) eqn:Eb; [|discriminate].
  cbn [negb orb].
  intros H. split; [now apply wcschr_none|].
  intros ->. discriminate.
Qed.

Lemma digit_not_backslash (c : ascii) :
  is_digit c = true -> not_backslash c = true.
Proof.
  unfold not_backslash. destruct (Ascii.eqb c backslash) eqn:E; [|reflexivity].
  apply Ascii.eqb_eq in E as ->. intros H. vm_compute in H. discriminate.
Qed.

Lemma dump_stem_no_backslash (t : SYSTEMTIME) :
  all_chars not_backslash (dump_stem t) = true.
Proof.
  assert (forall n, all_chars not_backslash (dec n) = true) as Hd
    by (intros n; apply (all_chars_weaken is_digit);
        [apply digit_not_backslash | apply dec_digits]).
  assert (forall n, all_chars not_backslash (pad2 n) = true) as Hp
    by (intros n; apply (all_chars_weaken is_digit);
        [apply digit_not_backslash | apply pad2_digits]).
  unfold dump_stem. rewrite !all_chars_append, !Hd, !Hp. reflexivity.
Qed.

Lemma dump_file_name_stem (folder base : string) (t : SYSTEMTIME) :
  dump_file_name folder base t = folder ++ base ++ dump_stem t ++ ".dmp".
Proof.
  unfold dump_file_name, dump_stem. now rewrite !append_assoc.
Qed.

Lemma not_dot_entry (nm s : string) :
  nm <> "" -> is_dot_entry (nm ++ s ++ ".dmp") = false.
Proof.
  intros Hnm.
  assert (forall x, (String.length x < 5)%nat -> nm ++ s ++ ".dmp" <> x) as Hx.
  { intros x Hl E. rewrite <- E, !length_append in Hl.
    destruct nm; [congruence|]. cbn [String.length] in Hl. lia. }
  unfold is_dot_entry, wcscmp.
  pose proof (String.compare_eq_iff (nm ++ s ++ ".dmp") ".") as H1.
  pose proof (String.compare_eq_iff (nm ++ s ++ ".dmp") "..") as H2.
  destruct (String.compare (nm ++ s ++ ".dmp") ".");
    [exfalso; apply (Hx "."); [cbn; lia | now apply H1] | |];
    (destruct (String.compare (nm ++ s ++ ".dmp") "..");
     [exfalso; apply (Hx ".."); [cbn; lia | now apply H2] | |]);
    reflexivity.
Qed.

(** The files of the dump folder whose names start with the dump name and
    end with the extension are the entries of the search. *)
Lemma dumps_found_prefix (f' nm s : string) (F : File) (fs : list File) :
  all_chars not_backslash nm = true ->
  nm <> "" ->
  In F fs ->
  fileDir F = f' ++ String backslash "" ->
  fileName F = nm ++ s ++ ".dmp" ->
  In (find_data F)
     (dumps_found (((f' ++ String backslash "") ++ nm) ++ "*.dmp") fs).
Proof.
  intros Hnm Hne Hin Hd Hn.
  unfold dumps_found, counted, matching.
  rewrite append_assoc, splitPath_folder
    by (rewrite all_chars_append, Hnm; reflexivity).
  apply filter_In. split.
  - apply in_map, filter_In. split; [exact Hin|].
    rewrite Hd, String.eqb_refl, Hn. cbn [andb].
    apply wildcard_prefix, wildcard_extension.
  - unfold find_data. cbn [cFileName]. rewrite Hn, not_dot_entry by exact Hne.
    reflexivity.
Qed.

(** X10. The pattern a successful [InitDumpCollection] stores selects by
    prefix: every file of the dump folder whose name starts with the dump
    name and ends in [.dmp] is an entry the retention scan counts, also
    the dumps of a longer dump name. *)
Theorem pattern_selects_by_prefix
    (n : Z) (f nm : string) (g0 : Globals) (w0 : World)
    (s : string) (F : File) (fs : list File) :
  let g := globals_of (InitDumpCollection n (Some f) (Some nm) g0 w0) in
  value_of (InitDumpCollection n (Some f) (Some nm) g0 w0) = TRUE ->
  In F fs ->
  fileDir F = f ->
  fileName F = nm ++ s ++ ".dmp" ->
  In (find_data F) (dumps_found (_minidumpPattern g) fs).
Proof.
  cbv zeta. intros Hv Hin Hd Hn.
  destruct (InitDumpCollection_outcome n (Some f) (Some nm) g0 w0) as (Ht & _).
  destruct (Ht Hv) as (f0 & nm0 & E1 & E2 & -> & _).
  injection E1 as <-. injection E2 as <-.
  apply InitDumpCollection_accepts_iff in Hv
    as (_ & _ & f0 & nm0 & E1 & E2 & _ & [f' Hf] & _ & Hc).
  injection E1 as <-. injection E2 as <-.
  destruct (accepted_name nm Hc) as [Hnm Hne].
  cbn [armed_with _minidumpPattern]. subst f.
  now apply (dumps_found_prefix f' nm s).
Qed.

Lemma pattern_selects_by_prefix_witness :
  let w := Scenario.world [] (Scenario.obliging (Scenario.at_time 9 7 2)) in
  let g := globals_of (InitDumpCollection 2 (Some "C:\dumps\") (Some "app")
                         initial_globals w) in
  let other := {| fileDir := "C:\dumps\"; fileName := "application_1.dmp";
                  fileTime := 5 |} in
  In (find_data other) (dumps_found (_minidumpPattern g) [other]).
Proof.
  cbv zeta.
  apply (pattern_selects_by_prefix 2 "C:\dumps\" "app" initial_globals _
           "lication_1");
    [reflexivity | now left | reflexivity | reflexivity].
Defined.

(** X11. After a successful [InitDumpCollection] on an empty string
    stream, a capture that creates its folder and its file leaves a file
    in the dump folder, named dump name, underscore, date and time,
    [.dmp], which the search of the next retention scan finds. *)
Theorem first_dump_is_found_by_the_next_scan
    (n : Z) (f nm : string) (g0 : Globals) (w0 : World)
    (ep : Z) (h : HANDLE) (pid : Z) (name : string) (w : World) :
  let g := globals_of (InitDumpCollection n (Some f) (Some nm) g0 w0) in
  let r := CreateMiniDump_capture ep h pid name g w in
  let t := ans_LocalTime (answers w) in
  value_of (InitDumpCollection n (Some f) (Some nm) g0 w0) = TRUE ->
  _minidumpStringBuilder g0 = "" ->
  value_of (CreateMinidumpFolder g (emit (EvLog "Creating Mini dump...") w))
  = TRUE ->
  ans_CreateFile (answers w) (dump_file_name f nm t) <> INVALID_HANDLE_VALUE ->
  let F := {| fileDir := f; fileName := nm ++ dump_stem t ++ ".dmp";
              fileTime := ans_FileTimeNow (answers w) |} in
  In F (files (world_of r))
  /\ In (find_data F)
        (dumps_found (_minidumpPattern (globals_of r)) (files (world_of r))).
Proof.
  cbv zeta. intros Hv Hs Hok Hcf.
  destruct (InitDumpCollection_outcome n (Some f) (Some nm) g0 w0) as (Ht & _).
  destruct (Ht Hv) as (f0 & nm0 & E1 & E2 & Hg & _).
  injection E1 as <-. injection E2 as <-.
  apply InitDumpCollection_accepts_iff in Hv
    as (_ & _ & f0 & nm0 & E1 & E2 & _ & [f' Hf] & _ & Hc).
  injection E1 as <-. injection E2 as <-.
  destruct (accepted_name nm Hc) as [Hnm Hne].
  set (g := globals_of (InitDumpCollection n (Some f) (Some nm) g0 w0)) in *.
  destruct (capture_anatomy ep h pid name g w) as [_ HT].
  specialize (HT Hok) as (_ & Hfiles & _ & Hgl).
  pose proof (capture_config ep h pid name g w) as Hcfg.
  assert (_minidumpPattern
            (globals_of (CreateMiniDump_capture ep h pid name g w))
          = (f ++ nm) ++ "*.dmp") as Hpat.
  { unfold config in Hcfg. injection Hcfg as _ _ _ _ ->. now rewrite Hg. }
  assert (_minidumpStringBuilder g
          ++ dump_file_name (_dumpFolder g) (_dumpName g)
                            (ans_LocalTime (answers w))
          = dump_file_name f nm (ans_LocalTime (answers w))) as Hpath.
  { rewrite Hg. cbn [armed_with _minidumpStringBuilder _dumpFolder _dumpName].
    now rewrite Hs. }
  rewrite Hpath in Hfiles.
  assert (In {| fileDir := f;
                fileName := nm ++ dump_stem (ans_LocalTime (answers w)) ++ ".dmp";
                fileTime := ans_FileTimeNow (answers w) |}
             (files (world_of (CreateMiniDump_capture ep h pid name g w))))
    as Hin.
  { rewrite Hfiles. unfold files_after_CreateFile.
    apply Z.eqb_neq in Hcf. rewrite Hcf.
    apply in_or_app. right. left.
    rewrite dump_file_name_stem, Hf, splitPath_folder.
    - reflexivity.
    - rewrite !all_chars_append, Hnm, dump_stem_no_backslash. reflexivity. }
  split; [exact Hin|].
  rewrite Hpat, Hf.
  apply (dumps_found_prefix f' nm (dump_stem (ans_LocalTime (answers w))));
    auto.
  now rewrite <- Hf.
Qed.

Lemma first_dump_is_found_by_the_next_scan_witness :
  let w := Scenario.world [] (Scenario.obliging (Scenario.at_time 9 7 2)) in
  let g := globals_of (InitDumpCollection 2 (Some "C:\dumps\") (Some "app")
                         initial_globals w) in
  let r := CreateMiniDump_capture 0 9 1 "x" g w in
  dumps_found (_minidumpPattern (globals_of r)) (files (world_of r)) <> [].
Proof.
  cbv zeta. intros E.
  destruct (first_dump_is_found_by_the_next_scan 2 "C:\dumps\" "app"
              initial_globals
              (Scenario.world [] (Scenario.obliging (Scenario.at_time 9 7 2)))
              0 9 1 "x"
              (Scenario.world [] (Scenario.obliging (Scenario.at_time 9 7 2)))
              eq_refl eq_refl eq_refl) as [_ H].
  - vm_compute. discriminate.
  - rewrite E in H. destruct H.
Defined.

(** ** A capture, step by step *)

Lemma folder_step_call path e : folder_step path e -> folder_call e.
Proof.
  intros [H | (folder & -> & _)]; [destruct e; try destruct H|]; exact I.
Qed.

Lemma capture_before_CreateFile ep h pid name g w :
  let r := CreateMiniDump_capture ep h pid name g w in
  folder_available g (answers w) ->
  exists before,
    calls (world_of r)
    = (calls w ++ before
       ++ calls_from_CreateFile (answers w) ep h pid (dump_path g w))%list
    /\ Forall preparation_call before.
Proof.
  cbv zeta. intros Hav.
  destruct (CreateMinidumpFolder_spec g (emit (EvLog "Creating Mini dump...") w))
    as (_ & _ & _ & Iff & _).
  cbv zeta in Iff. cbn [answers emit] in Iff. apply Iff in Hav.
  destruct (capture_new_calls ep h pid name g w)
    as (evs1 & evs2 & tail & C & F1 & F2 & T).
  destruct T as [[Ok1' _] | [_ (logs & FL & ->)]];
    [rewrite Hav in Ok1'; discriminate|].
  exists (EvLog "Creating Mini dump..." :: evs1 ++ evs2 ++ logs)%list.
  split.
  - rewrite C. unfold dump_path.
    repeat (rewrite <- app_assoc || rewrite <- app_comm_cons). reflexivity.
  - constructor; [left; exact I|].
    rewrite !Forall_app. repeat split.
    + eapply Forall_impl; [|exact F1]. intros e He. now left.
    + eapply Forall_impl; [|exact F2]. intros e He. now right.
    + eapply Forall_impl; [|exact FL]. intros e He. left.
      destruct e; try destruct He. exact I.
Qed.

Lemma capture_success_calls ep h pid name g w :
  let r := CreateMiniDump_capture ep h pid name g w in
  folder_available g (answers w) ->
  writer_available (answers w) (dump_path g w) ->
  exists before after,
    calls (world_of r)
    = (calls w ++ before
       ++ dump_calls (answers w) ep h pid (dump_path g w) ++ after)%list
    /\ Forall preparation_call before
    /\ Forall is_log after.
Proof.
  cbv zeta. intros Hav (H1 & H2 & H3 & H4).
  destruct (capture_before_CreateFile ep h pid name g w Hav)
    as (before & C & F).
  exists before.
  exists (if ans_CloseHandle (answers w)
               (ans_CreateFile (answers w) (dump_path g w))
          then []
          else [EvLog ("CloseHandle failed: GetLastError()="
                       ++ dec (ans_CloseHandle_error (answers w)
                                 (ans_CreateFile (answers w) (dump_path g w))))]).
  split; [|split; [exact F|]].
  - rewrite C. unfold calls_from_CreateFile, dump_calls.
    apply Z.eqb_neq in H1, H2, H3, H4. rewrite H1, H2, H3, H4. reflexivity.
  - destruct (ans_CloseHandle _ _); repeat constructor.
Qed.

(** X12. When a directory of the dump folder can neither be created nor
    exists, a capture gives up without a trace in the file system: no
    global and no file changes, and after its first log line it has only
    made the calls of [CreateMinidumpFolder]; there is no directory search,
    no [CreateFile] and no call of the dump writer. *)
Theorem capture_gives_up_without_folder
    (ep : Z) (h : HANDLE) (pid : Z) (name : string) (g : Globals) (w : World) :
  let r := CreateMiniDump_capture ep h pid name g w in
  ~ folder_available g (answers w) ->
  globals_of r = g
  /\ files (world_of r) = files w
  /\ exists evs,
       calls (world_of r)
       = (calls w ++ EvLog "Creating Mini dump..." :: evs)%list
       /\ Forall (folder_step (_dumpFolder g)) evs.
Proof.
  cbv zeta. intros Hno.
  destruct (CreateMinidumpFolder_spec g (emit (EvLog "Creating Mini dump...") w))
    as (G & Fi & _ & Iff & (evs & Hc & F)).
  cbv zeta in *. cbn [answers files calls emit] in *.
  destruct (capture_anatomy ep h pid name g w) as [HF _].
  assert (value_of (CreateMinidumpFolder g
                      (emit (EvLog "Creating Mini dump...") w)) = FALSE) as Hv.
  { destruct (value_of _); [|reflexivity]. exfalso. apply Hno, Iff.
    reflexivity. }
  rewrite (HF Hv). cbn [globals_of world_of fst snd].
  split; [exact G|]. split; [exact Fi|].
  exists evs. split; [|exact F].
  rewrite Hc, <- app_assoc. reflexivity.
Qed.

Lemma capture_gives_up_without_folder_witness :
  let w := Scenario.world Scenario.two_dumps
             (Scenario.read_only (Scenario.at_time 9 7 2)) in
  files (world_of (CreateMiniDump_capture 0 9 1 "x" (Scenario.armed 2) w))
  = Scenario.two_dumps.
Proof.
  cbv zeta.
  destruct (capture_gives_up_without_folder 0 9 1 "x" (Scenario.armed 2)
              (Scenario.world Scenario.two_dumps
                 (Scenario.read_only (Scenario.at_time 9 7 2))))
    as (_ & Hf & _); [|exact Hf].
  intros H. specialize (H "C:\dumps").
  destruct H as [H | H]; [now exists "" | reflexivity | |]; discriminate.
Defined.

(** X13. When the folder is available, the file can be created and the
    dump writer resolved, a capture makes, after the folder creation and
    the retention scan, exactly these calls in this order: [CreateFile] for
    the path, [LoadLibrary], [GetProcAddress], the dump writer on the handle
    [CreateFile] returned, a log line, [CloseHandle] on that handle; after
    it there are only log lines.  The handle is closed whether the writer
    succeeded or not. *)
Theorem capture_writes_then_closes
    (ep : Z) (h : HANDLE) (pid : Z) (name : string) (g : Globals) (w : World) :
  let r := CreateMiniDump_capture ep h pid name g w in
  folder_available g (answers w) ->
  writer_available (answers w) (dump_path g w) ->
  exists before after,
    calls (world_of r)
    = (calls w ++ before
       ++ dump_calls (answers w) ep h pid (dump_path g w) ++ after)%list
    /\ Forall preparation_call before
    /\ Forall is_log after.
Proof. exact (capture_success_calls ep h pid name g w). Qed.

Lemma capture_writes_then_closes_witness :
  let w := Scenario.world [] (Scenario.obliging (Scenario.at_time 9 7 2)) in
  exists before after,
    calls (world_of (CreateMiniDump_capture 0 9 1 "x" (Scenario.armed 2) w))
    = (before
       ++ [EvCreateFile "C:\dumps\app_05.03.2024 - 9_7_2.dmp" 7;
           EvLoadLibrary "DbgHelp.dll";
           EvGetProcAddress 4096 "MiniDumpWriteDump";
           EvMiniDumpWriteDump 9 1 7 MiniDumpNormal None;
           EvLog "Minidump saved";
           EvCloseHandle 7] ++ after)%list.
Proof.
  cbv zeta.
  destruct (capture_writes_then_closes 0 9 1 "x" (Scenario.armed 2)
              (Scenario.world [] (Scenario.obliging (Scenario.at_time 9 7 2))))
    as (before & after & Hc & _).
  - intros folder _ _. right. reflexivity.
  - repeat split; discriminate.
  - exists before, after. exact Hc.
Defined.

(** X14. When the folder is available but [CreateFile] fails, the capture
    ends with the [CreateFile] call and one log line carrying the error
    code: nothing is loaded, written or closed and no file is added. The
    string stream has nevertheless grown by the file name. *)
Theorem capture_without_file
    (ep : Z) (h : HANDLE) (pid : Z) (name : string) (g : Globals) (w : World) :
  let r := CreateMiniDump_capture ep h pid name g w in
  folder_available g (answers w) ->
  ans_CreateFile (answers w) (dump_path g w) = INVALID_HANDLE_VALUE ->
  (exists before,
     calls (world_of r)
     = (calls w ++ before
        ++ [EvCreateFile (dump_path g w) INVALID_HANDLE_VALUE;
            EvLog ("CreateFile returned INVALID_HANDLE_VALUE: GetLastError()="
                   ++ dec (ans_CreateFile_error (answers w) (dump_path g w)))])%list
     /\ Forall preparation_call before)
  /\ incl (files (world_of r)) (files w)
  /\ _minidumpStringBuilder (globals_of r) = dump_path g w.
Proof.
  cbv zeta. intros Hav Hcf.
  destruct (capture_before_CreateFile ep h pid name g w Hav)
    as (before & C & F).
  split; [|split].
  - exists before. split; [|exact F].
    rewrite C. unfold calls_from_CreateFile. rewrite Hcf. reflexivity.
  - now apply capture_incl_files.
  - destruct (CreateMinidumpFolder_spec g
                (emit (EvLog "Creating Mini dump...") w))
      as (_ & _ & _ & Iff & _).
    cbv zeta in Iff. cbn [answers emit] in Iff. apply Iff in Hav.
    destruct (capture_globals_named ep h pid name g w Hav) as (Hs & _).
    exact Hs.
Qed.

Lemma capture_without_file_witness :
  let a := {| ans_CreateDirectory := fun _ => ERROR_ALREADY_EXISTS;
              ans_FindFirstFile := fun _ => None;
              ans_DeleteFile := fun _ => None;
              ans_CreateFile := fun _ => INVALID_HANDLE_VALUE;
              ans_CreateFile_error := fun _ => ERROR_ACCESS_DENIED;
              ans_LoadLibrary := fun _ => 4096;
              ans_GetProcAddress := fun _ _ => 8192;
              ans_MiniDumpWriteDump := TRUE;
              ans_CloseHandle := fun _ => TRUE;
              ans_CloseHandle_error := fun _ => 6;
              ans_OpenProcess := fun _ => 9;
              ans_LocalTime := Scenario.at_time 9 7 2;
              ans_FileTimeNow := 1000;
              ans_CurrentThreadId := 42;
              ans_CurrentProcess := -1;
              ans_CurrentProcessId := 4711 |} in
  let w := Scenario.world [] a in
  _minidumpStringBuilder
    (globals_of (CreateMiniDump_capture 0 9 1 "x" (Scenario.armed 2) w))
  = "C:\dumps\app_05.03.2024 - 9_7_2.dmp".
Proof.
  cbv zeta.
  match goal with
  | |- _minidumpStringBuilder
         (globals_of (CreateMiniDump_capture _ _ _ _ _ ?w)) = _ =>
      destruct (capture_without_file 0 9 1 "x" (Scenario.armed 2) w)
        as (_ & _ & Hs)
  end.
  - intros folder _ _. right. reflexivity.
  - reflexivity.
  - exact Hs.
Defined.

(** ** The fault handlers *)


Lemma CreateMiniDump_fault_armed ep g w :
  _collectDumps g = true ->
  CreateMiniDump_fault ep g w
  = CreateMiniDump_capture ep (ans_CurrentProcess (answers w))
      (ans_CurrentProcessId (answers w)) (_dumpName g) g w.
Proof.
  intros H. unfold CreateMiniDump_fault.
  unfold bind at 1. cbn [get_globals]. rewrite H.
  unfold bind at 1. cbn [GetCurrentProcess].
  unfold bind at 1. cbn [GetCurrentProcessId]. reflexivity.
Qed.

Lemma OnUnhandledException_run ep rec g w :
  let w1 := emit (EvLog ("Caught unhandled exception, ExceptionCode=0x"
                         ++ dec (ExceptionCode rec)
                         ++ ", ExceptionAddress=0x"
                         ++ dec (ExceptionAddress rec))) w in
  OnUnhandledException ep rec g w
  = (EXCEPTION_EXECUTE_HANDLER,
     globals_of (CreateMiniDump_fault ep g w1),
     world_of (CreateMiniDump_fault ep g w1)).
Proof.
  cbv zeta. unfold OnUnhandledException.
  unfold bind at 1. cbn [LOG4 sys]. unfold bind at 1.
  destruct (CreateMiniDump_fault ep g _) as [[u g'] w']. reflexivity.
Qed.





(** X16. [OnUnhandledException] returns [EXCEPTION_EXECUTE_HANDLER] in
    every state; and once collection is initialised, the folder is
    available, the file can be created and the dump writer resolved, it has
    the writer dump the current process, under the current process id, with
    an exception record that carries the supplied context. *)
Theorem OnUnhandledException_dumps_current_process
    (ep : Z) (rec : EXCEPTION_RECORD) (g : Globals) (w : World) :
  let r := OnUnhandledException ep rec g w in
  let a := answers w in
  value_of r = EXCEPTION_EXECUTE_HANDLER
  /\ (_collectDumps g = true ->
      folder_available g a ->
      writer_available a (dump_path g w) ->
      exists before after,
        calls (world_of r)
        = (calls w ++ before
           ++ dump_calls a ep (ans_CurrentProcess a) (ans_CurrentProcessId a)
                         (dump_path g w)
           ++ after)%list
        /\ Forall preparation_call before
        /\ Forall is_log after).
Proof.
  cbv zeta. rewrite OnUnhandledException_run. cbv zeta.
  split; [reflexivity|]. intros Harmed Hav Hwr.
  match goal with
  | |- context [emit (EvLog ?m) w] => generalize m; intros msg
  end.
  rewrite (CreateMiniDump_fault_armed _ _ _ Harmed).
  change (answers (emit (EvLog msg) w)) with (answers w).
  destruct (capture_success_calls ep (ans_CurrentProcess (answers w))
              (ans_CurrentProcessId (answers w)) (_dumpName g) g
              (emit (EvLog msg) w) Hav Hwr)
    as (before & after & C & F1 & F2).
  change (dump_path g (emit (EvLog msg) w)) with (dump_path g w) in C.
  change (answers (emit (EvLog msg) w)) with (answers w) in C.
  change (calls (emit (EvLog msg) w)) with (calls w ++ [EvLog msg])%list in C.
  exists (EvLog msg :: before), after. split; [|split; [|exact F2]].
  - unfold world_of in C |- *. cbn [snd]. rewrite C, <- app_assoc.
    reflexivity.
  - constructor; [left; exact I | exact F1].
Qed.

Lemma OnUnhandledException_dumps_current_process_witness :
  let w := Scenario.world [] (Scenario.obliging (Scenario.at_time 9 7 2)) in
  let r := OnUnhandledException 77 {| ExceptionCode := 5; ExceptionAddress := 64 |}
             (Scenario.armed 2) w in
  value_of r = EXCEPTION_EXECUTE_HANDLER
  /\ exists before after,
       calls (world_of r)
       = (before
          ++ [EvCreateFile "C:\dumps\app_05.03.2024 - 9_7_2.dmp" 7;
              EvLoadLibrary "DbgHelp.dll";
              EvGetProcAddress 4096 "MiniDumpWriteDump";
              EvMiniDumpWriteDump (-1) 4711 7 MiniDumpNormal
                (Some {| ThreadId := 42; ExceptionPointers := 77;
                         ClientPointers := TRUE |});
              EvLog "Minidump saved";
              EvCloseHandle 7] ++ after)%list.
Proof.
  cbv zeta.
  destruct (OnUnhandledException_dumps_current_process 77
              {| ExceptionCode := 5; ExceptionAddress := 64 |}
              (Scenario.armed 2)
              (Scenario.world [] (Scenario.obliging (Scenario.at_time 9 7 2))))
    as (Hv & Hdump).
  split; [exact Hv|].
  destruct Hdump as (before & after & Hc & _).
  - reflexivity.
  - intros folder _ _. right. reflexivity.
  - repeat split; discriminate.
  - exists before, after. exact Hc.
Defined.



(** ** The exported CreateMiniDump *)

Lemma CreateMiniDump_value pid name g w :
  value_of (CreateMiniDump pid name g w) = TRUE
  <-> _collectDumps g = true
      /\ CheckDumpNameConstraints name = TRUE
      /\ ans_OpenProcess (answers w) pid <> nullptr.
Proof.
  destruct (_collectDumps g) eqn:Ea.
  2:{ rewrite (CreateMiniDump_unarmed _ _ _ _ Ea). cbn.
      split; [discriminate | intros (H & _); discriminate]. }
  destruct (CheckDumpNameConstraints name) eqn:En.
  2:{ rewrite (CreateMiniDump_bad_name _ _ _ _ Ea En). cbn.
      split; [discriminate | intros (_ & H & _); discriminate]. }
  destruct (Z.eq_dec (ans_OpenProcess (answers w) pid) nullptr) as [Eo | Eo].
  - rewrite (CreateMiniDump_no_process _ _ _ _ Ea En Eo). cbn.
    split; [discriminate | intros (_ & _ & H); contradiction].
  - destruct (CreateMiniDump_outcome _ _ _ _ Ea En Eo) as (Hv & _).
    cbv zeta in Hv. rewrite Hv. tauto.
Qed.

(** X18. Whenever the exported [CreateMiniDump] returns [TRUE] it has
    opened the process with the rights [PROCESS_QUERY_INFORMATION],
    [PROCESS_VM_READ] and [PROCESS_DUP_HANDLE] right after its log line, and
    its last call closes the handle it got, whatever the capture in between
    did. *)
Theorem CreateMiniDump_closes_process_handle
    (pid : Z) (name : string) (g : Globals) (w : World) :
  let r := CreateMiniDump pid name g w in
  let hProcess := ans_OpenProcess (answers w) pid in
  value_of r = TRUE ->
  hProcess <> nullptr
  /\ exists evs,
       calls (world_of r)
       = (calls w
          ++ [EvLog "CreateMiniDump"; EvOpenProcess 1104 pid hProcess]
          ++ evs ++ [EvCloseHandle hProcess])%list.
Proof.
  cbv zeta. intros Hv.
  apply CreateMiniDump_value in Hv as (Ea & En & Eo).
  split; [exact Eo|].
  destruct (CreateMiniDump_outcome _ _ _ _ Ea En Eo) as (_ & _ & _ & Hc).
  cbv zeta in Hc. rewrite Hc.
  match type of Hc with
  | context [CreateMiniDump_capture ?ep ?h ?p ?nm g ?w0] =>
      destruct (capture_new_calls ep h p nm g w0)
        as (evs1 & evs2 & tail & C & _)
  end.
  rewrite C. cbn [calls emit].
  exists (EvLog "Creating Mini dump..." :: evs1 ++ evs2 ++ tail)%list.
  rewrite <- !app_assoc. reflexivity.
Qed.

Lemma CreateMiniDump_closes_process_handle_witness :
  let w := Scenario.world [] (Scenario.read_only (Scenario.at_time 9 7 2)) in
  exists evs,
    calls (world_of (CreateMiniDump 31 "x" (Scenario.armed 2) w))
    = ([EvLog "CreateMiniDump"; EvOpenProcess 1104 31 9]
       ++ evs ++ [EvCloseHandle 9])%list.
Proof.
  cbv zeta.
  destruct (CreateMiniDump_closes_process_handle 31 "x" (Scenario.armed 2)
              (Scenario.world [] (Scenario.read_only (Scenario.at_time 9 7 2)))
              eq_refl) as [_ [evs He]].
  exists evs. exact He.
Defined.

(** X19. When the exported [CreateMiniDump] returns [FALSE] it has changed
    no global and no file; it has logged, set the last error or asked
    [OpenProcess] in vain, and called nothing else: no handle is left
    open. *)
Theorem CreateMiniDump_rejection_changes_nothing
    (pid : Z) (name : string) (g : Globals) (w : World) :
  let r := CreateMiniDump pid name g w in
  value_of r = FALSE ->
  globals_of r = g
  /\ files (world_of r) = files w
  /\ exists evs,
       calls (world_of r) = (calls w ++ evs)%list
       /\ Forall (rejection_call pid) evs.
Proof.
  cbv zeta. intros Hv.
  destruct (_collectDumps g) eqn:Ea.
  2:{ rewrite (CreateMiniDump_unarmed _ _ _ _ Ea).
      cbn. rewrite <- !app_assoc. repeat split.
      eexists. split; [reflexivity|].
      repeat constructor; left; exact I. }
  destruct (CheckDumpNameConstraints name) eqn:En.
  2:{ rewrite (CreateMiniDump_bad_name _ _ _ _ Ea En).
      cbn. rewrite <- !app_assoc. repeat split.
      eexists. split; [reflexivity|].
      repeat constructor; left; exact I. }
  destruct (Z.eq_dec (ans_OpenProcess (answers w) pid) nullptr) as [Eo | Eo].
  - rewrite (CreateMiniDump_no_process _ _ _ _ Ea En Eo).
    cbn. rewrite <- !app_assoc. repeat split.
    eexists. split; [reflexivity|].
    constructor; [left; exact I|].
    constructor; [right; reflexivity|].
    constructor; [left; exact I | constructor].
  - destruct (CreateMiniDump_outcome _ _ _ _ Ea En Eo) as (Hv' & _).
    cbv zeta in Hv'. rewrite Hv' in Hv. discriminate.
Qed.

Lemma CreateMiniDump_rejection_changes_nothing_witness :
  let w := Scenario.world Scenario.two_dumps
             (Scenario.obliging (Scenario.at_time 9 7 2)) in
  globals_of (CreateMiniDump 31 "a*b" (Scenario.armed 2) w) = Scenario.armed 2
  /\ files (world_of (CreateMiniDump 31 "a*b" (Scenario.armed 2) w))
     = Scenario.two_dumps.
Proof.
  cbv zeta.
  destruct (CreateMiniDump_rejection_changes_nothing 31 "a*b"
              (Scenario.armed 2)
              (Scenario.world Scenario.two_dumps
                 (Scenario.obliging (Scenario.at_time 9 7 2)))
              eq_refl) as (Hg & Hf & _).
  split; [exact Hg | exact Hf].
Defined.

(** X20. Once collection is initialised, the name is accepted and the
    process could be opened, with the folder available, the file creatable
    and the dump writer resolved, the exported [CreateMiniDump] has the
    writer dump the opened process under the given process id, without
    exception information, into a file named after the configured dump
    name, closes the file and only then the process. *)
Theorem CreateMiniDump_dumps_opened_process
    (pid : Z) (name : string) (g : Globals) (w : World) :
  let r := CreateMiniDump pid name g w in
  let a := answers w in
  let hProcess := ans_OpenProcess a pid in
  let hFile := ans_CreateFile a (dump_path g w) in
  _collectDumps g = true ->
  CheckDumpNameConstraints name = TRUE ->
  hProcess <> nullptr ->
  folder_available g a ->
  writer_available a (dump_path g w) ->
  exists before after,
    calls (world_of r)
    = (calls w ++ before
       ++ [EvCreateFile (dump_path g w) hFile;
           EvLoadLibrary "DbgHelp.dll";
           EvGetProcAddress (ans_LoadLibrary a "DbgHelp.dll")
                            "MiniDumpWriteDump";
           EvMiniDumpWriteDump hProcess pid hFile MiniDumpNormal None;
           EvLog (if ans_MiniDumpWriteDump a then "Minidump saved"
                  else "MiniDumpWriteDump returned FALSE, unable to write a minidump");
           EvCloseHandle hFile]
       ++ after ++ [EvCloseHandle hProcess])%list
    /\ Forall (fun e => preparation_call e
                        \/ e = EvOpenProcess dump_access pid hProcess) before
    /\ Forall is_log after.
Proof.
  cbv zeta. intros Ea En Eo Hav Hwr.
  destruct (CreateMiniDump_outcome _ _ _ _ Ea En Eo) as (_ & _ & _ & Hc).
  cbv zeta in Hc. rewrite Hc.
  set (w0 := emit (EvOpenProcess _ pid _) (emit (EvLog "CreateMiniDump") w))
    in *.
  destruct (capture_success_calls nullptr (ans_OpenProcess (answers w) pid)
              pid name g w0 Hav Hwr) as (before & after & C & F1 & F2).
  rewrite C.
  exists (EvLog "CreateMiniDump"
          :: EvOpenProcess dump_access pid (ans_OpenProcess (answers w) pid)
          :: before), after.
  split; [|split; [|exact F2]].
  - subst w0. cbn [calls emit]. rewrite <- !app_assoc. reflexivity.
  - constructor; [left; left; exact I|].
    constructor; [right; reflexivity|].
    eapply Forall_impl; [|exact F1]. intros e He. now left.
Qed.

Lemma CreateMiniDump_dumps_opened_process_witness :
  let w := Scenario.world [] (Scenario.obliging (Scenario.at_time 9 7 2)) in
  In (EvMiniDumpWriteDump 9 31 7 MiniDumpNormal None)
     (calls (world_of (CreateMiniDump 31 "other" (Scenario.armed 2) w))).
Proof.
  cbv zeta.
  destruct (CreateMiniDump_dumps_opened_process 31 "other" (Scenario.armed 2)
              (Scenario.world [] (Scenario.obliging (Scenario.at_time 9 7 2))))
    as (before & after & Hc & _).
  - reflexivity.
  - reflexivity.
  - discriminate.
  - intros folder _ _. right. reflexivity.
  - repeat split; discriminate.
  - rewrite Hc. apply in_or_app. right. apply in_or_app. right.
    right. right. right. left. reflexivity.
Defined.

(** ** InstallPostmortemDebugger *)

(** X21. [InstallPostmortemDebugger] acts on a flag only when it equals
    [TRUE], that is 1: any other value, also a non-zero one, leaves the
    hook alone.  It returns [TRUE] exactly when none of the hooks asked for
    that can fail has returned [FALSE], and has then installed the hooks
    asked for, in the order of the parameters, each with its own handler;
    it changes neither the globals nor the files. *)
Theorem InstallPostmortemDebugger_acts_on_TRUE_only
    (hooks : HookAnswers)
    (suppressErrorWindows handleUnhandledExceptions handleCrtAsserts
     handleCrtPurecalls : Z) (crtVersions : CRuntimeVersions)
    (g : Globals) (w : World) :
  let r := InstallPostmortemDebugger hooks suppressErrorWindows
             handleUnhandledExceptions handleCrtAsserts handleCrtPurecalls
             crtVersions g w in
  let all := hooks_for suppressErrorWindows handleUnhandledExceptions
               handleCrtAsserts handleCrtPurecalls crtVersions in
  (fst (value_of r) = TRUE
   <-> (suppressErrorWindows = 1 ->
        hook_SuppressCrtAbortMessages hooks crtVersions <> 0)
       /\ (handleCrtAsserts = 1 ->
           hook_InterceptCrtAssert hooks crtVersions <> 0)
       /\ (handleCrtPurecalls = 1 ->
           hook_InterceptCrtPurecalls hooks crtVersions <> 0))
  /\ (fst (value_of r) = TRUE -> snd (value_of r) = all)
  /\ (exists later, all = (snd (value_of r) ++ later)%list)
  /\ globals_of r = g
  /\ files (world_of r) = files w.
Proof.
  cbv zeta. unfold InstallPostmortemDebugger, hooks_for. run_prog.
  destruct (suppressErrorWindows =? 1) eqn:E1;
    destruct (hook_SuppressCrtAbortMessages hooks crtVersions =? 0) eqn:H1;
    destruct (handleCrtAsserts =? 1) eqn:E3;
    destruct (hook_InterceptCrtAssert hooks crtVersions =? 0) eqn:H3;
    destruct (handleCrtPurecalls =? 1) eqn:E4;
    destruct (hook_InterceptCrtPurecalls hooks crtVersions =? 0) eqn:H4;
    destruct (handleUnhandledExceptions =? 1);
    cbn [andb value_of globals_of world_of fst snd files emit app];
    rewrite ?Z.eqb_eq, ?Z.eqb_neq in *;
    (split; [split; [intros Hv; try discriminate Hv; intuition congruence
                    | intros (A1 & A3 & A4);
                      try reflexivity; exfalso; intuition congruence]|]);
    (split; [intros Hv; try discriminate Hv; reflexivity|]);
    (split; [|split; reflexivity]);
    eexists; reflexivity.
Qed.

(** X22. A failing hook does not undo the hooks installed before it: when
    the unhandled-exception filter is asked for and the assert hook fails,
    [InstallPostmortemDebugger] returns [FALSE] with the filter installed,
    and no hook for pure calls is attempted. *)
Theorem InstallPostmortemDebugger_keeps_earlier_hooks
    (hooks : HookAnswers)
    (suppressErrorWindows handleCrtPurecalls : Z)
    (crtVersions : CRuntimeVersions) (g : Globals) (w : World) :
  let r := InstallPostmortemDebugger hooks suppressErrorWindows 1 1
             handleCrtPurecalls crtVersions g w in
  (suppressErrorWindows = 1 ->
   hook_SuppressCrtAbortMessages hooks crtVersions <> 0) ->
  hook_InterceptCrtAssert hooks crtVersions = 0 ->
  fst (value_of r) = FALSE
  /\ In (HookDoSetUnhandledExceptionFilter Handler_OnUnhandledException)
        (snd (value_of r))
  /\ forall h v, ~ In (HookInterceptCrtPurecalls h v) (snd (value_of r)).
Proof.
  cbv zeta. intros Hs Ha.
  unfold InstallPostmortemDebugger. run_prog.
  rewrite Ha, !Z.eqb_refl. cbn [andb].
  destruct (suppressErrorWindows =? 1) eqn:E1;
    destruct (hook_SuppressCrtAbortMessages hooks crtVersions =? 0) eqn:H1;
    rewrite ?Z.eqb_eq, ?Z.eqb_neq in *;
    try (exfalso; now apply Hs);
    cbn [andb value_of fst snd app In];
    (split; [reflexivity|]); (split; [auto|]);
    intros h v Hin; intuition discriminate.
Qed.

Lemma InstallPostmortemDebugger_keeps_earlier_hooks_witness :
  let hooks := {| hook_SuppressCrtAbortMessages := fun _ => 1;
                  hook_InterceptCrtAssert := fun _ => 0;
                  hook_InterceptCrtPurecalls := fun _ => 1 |} in
  let w := Scenario.world [] (Scenario.obliging (Scenario.at_time 9 7 2)) in
  value_of (InstallPostmortemDebugger hooks 1 1 1 1 0 initial_globals w)
  = (FALSE,
     [HookSuppressCrtAbortMessages 0;
      HookDoSetUnhandledExceptionFilter Handler_OnUnhandledException;
      HookInterceptCrtAssert Handler_OnCrtAssert 0]).
Proof.
  cbv zeta.
  destruct (InstallPostmortemDebugger_keeps_earlier_hooks
              {| hook_SuppressCrtAbortMessages := fun _ => 1;
                 hook_InterceptCrtAssert := fun _ => 0;
                 hook_InterceptCrtPurecalls := fun _ => 1 |}
              1 1 0 initial_globals
              (Scenario.world [] (Scenario.obliging (Scenario.at_time 9 7 2))))
    as (Hv & _).
  - intros _. discriminate.
  - reflexivity.
  - reflexivity.
Defined.
